(** * Budget data normalizer of the construction dashboard

    A shallow embedding of [dataNormalizer.js]: the column mapper, the
    grouping and summation pass, the top-N selector and the red-flag rule
    checker, with the JavaScript values they compute on.

    Conventions of the embedding:
    - a JavaScript number is an IEEE 754 binary64 value, taken from the
      reference implementation [SpecFloat] ([prec = 53], [emax = 1024]);
      the numbers are the values [valid_binary] accepts, and the statements
      below hold of every [spec_float];
    - a JavaScript string is a [string] whose characters are code units
      below 256;
    - a row (an object produced by the CSV parser) is its list of own
      properties in [Object.keys] order;
    - property lookups see own properties only;
    - the [try]/[catch] block is a state-and-exception monad over the result
      record the source mutates in place. *)

From Stdlib Require Import ZArith List Bool String Ascii Lia.
From Stdlib Require Import Sorted Permutation DecimalString.
From Stdlib Require Import Floats.SpecFloat.
Import ListNotations.

Local Open Scope string_scope.
Local Open Scope Z_scope.

(** ** JavaScript numbers *)

Module Num.

Definition num := spec_float.

Definition prec : Z := 53.
Definition emax : Z := 1024.

Definition NaN : num := S754_nan.
Definition infinity : num := S754_infinity false.
Definition zero : num := S754_zero false.

Definition add : num -> num -> num := SFadd prec emax.
Definition sub : num -> num -> num := SFsub prec emax.
Definition mul : num -> num -> num := SFmul prec emax.
Definition div : num -> num -> num := SFdiv prec emax.
Definition neg : num -> num := SFopp.

(** [a < b], [a > b]: false as soon as one side is NaN. *)
Definition ltb (a b : num) : bool := SFltb a b.
Definition gtb (a b : num) : bool := SFltb b a.
Definition geb (a b : num) : bool := SFleb b a.

Definition is_nan (a : num) : bool :=
  match a with S754_nan => true | _ => false end.

Definition is_zero (a : num) : bool :=
  match a with S754_zero _ => true | _ => false end.

(** ToBoolean on a number: [0], [-0] and [NaN] are falsy. *)
Definition truthy (a : num) : bool := negb (is_nan a || is_zero a).

(** The number nearest to an integer. *)
Definition of_Z (z : Z) : num := binary_normalize prec emax z 0 false.

(** The number nearest to [m * 10^e10], signed by [s]: what a decimal
    literal denotes. *)
Definition of_decimal (s : bool) (m : Z) (e10 : Z) : num :=
  match m with
  | Zpos p =>
      if 0 <=? e10
      then binary_normalize prec emax (cond_Zopp s (Zpos p * 10 ^ e10)) 0 s
      else SFdiv prec emax (S754_finite s p 0)
                          (S754_finite false (Z.to_pos (10 ^ (- e10))) 0)
  | _ => S754_zero s
  end.

(** [Math.ceil]. *)
Definition ceil (x : num) : num :=
  match x with
  | S754_finite s m e =>
      if 0 <=? e then x
      else
        let q := Z.shiftr (Zpos m) (- e) in
        let exact := Zpos m =? Z.shiftl q (- e) in
        let n := if s then q else if exact then q else q + 1 in
        if n =? 0 then S754_zero s
        else binary_normalize prec emax (cond_Zopp s n) 0 s
  | _ => x
  end.

(** [|x| >= 10^21] for a finite [x = m * 2^e]. *)
Definition ge_1e21 (m : positive) (e : Z) : bool :=
  if 0 <=? e then 10 ^ 21 <=? Zpos m * 2 ^ e
  else 10 ^ 21 * 2 ^ (- e) <=? Zpos m.

(** The integer [n] for which [n / 10^f - m * 2^e] is closest to zero,
    the larger one when two are as close. *)
Definition scaled_round (f : nat) (m : positive) (e : Z) : Z :=
  let t := Zpos m * 10 ^ Z.of_nat f in
  if 0 <=? e then t * 2 ^ e
  else (2 * t + 2 ^ (- e)) / 2 ^ (- e + 1).

End Num.

Abbreviation num := Num.num.

(** ** JavaScript strings *)

Module Str.

Definition code (c : ascii) : N := N_of_ascii c.

Definition is_digit (c : ascii) : bool :=
  ((48 <=? code c) && (code c <=? 57))%N.

Definition digit_val (c : ascii) : Z := Z.of_N (code c) - 48.

(** White space and line terminators among the code units below 256:
    TAB, LF, VT, FF, CR, SP and NBSP. *)
Definition is_space (c : ascii) : bool :=
  (((9 <=? code c) && (code c <=? 13)) || (code c =? 32) || (code c =? 160))%N.

Definition is_line_terminator (c : ascii) : bool :=
  ((code c =? 10) || (code c =? 13))%N.

(** [toLowerCase] on one code unit: A-Z, and the Latin-1 capitals
    U+00C0-U+00DE without the multiplication sign U+00D7. *)
Definition lower_char (c : ascii) : ascii :=
  let n := code c in
  if (((65 <=? n) && (n <=? 90))
      || ((192 <=? n) && (n <=? 222) && negb (n =? 215)))%N
  then ascii_of_N (n + 32) else c.

Fixpoint toLowerCase (s : string) : string :=
  match s with
  | EmptyString => EmptyString
  | String c r => String (lower_char c) (toLowerCase r)
  end.

Definition truthy (s : string) : bool :=
  match s with EmptyString => false | _ => true end.

Fixpoint skip_space (s : string) : string :=
  match s with
  | String c r => if is_space c then skip_space r else s
  | EmptyString => s
  end.

(** The longest run of decimal digits at the head of [s], and the rest. *)
Fixpoint span_digits (s : string) : list Z * string :=
  match s with
  | String c r =>
      if is_digit c
      then let '(ds, t) := span_digits r in (digit_val c :: ds, t)
      else ([], s)
  | EmptyString => ([], s)
  end.

Definition digits_value (ds : list Z) : Z :=
  fold_left (fun acc d => 10 * acc + d) ds 0.

Fixpoint starts_with (p s : string) : bool :=
  match p, s with
  | EmptyString, _ => true
  | String a p', String b s' => Ascii.eqb a b && starts_with p' s'
  | _, _ => false
  end.

(** ExponentPart of a decimal literal at the head of [s]: its value, or
    [0] when no well-formed exponent is there. *)
Definition exponent_part (s : string) : Z :=
  match s with
  | String c r =>
      if (Ascii.eqb c "e" || Ascii.eqb c "E")%bool then
        let '(sg, r') :=
          match r with
          | String "+" t => (false, t)
          | String "-" t => (true, t)
          | _ => (false, r)
          end in
        match fst (span_digits r') with
        | [] => 0
        | ds => cond_Zopp sg (digits_value ds)
        end
      else 0
  | EmptyString => 0
  end.

(** [parseFloat] on a string: leading white space is skipped, the longest
    prefix that is a StrDecimalLiteral is read, and the number nearest to
    its value is returned; NaN when there is no such prefix. *)
Definition parseFloat (s : string) : num :=
  let t := skip_space s in
  let '(sg, u) :=
    match t with
    | String "+" r => (false, r)
    | String "-" r => (true, r)
    | _ => (false, t)
    end in
  if starts_with "Infinity" u then S754_infinity sg
  else
    let '(ip, v) := span_digits u in
    match v with
    | String "." w =>
        let '(fp, x) := span_digits w in
        match ip, fp with
        | [], [] => Num.NaN
        | _, _ =>
            Num.of_decimal sg (digits_value (ip ++ fp)%list)
              (exponent_part x - Z.of_nat (List.length fp))
        end
    | _ =>
        match ip with
        | [] => Num.NaN
        | _ => Num.of_decimal sg (digits_value ip) (exponent_part v)
        end
    end.

Definition of_Z (n : Z) : string :=
  NilZero.string_of_int (Z.to_int n).

Fixpoint zeros (k : nat) : string :=
  match k with O => EmptyString | S k' => String "0" (zeros k') end.

(** The decimal digits of [n >= 0] with a point before the last [f] of
    them, padded on the left to [f + 1] digits. *)
Definition fixed_digits (f : nat) (n : Z) : string :=
  let m := of_Z n in
  let k := String.length m in
  let m' := if Nat.leb k f then zeros (f + 1 - k) ++ m else m in
  let k' := String.length m' in
  match f with
  | O => m'
  | _ => substring 0 (k' - f) m' ++ "." ++ substring (k' - f) f m'
  end.

(** The part of [s] before its first space: [s.split(' ')[0]]. *)
Fixpoint first_word (s : string) : string :=
  match s with
  | String c r => if Ascii.eqb c " " then EmptyString else String c (first_word r)
  | EmptyString => EmptyString
  end.

End Str.

(** ** Number::toString

    The shortest decimal that is read back as the number, laid out as the
    language prescribes. *)

Module NumStr.

Definition eqb (a b : num) : bool :=
  match a, b with
  | S754_finite s m e, S754_finite s' m' e' =>
      Bool.eqb s s' && Pos.eqb m m' && Z.eqb e e'
  | S754_zero s, S754_zero s' => Bool.eqb s s'
  | S754_infinity s, S754_infinity s' => Bool.eqb s s'
  | S754_nan, S754_nan => true
  | _, _ => false
  end.

(** [x * 10^p] for the fraction [x = a / b]. *)
Definition scale (ab : Z * Z) (p : Z) : Z * Z :=
  let '(a, b) := ab in
  if 0 <=? p then (a * 10 ^ p, b) else (a, b * 10 ^ (- p)).

Definition fraction (m : positive) (e : Z) : Z * Z :=
  if 0 <=? e then (Zpos m * 2 ^ e, 1) else (Zpos m, 2 ^ (- e)).

(** The [n] with [10^(n-1) <= x < 10^n], searched upwards from a lower
    estimate; the estimate, taken from the binary logarithms, is less than
    five below. *)
Fixpoint magnitude_from (fuel : nat) (ab : Z * Z) (n : Z) : Z :=
  match fuel with
  | O => n
  | S fuel' =>
      let '(a, b) := scale ab (- n) in
      if a <? b then n else magnitude_from fuel' ab (n + 1)
  end.

Definition magnitude (ab : Z * Z) : Z :=
  let '(a, b) := ab in
  magnitude_from 8 ab ((Z.log2 a - Z.log2 b) * 30103 / 100000 - 2).

(** The candidates with [k] digits: the two integers around
    [x / 10^(n-k)], the nearer first. *)
Definition candidates (ab : Z * Z) (n k : Z) : list Z :=
  let '(a, b) := scale ab (k - n) in
  let lo := a / b in
  match 2 * a ?= (2 * lo + 1) * b with
  | Lt => [lo; lo + 1]
  | Gt => [lo + 1; lo]
  | Eq => if Z.even lo then [lo; lo + 1] else [lo + 1; lo]
  end.

(** The digits [s] and the exponent [n] of the shortest decimal that is
    read back as [x]; seventeen digits always tell a binary64 number from
    its neighbours, so the search ends within its fuel. *)
Fixpoint shortest (fuel : nat) (x : num) (ab : Z * Z) (n k : Z) : Z * Z :=
  match fuel with
  | O => (fst ab / snd ab, n)
  | S fuel' =>
      match find (fun s => eqb (Num.of_decimal false s (n - k)) x)
                 (candidates ab n k) with
      | Some s => if s =? 10 ^ k then (10 ^ (k - 1), n + 1) else (s, n)
      | None => shortest fuel' x ab n (k + 1)
      end
  end.

Definition exponent_suffix (n : Z) : string :=
  "e" ++ (if 0 <=? n - 1 then "+" else "-") ++ Str.of_Z (Z.abs (n - 1)).

Definition layout (s n : Z) : string :=
  let digits := Str.of_Z s in
  let k := Z.of_nat (String.length digits) in
  if (k <=? n) && (n <=? 21) then digits ++ Str.zeros (Z.to_nat (n - k))
  else if (0 <? n) && (n <=? 21) then
    substring 0 (Z.to_nat n) digits ++ "."
    ++ substring (Z.to_nat n) (Z.to_nat (k - n)) digits
  else if (-6 <? n) && (n <=? 0) then
    "0." ++ Str.zeros (Z.to_nat (- n)) ++ digits
  else if k =? 1 then digits ++ exponent_suffix n
  else substring 0 1 digits ++ "." ++ substring 1 (Z.to_nat (k - 1)) digits
       ++ exponent_suffix n.

(** Number::toString, radix 10. *)
Definition numberToString (x : num) : string :=
  match x with
  | S754_nan => "NaN"
  | S754_zero _ => "0"
  | S754_infinity s => (if s then "-" else "") ++ "Infinity"
  | S754_finite sg m e =>
      let ab := fraction m e in
      let '(s, n) := shortest 17 (S754_finite false m e) ab (magnitude ab) 1 in
      (if sg then "-" else "") ++ layout s n
  end.

End NumStr.

Definition numberToString : num -> string := NumStr.numberToString.

(** ** The services of the JavaScript runtime the source calls

    [formatCurrency] is the [Intl.NumberFormat] call of the source's
    function of that name, [dateParse]
    the time value of [new Date(s)] in milliseconds (NaN for an invalid
    date), [nowMs] and [nowLocale] the time value of [new Date()] and its
    [toLocaleDateString()]. *)

Class Runtime := {
  formatCurrency : num -> string;
  dateParse : string -> num;
  nowMs : num;
  nowLocale : string
}.

(** ** JavaScript values *)

Inductive value :=
| VUndefined
| VNull
| VBool (b : bool)
| VNum (n : num)
| VStr (s : string).

Module Val.

(** ToBoolean. *)
Definition truthy (v : value) : bool :=
  match v with
  | VUndefined | VNull => false
  | VBool b => b
  | VNum n => Num.truthy n
  | VStr s => Str.truthy s
  end.

(** [a || b]. *)
Definition or (a b : value) : value := if truthy a then a else b.

(** ToString. *)
Definition toString (v : value) : string :=
  match v with
  | VUndefined => "undefined"
  | VNull => "null"
  | VBool true => "true"
  | VBool false => "false"
  | VNum n => numberToString n
  | VStr s => s
  end.

(** [parseFloat(v)]: the argument is turned into a string, which is
    then read. *)
Definition parseFloat (v : value) : num := Str.parseFloat (toString v).

End Val.

(** [x.toFixed(f)] *)
Definition toFixed (f : nat) (x : num) : string :=
  match x with
  | S754_nan => "NaN"
  | S754_infinity false => "Infinity"
  | S754_infinity true => "-Infinity"
  | S754_zero _ => Str.fixed_digits f 0
  | S754_finite s m e =>
      if Num.ge_1e21 m e then numberToString x
      else (if s then "-" else "") ++ Str.fixed_digits f (Num.scaled_round f m e)
  end.

(** [parseFloat(x || 0)]-style default: [parseFloat(v) || d]. *)
Definition parseFloatOr (v : value) (d : num) : num :=
  let x := Val.parseFloat v in if Num.truthy x then x else d.

(** ** Rows and the column map *)

(** An object of the parsed CSV: own properties in insertion order. *)
Definition row := list (string * value).

Definition keys_of (r : row) : list string := map fst r.

(** [r[k]] *)
Fixpoint get (r : row) (k : string) : value :=
  match r with
  | [] => VUndefined
  | (k', v) :: r' => if String.eqb k' k then v else get r' k
  end.

(** ** Regular expressions

    The fragment the source's patterns are written in, matched with
    derivatives. [RegExp.prototype.test] asks for a match anywhere in the
    string. *)

Module Re.

Inductive re :=
| Void
| Eps
| Chr (c : ascii)
| Any                       (* [.]: any code unit but a line terminator *)
| Space                     (* [\s] *)
| Seq (a b : re)
| Alt (a b : re)
| Star (a : re).

Fixpoint lit (s : string) : re :=
  match s with
  | EmptyString => Eps
  | String c EmptyString => Chr c
  | String c r => Seq (Chr c) (lit r)
  end.

Fixpoint seqs (l : list re) : re :=
  match l with
  | [] => Eps
  | [r] => r
  | r :: l' => Seq r (seqs l')
  end.

Fixpoint alts (l : list re) : re :=
  match l with
  | [] => Void
  | [r] => r
  | r :: l' => Alt r (alts l')
  end.

Definition opt (r : re) : re := Alt r Eps.
Definition any13 : re := Seq Any (Seq (opt Any) (opt Any)).   (* [.{1,3}] *)

Fixpoint nullable (r : re) : bool :=
  match r with
  | Void | Chr _ | Any | Space => false
  | Eps | Star _ => true
  | Seq a b => nullable a && nullable b
  | Alt a b => nullable a || nullable b
  end.

Fixpoint deriv (c : ascii) (r : re) : re :=
  match r with
  | Void | Eps => Void
  | Chr d => if Ascii.eqb c d then Eps else Void
  | Any => if Str.is_line_terminator c then Void else Eps
  | Space => if Str.is_space c then Eps else Void
  | Seq a b =>
      if nullable a then Alt (Seq (deriv c a) b) (deriv c b)
      else Seq (deriv c a) b
  | Alt a b => Alt (deriv c a) (deriv c b)
  | Star a => Seq (deriv c a) (Star a)
  end.

(** Some prefix of [s] matches [r]. *)
Fixpoint prefix_match (r : re) (s : string) : bool :=
  nullable r ||
  match s with
  | String c s' => prefix_match (deriv c r) s'
  | EmptyString => false
  end.

(** [r.test(s)] *)
Fixpoint test (r : re) (s : string) : bool :=
  prefix_match r s ||
  match s with
  | String _ s' => test r s'
  | EmptyString => false
  end.

(** Case folding of the [i] flag: without the [u] flag a code unit from
    128 up never folds onto an ASCII one, so only A-Z move. *)
Definition fold_char (c : ascii) : ascii :=
  let n := Str.code c in
  if ((65 <=? n) && (n <=? 90))%N then ascii_of_N (n + 32) else c.

Fixpoint fold_case (s : string) : string :=
  match s with
  | EmptyString => EmptyString
  | String c r => String (fold_char c) (fold_case r)
  end.

(** [r.test(s)] for a pattern [r] in lower case carrying the [i] flag. *)
Definition testi (r : re) (s : string) : bool := test r (fold_case s).

End Re.

Import Re.


Module ColumnMap.
Record t := {
  costCode : string;
  costCodeDescription : string;
  costType : string;
  currentBudget : string;
  billedToDate : string;
  percentBilled : string;
  projectedCost : string;
  variance : string
}.

Definition fields (m : t) : list string :=
  [costCode m; costCodeDescription m; costType m; currentBudget m;
   billedToDate m; percentBilled m; projectedCost m; variance m].

Definition set_costCode k m :=
  {| costCode := k; costCodeDescription := costCodeDescription m;
     costType := costType m; currentBudget := currentBudget m;
     billedToDate := billedToDate m; percentBilled := percentBilled m;
     projectedCost := projectedCost m; variance := variance m |}.
Definition set_costCodeDescription k m :=
  {| costCode := costCode m; costCodeDescription := k;
     costType := costType m; currentBudget := currentBudget m;
     billedToDate := billedToDate m; percentBilled := percentBilled m;
     projectedCost := projectedCost m; variance := variance m |}.
Definition set_costType k m :=
  {| costCode := costCode m; costCodeDescription := costCodeDescription m;
     costType := k; currentBudget := currentBudget m;
     billedToDate := billedToDate m; percentBilled := percentBilled m;
     projectedCost := projectedCost m; variance := variance m |}.
Definition set_currentBudget k m :=
  {| costCode := costCode m; costCodeDescription := costCodeDescription m;
     costType := costType m; currentBudget := k;
     billedToDate := billedToDate m; percentBilled := percentBilled m;
     projectedCost := projectedCost m; variance := variance m |}.
Definition set_billedToDate k m :=
  {| costCode := costCode m; costCodeDescription := costCodeDescription m;
     costType := costType m; currentBudget := currentBudget m;
     billedToDate := k; percentBilled := percentBilled m;
     projectedCost := projectedCost m; variance := variance m |}.
Definition set_percentBilled k m :=
  {| costCode := costCode m; costCodeDescription := costCodeDescription m;
     costType := costType m; currentBudget := currentBudget m;
     billedToDate := billedToDate m; percentBilled := k;
     projectedCost := projectedCost m; variance := variance m |}.
Definition set_projectedCost k m :=
  {| costCode := costCode m; costCodeDescription := costCodeDescription m;
     costType := costType m; currentBudget := currentBudget m;
     billedToDate := billedToDate m; percentBilled := percentBilled m;
     projectedCost := k; variance := variance m |}.
Definition set_variance k m :=
  {| costCode := costCode m; costCodeDescription := costCodeDescription m;
     costType := costType m; currentBudget := currentBudget m;
     billedToDate := billedToDate m; percentBilled := percentBilled m;
     projectedCost := projectedCost m; variance := k |}.

Definition empty : t :=
  {| costCode := ""; costCodeDescription := ""; costType := "";
     currentBudget := ""; billedToDate := ""; percentBilled := "";
     projectedCost := ""; variance := "" |}.
End ColumnMap.

(** The patterns of [detectAndMapColumns], in the order of its [else if]
    chain. *)
Module Pat.
Definition costCode :=
  alts [seqs [lit "cost"; opt Any; lit "code"];
        seqs [lit "budget"; opt Any; lit "code"]].
Definition description :=
  alts [lit "description"; seqs [lit "desc"; opt (Chr ".")]].
Definition costType :=
  alts [seqs [lit "cost"; opt Any; lit "type"]; lit "type"].
Definition currentBudget :=
  alts [seqs [lit "current"; opt Any; lit "contract"; opt Any; lit "budget"];
        seqs [lit "current"; opt Any; lit "budget"];
        seqs [Chr "e"; any13; lit "current"]].
Definition billedToDate :=
  alts [seqs [lit "total"; opt Any; lit "billed"];
        seqs [lit "billed"; opt Any; lit "to"; opt Any; lit "date"];
        seqs [Chr "j"; any13; lit "total"; opt Any; lit "billed"]].
Definition percentBilled :=
  alts [seqs [Chr "%"; Star Space; lit "billed"];
        seqs [lit "billed"; Star Space; Chr "%"]].
Definition projectedCost :=
  alts [seqs [lit "proj"; Star Any; lit "cost"; Star Any; lit "complet"];
        seqs [lit "forecast"; Star Any; lit "complet"];
        seqs [Chr "q"; any13; lit "proj"]].
Definition variance :=
  alts [lit "(over)"; lit "under"; lit "variance";
        seqs [Chr "g"; Star Any; Chr "q"]].

(** The patterns of [inferColumnMappings], all with the [i] flag. *)
Definition code := lit "code".
Definition descr := lit "descr".
Definition type := lit "type".
Definition budget := lit "budget".
Definition billed := lit "billed".
Definition pctBilled := seqs [Chr "%"; Star Any; lit "billed"].
Definition projected := alts [lit "projected"; lit "forecast"].
Definition varianceOverUnder := alts [lit "variance"; lit "over"; lit "under"].
End Pat.

(** [keys.find(k => r.test(k)) || d] *)
Definition find_or (r : re) (keys : list string) (d : string) : string :=
  match find (testi r) keys with
  | Some k => if Str.truthy k then k else d
  | None => d
  end.

Definition inferColumnMappings (keys : list string) : ColumnMap.t :=
  {| ColumnMap.costCode := find_or Pat.code keys "Budget Code";
     ColumnMap.costCodeDescription := find_or Pat.descr keys "Budget Code Description";
     ColumnMap.costType := find_or Pat.type keys "Cost Type";
     ColumnMap.currentBudget := find_or Pat.budget keys "E - Current Contract Budget";
     ColumnMap.billedToDate := find_or Pat.billed keys "J - Total Billed to Date";
     ColumnMap.percentBilled := find_or Pat.pctBilled keys "% Billed to Date";
     ColumnMap.projectedCost := find_or Pat.projected keys "Q - Proj Cost @ Complete (J+P)";
     ColumnMap.variance := find_or Pat.varianceOverUnder keys "(Over) / Under Budget (G-Q)" |}.

(** One turn of the [for (const key of keys)] loop. *)
Definition detect_key (map : ColumnMap.t) (key : string) : ColumnMap.t :=
  let lowerKey := Str.toLowerCase key in
  if test Pat.costCode lowerKey then ColumnMap.set_costCode key map
  else if test Pat.description lowerKey then ColumnMap.set_costCodeDescription key map
  else if test Pat.costType lowerKey then ColumnMap.set_costType key map
  else if test Pat.currentBudget lowerKey then ColumnMap.set_currentBudget key map
  else if test Pat.billedToDate lowerKey then ColumnMap.set_billedToDate key map
  else if test Pat.percentBilled lowerKey then ColumnMap.set_percentBilled key map
  else if test Pat.projectedCost lowerKey then ColumnMap.set_projectedCost key map
  else if test Pat.variance lowerKey then ColumnMap.set_variance key map
  else map.

(** [{ ...fallback, ..._.pickBy(map, value => value !== '') }] *)
Definition pick (detected fallback : string) : string :=
  if Str.truthy detected then detected else fallback.

Definition merge (fallback map : ColumnMap.t) : ColumnMap.t :=
  {| ColumnMap.costCode := pick (ColumnMap.costCode map) (ColumnMap.costCode fallback);
     ColumnMap.costCodeDescription :=
       pick (ColumnMap.costCodeDescription map) (ColumnMap.costCodeDescription fallback);
     ColumnMap.costType := pick (ColumnMap.costType map) (ColumnMap.costType fallback);
     ColumnMap.currentBudget :=
       pick (ColumnMap.currentBudget map) (ColumnMap.currentBudget fallback);
     ColumnMap.billedToDate :=
       pick (ColumnMap.billedToDate map) (ColumnMap.billedToDate fallback);
     ColumnMap.percentBilled :=
       pick (ColumnMap.percentBilled map) (ColumnMap.percentBilled fallback);
     ColumnMap.projectedCost :=
       pick (ColumnMap.projectedCost map) (ColumnMap.projectedCost fallback);
     ColumnMap.variance := pick (ColumnMap.variance map) (ColumnMap.variance fallback) |}.

Definition detectAndMapColumns (sampleRow : row) : ColumnMap.t :=
  let keys := keys_of sampleRow in
  let map := fold_left detect_key keys ColumnMap.empty in
  let fallbackMappings := inferColumnMappings keys in
  merge fallbackMappings map.

(** ** Summation and grouping *)

(** [items.reduce((sum, item) => sum + (parseFloat(item[fieldName]) || 0), 0)] *)
Definition sumField (items : list row) (fieldName : string) : num :=
  fold_left (fun sum item => Num.add sum (parseFloatOr (get item fieldName) Num.zero))
            items Num.zero.

(** *** Own-property order of a plain object

    [Object.entries] lists the array-index keys first, in ascending numeric
    order, then the other string keys in the order they were created. *)

Definition all_digits (k : string) : bool :=
  forallb Str.is_digit (list_ascii_of_string k).

Definition array_index (k : string) : option Z :=
  match k with
  | EmptyString => None
  | String c r =>
      if all_digits k && (negb (Ascii.eqb c "0") || String.eqb r "")
      then let n := Str.digits_value (fst (Str.span_digits k)) in
           if n <=? 4294967294 then Some n else None
      else None
  end.

Section OwnProperties.
Context {A : Type}.

Fixpoint insert_index (n : Z) (e : string * A) (l : list (Z * (string * A)))
  : list (Z * (string * A)) :=
  match l with
  | [] => [(n, e)]
  | (m, e') :: l' =>
      if n <=? m then (n, e) :: l else (m, e') :: insert_index n e l'
  end.

Fixpoint index_entries (l : list (string * A)) : list (Z * (string * A)) :=
  match l with
  | [] => []
  | e :: l' =>
      match array_index (fst e) with
      | Some n => insert_index n e (index_entries l')
      | None => index_entries l'
      end
  end.

Definition is_index (e : string * A) : bool :=
  match array_index (fst e) with Some _ => true | None => false end.

(** From creation order to [Object.entries] order. *)
Definition entries (created : list (string * A)) : list (string * A) :=
  (map snd (index_entries created) ++ filter (fun e => negb (is_index e)) created)%list.
End OwnProperties.

(** [_.groupBy(collection, iteratee)]: the value of each key is the array
    of the elements that produced it, in collection order; a key is created
    when first met. The iteratee is called on each element in turn, and a
    call that throws ([None]) ends the grouping. *)
Definition groups := list (string * list row).

Fixpoint group_add (k : string) (r : row) (g : groups) : groups :=
  match g with
  | [] => [(k, [r])]
  | (k', rs) :: g' =>
      if String.eqb k' k then (k', (rs ++ [r])%list) :: g' else (k', rs) :: group_add k r g'
  end.

Fixpoint group_rows (iteratee : row -> option string) (collection : list row)
    (created : groups) : option groups :=
  match collection with
  | [] => Some created
  | r :: rest =>
      match iteratee r with
      | Some k => group_rows iteratee rest (group_add k r created)
      | None => None
      end
  end.

(** *** The two iteratees *)

Fixpoint leading_digits (s : string) : string :=
  match s with
  | String c r => if Str.is_digit c then String c (leading_digits r) else EmptyString
  | EmptyString => EmptyString
  end.

(** [row => { const costCode = row[columnMap.costCode] || ""; const divMatch
    = costCode.match(/^(\d+)/); return divMatch ? `Div ${divMatch[1]}` :
    "Other"; }]. A truthy cost code that is not a string (a number, [true])
    has no [match] method: the call throws a TypeError, [None] here. *)
Definition divisionKey (columnMap : ColumnMap.t) (r : row) : option string :=
  match Val.or (get r (ColumnMap.costCode columnMap)) (VStr "") with
  | VStr costCode =>
      match leading_digits costCode with
      | EmptyString => Some "Other"
      | ds => Some ("Div " ++ ds)
      end
  | _ => None
  end.

(** [row => row[columnMap.costType] || "Other"], as the property key the
    grouping makes of it. *)
Definition costTypeKey (columnMap : ColumnMap.t) (r : row) : string :=
  Val.toString (Val.or (get r (ColumnMap.costType columnMap)) (VStr "Other")).

(** ** [_.sortBy] on numeric keys

    A stable sort, ascending in the iteratee's results as lodash's
    [compareAscending] orders them: NaN after every number. Between two
    NaN keys that comparer answers "greater" both ways, and the engine's
    sort may then leave them in any order; the model fixes one. *)

Definition compareAscending (value other : num) : Z :=
  if SFeqb value other then 0
  else if Num.gtb value other || Num.is_nan value then 1
  else if Num.ltb value other || Num.is_nan other then -1
  else 0.

Section SortBy.
Context {A : Type} (iteratee : A -> num).

Fixpoint sort_insert (x : A) (l : list A) : list A :=
  match l with
  | [] => [x]
  | y :: l' =>
      if compareAscending (iteratee x) (iteratee y) <=? 0
      then x :: l else y :: sort_insert x l'
  end.

Definition sortBy (collection : list A) : list A :=
  fold_right sort_insert [] collection.
End SortBy.

(** ** The records of the dashboard *)

(** The name of a cost-type entry, [costTypeMap[costType] || costType]:
    a string or, when the cost type is a key the table inherits, the
    function or object that [Object.prototype] holds under that key. *)
Inductive label :=
| Text (s : string)
| Inherited (key : string).

Module CostTypeEntry.
Record t := {
  name : label;
  complete : num;
  remaining : num;
  expectedComplete : num
}.
End CostTypeEntry.

Module DivisionEntry.
Record t := {
  name : string;
  complete : num;
  expected : num;
  variance : num
}.
End DivisionEntry.

Module BudgetItem.
Record t := {
  name : value;
  costCode : value;
  budget : num;
  billed : num;
  percentBilled : num;
  projected : num;
  variance : num
}.
End BudgetItem.

Module Slice.
Record t := { name : string; value : num }.
End Slice.

Definition hundred : num := Num.of_Z 100.

(** [parseFloat(x.toFixed(2))] *)
Definition round2 (x : num) : num := Str.parseFloat (toFixed 2 x).

(** [(a / b) * 100] *)
Definition percent (a b : num) : num := Num.mul (Num.div a b) hundred.

(** The property names an object literal inherits from [Object.prototype]:
    each holds a function, [__proto__] the prototype object itself; none of
    them is a string and all are truthy. *)
Definition inherited (key : string) : bool :=
  existsb (String.eqb key)
    ["constructor"; "hasOwnProperty"; "isPrototypeOf"; "propertyIsEnumerable";
     "toLocaleString"; "toString"; "valueOf"; "__proto__"; "__defineGetter__";
     "__defineSetter__"; "__lookupGetter__"; "__lookupSetter__"].

(** [costTypeMap[costType]]: the eight own properties of the literal, and
    what it inherits. *)
Definition costTypeMap (costType : string) : option label :=
  if String.eqb costType "L" then Some (Text "Labor (L)")
  else if String.eqb costType "M" then Some (Text "Materials (M)")
  else if String.eqb costType "S" then Some (Text "Subcontracts (S)")
  else if String.eqb costType "O" then Some (Text "Other (O)")
  else if String.eqb costType "LABOR" then Some (Text "Labor (L)")
  else if String.eqb costType "MATERIAL" then Some (Text "Materials (M)")
  else if String.eqb costType "SUBCONTRACT" then Some (Text "Subcontracts (S)")
  else if String.eqb costType "OTHER" then Some (Text "Other (O)")
  else if inherited costType then Some (Inherited costType)
  else None.

(** [costTypeMap[costType] || costType] *)
Definition normalizedTypeOf (costType : string) : label :=
  match costTypeMap costType with
  | Some (Text v) => if Str.truthy v then Text v else Text costType
  | Some (Inherited key) => Inherited key
  | None => Text costType
  end.

(** [table[k] || k] on a table of strings looked up under its own keys. *)
Definition lookup_or (table : string -> option string) (k : string) : string :=
  match table k with
  | Some v => if Str.truthy v then v else k
  | None => k
  end.

(** One turn of the loop of [processCostTypeData]: the entry pushed for a
    group, if any. *)
Definition costTypeEntry (columnMap : ColumnMap.t) (expectedComplete : num)
    (group : string * list row) : list CostTypeEntry.t :=
  let '(costType, items) := group in
  let normalizedType := normalizedTypeOf costType in
  let totalBudget := sumField items (ColumnMap.currentBudget columnMap) in
  let totalBilled := sumField items (ColumnMap.billedToDate columnMap) in
  if Num.gtb totalBudget Num.zero then
    let percentComplete := percent totalBilled totalBudget in
    [ {| CostTypeEntry.name := normalizedType;
         CostTypeEntry.complete := round2 percentComplete;
         CostTypeEntry.remaining := round2 (Num.sub hundred percentComplete);
         CostTypeEntry.expectedComplete := expectedComplete |} ]
  else [].

Definition processCostTypeData (groupedByCostType : groups)
    (columnMap : ColumnMap.t) (expectedComplete : num) : list CostTypeEntry.t :=
  flat_map (costTypeEntry columnMap expectedComplete) groupedByCostType.

(** The table of division names. It is looked up under the keys of the
    division groups alone, which are "Other" or start with "Div ": none of
    them is a name the literal inherits. *)
Definition divisionNames (division : string) : option string :=
  let names :=
    [("Div 1", "Div 1 - General"); ("Div 2", "Div 2 - Site Work");
     ("Div 3", "Div 3 - Concrete"); ("Div 4", "Div 4 - Masonry");
     ("Div 5", "Div 5 - Metals"); ("Div 6", "Div 6 - Wood/Plastics");
     ("Div 7", "Div 7 - Thermal/Moisture"); ("Div 8", "Div 8 - Doors/Windows");
     ("Div 9", "Div 9 - Finishes"); ("Div 10", "Div 10 - Specialties");
     ("Div 11", "Div 11 - Equipment"); ("Div 12", "Div 12 - Furnishings");
     ("Div 13", "Div 13 - Special Construction");
     ("Div 14", "Div 14 - Conveying Systems");
     ("Div 15", "Div 15 - Mechanical/Plumbing"); ("Div 16", "Div 16 - Electrical");
     ("Div 17", "Div 17 - Communications");
     ("Div 18", "Div 18 - Builder's Contingency");
     ("Div 19", "Div 19 - Project Reqmts"); ("Div 20", "Div 20 - Builder's Fee");
     ("Div 21", "Div 21 - Fire Suppression"); ("Div 22", "Div 22 - Plumbing");
     ("Div 23", "Div 23 - HVAC"); ("Div 26", "Div 26 - Electrical");
     ("Div 27", "Div 27 - Communications");
     ("Div 28", "Div 28 - Electronic Safety")] in
  option_map snd (find (fun e => String.eqb (fst e) division) names).

(** One turn of the loop of [processDivisionData]. *)
Definition divisionEntry (columnMap : ColumnMap.t) (expectedComplete : num)
    (group : string * list row) : list DivisionEntry.t :=
  let '(division, items) := group in
  let divisionName := lookup_or divisionNames division in
  let totalBudget := sumField items (ColumnMap.currentBudget columnMap) in
  let totalBilled := sumField items (ColumnMap.billedToDate columnMap) in
  if Num.gtb totalBudget Num.zero then
    let percentComplete := percent totalBilled totalBudget in
    [ {| DivisionEntry.name := divisionName;
         DivisionEntry.complete := round2 percentComplete;
         DivisionEntry.expected := expectedComplete;
         DivisionEntry.variance := round2 (Num.sub percentComplete expectedComplete) |} ]
  else [].

Definition processDivisionData (groupedByDivision : groups)
    (columnMap : ColumnMap.t) (expectedComplete : num) : list DivisionEntry.t :=
  let result := flat_map (divisionEntry columnMap expectedComplete) groupedByDivision in
  sortBy (fun item => Num.neg (DivisionEntry.complete item)) result.

(** The item [processTopBudgetItems] makes of a row. *)
Definition budgetItem (columnMap : ColumnMap.t) (r : row) : BudgetItem.t :=
  let budget := parseFloatOr (get r (ColumnMap.currentBudget columnMap)) Num.zero in
  let billed := parseFloatOr (get r (ColumnMap.billedToDate columnMap)) Num.zero in
  let projected := parseFloatOr (get r (ColumnMap.projectedCost columnMap)) budget in
  {| BudgetItem.name :=
       Val.or (get r (ColumnMap.costCodeDescription columnMap)) (VStr "Unnamed Item");
     BudgetItem.costCode := Val.or (get r (ColumnMap.costCode columnMap)) (VStr "");
     BudgetItem.budget := budget;
     BudgetItem.billed := billed;
     BudgetItem.percentBilled :=
       if Num.gtb budget Num.zero then percent billed budget else Num.zero;
     BudgetItem.projected := projected;
     BudgetItem.variance := Num.sub budget projected |}.

Definition default_limit : nat := 5.

Definition processTopBudgetItems (rawBudgetData : list row) (columnMap : ColumnMap.t)
    (limit : nat) : list BudgetItem.t :=
  let budgetItems := map (budgetItem columnMap) rawBudgetData in
  firstn limit (sortBy (fun item => Num.neg (BudgetItem.budget item)) budgetItems).

Module ProjectData.
Record t := {
  projectName : string;
  startDate : string;
  endDate : string;
  currentDate : string;
  daysElapsed : num;
  totalDuration : string;
  percentTimeElapsed : num;
  totalBudget : value;
  totalBilled : value;
  percentBilled : num;
  projectedFinal : value;
  projectedOverage : value;
  percentOverage : num
}.

Definition set_daysElapsed x p :=
  {| projectName := projectName p;
     startDate := startDate p;
     endDate := endDate p;
     currentDate := currentDate p;
     daysElapsed := x;
     totalDuration := totalDuration p;
     percentTimeElapsed := percentTimeElapsed p;
     totalBudget := totalBudget p;
     totalBilled := totalBilled p;
     percentBilled := percentBilled p;
     projectedFinal := projectedFinal p;
     projectedOverage := projectedOverage p;
     percentOverage := percentOverage p |}.
Definition set_totalDuration x p :=
  {| projectName := projectName p;
     startDate := startDate p;
     endDate := endDate p;
     currentDate := currentDate p;
     daysElapsed := daysElapsed p;
     totalDuration := x;
     percentTimeElapsed := percentTimeElapsed p;
     totalBudget := totalBudget p;
     totalBilled := totalBilled p;
     percentBilled := percentBilled p;
     projectedFinal := projectedFinal p;
     projectedOverage := projectedOverage p;
     percentOverage := percentOverage p |}.
Definition set_percentTimeElapsed x p :=
  {| projectName := projectName p;
     startDate := startDate p;
     endDate := endDate p;
     currentDate := currentDate p;
     daysElapsed := daysElapsed p;
     totalDuration := totalDuration p;
     percentTimeElapsed := x;
     totalBudget := totalBudget p;
     totalBilled := totalBilled p;
     percentBilled := percentBilled p;
     projectedFinal := projectedFinal p;
     projectedOverage := projectedOverage p;
     percentOverage := percentOverage p |}.
Definition set_totalBudget x p :=
  {| projectName := projectName p;
     startDate := startDate p;
     endDate := endDate p;
     currentDate := currentDate p;
     daysElapsed := daysElapsed p;
     totalDuration := totalDuration p;
     percentTimeElapsed := percentTimeElapsed p;
     totalBudget := x;
     totalBilled := totalBilled p;
     percentBilled := percentBilled p;
     projectedFinal := projectedFinal p;
     projectedOverage := projectedOverage p;
     percentOverage := percentOverage p |}.
Definition set_totalBilled x p :=
  {| projectName := projectName p;
     startDate := startDate p;
     endDate := endDate p;
     currentDate := currentDate p;
     daysElapsed := daysElapsed p;
     totalDuration := totalDuration p;
     percentTimeElapsed := percentTimeElapsed p;
     totalBudget := totalBudget p;
     totalBilled := x;
     percentBilled := percentBilled p;
     projectedFinal := projectedFinal p;
     projectedOverage := projectedOverage p;
     percentOverage := percentOverage p |}.
Definition set_percentBilled x p :=
  {| projectName := projectName p;
     startDate := startDate p;
     endDate := endDate p;
     currentDate := currentDate p;
     daysElapsed := daysElapsed p;
     totalDuration := totalDuration p;
     percentTimeElapsed := percentTimeElapsed p;
     totalBudget := totalBudget p;
     totalBilled := totalBilled p;
     percentBilled := x;
     projectedFinal := projectedFinal p;
     projectedOverage := projectedOverage p;
     percentOverage := percentOverage p |}.
Definition set_projectedFinal x p :=
  {| projectName := projectName p;
     startDate := startDate p;
     endDate := endDate p;
     currentDate := currentDate p;
     daysElapsed := daysElapsed p;
     totalDuration := totalDuration p;
     percentTimeElapsed := percentTimeElapsed p;
     totalBudget := totalBudget p;
     totalBilled := totalBilled p;
     percentBilled := percentBilled p;
     projectedFinal := x;
     projectedOverage := projectedOverage p;
     percentOverage := percentOverage p |}.
Definition set_projectedOverage x p :=
  {| projectName := projectName p;
     startDate := startDate p;
     endDate := endDate p;
     currentDate := currentDate p;
     daysElapsed := daysElapsed p;
     totalDuration := totalDuration p;
     percentTimeElapsed := percentTimeElapsed p;
     totalBudget := totalBudget p;
     totalBilled := totalBilled p;
     percentBilled := percentBilled p;
     projectedFinal := projectedFinal p;
     projectedOverage := x;
     percentOverage := percentOverage p |}.
Definition set_percentOverage x p :=
  {| projectName := projectName p;
     startDate := startDate p;
     endDate := endDate p;
     currentDate := currentDate p;
     daysElapsed := daysElapsed p;
     totalDuration := totalDuration p;
     percentTimeElapsed := percentTimeElapsed p;
     totalBudget := totalBudget p;
     totalBilled := totalBilled p;
     percentBilled := percentBilled p;
     projectedFinal := projectedFinal p;
     projectedOverage := projectedOverage p;
     percentOverage := x |}.
End ProjectData.

Module Result.
Record t := {
  projectData : ProjectData.t;
  budgetData : list BudgetItem.t;
  timeData : list Slice.t;
  budgetSpentData : list Slice.t;
  costTypeData : list CostTypeEntry.t;
  divisionData : list DivisionEntry.t
}.

Definition set_projectData x r :=
  {| projectData := x;
     budgetData := budgetData r;
     timeData := timeData r;
     budgetSpentData := budgetSpentData r;
     costTypeData := costTypeData r;
     divisionData := divisionData r |}.
Definition set_budgetData x r :=
  {| projectData := projectData r;
     budgetData := x;
     timeData := timeData r;
     budgetSpentData := budgetSpentData r;
     costTypeData := costTypeData r;
     divisionData := divisionData r |}.
Definition set_timeData x r :=
  {| projectData := projectData r;
     budgetData := budgetData r;
     timeData := x;
     budgetSpentData := budgetSpentData r;
     costTypeData := costTypeData r;
     divisionData := divisionData r |}.
Definition set_budgetSpentData x r :=
  {| projectData := projectData r;
     budgetData := budgetData r;
     timeData := timeData r;
     budgetSpentData := x;
     costTypeData := costTypeData r;
     divisionData := divisionData r |}.
Definition set_costTypeData x r :=
  {| projectData := projectData r;
     budgetData := budgetData r;
     timeData := timeData r;
     budgetSpentData := budgetSpentData r;
     costTypeData := x;
     divisionData := divisionData r |}.
Definition set_divisionData x r :=
  {| projectData := projectData r;
     budgetData := budgetData r;
     timeData := timeData r;
     budgetSpentData := budgetSpentData r;
     costTypeData := costTypeData r;
     divisionData := x |}.
End Result.

(** [projectMeta]: each property is a string or absent; the whole object may
    be absent too. *)
Module Meta.
Record t := {
  projectName : option string;
  startDate : option string;
  endDate : option string;
  currentDate : option string
}.
End Meta.

(** [projectMeta?.f || d] *)
Definition meta_or (projectMeta : option Meta.t) (f : Meta.t -> option string)
    (d : string) : string :=
  match projectMeta with
  | Some m => match f m with
              | Some s => if Str.truthy s then s else d
              | None => d
              end
  | None => d
  end.

(** ** The [try] block as a computation over the result record

    A computation runs from the current state of [result] and either
    completes with a value or throws; both ways it leaves a state behind,
    the one the [catch] clause returns. *)

Module Exn.
Inductive outcome (A : Type) :=
| Done (a : A) (r : Result.t)
| Thrown (r : Result.t).
Arguments Done {A} a r.
Arguments Thrown {A} r.

Definition M (A : Type) := Result.t -> outcome A.

Definition ret {A} (a : A) : M A := fun r => Done a r.
Definition throw {A} : M A := fun r => Thrown r.
Definition bind {A B} (m : M A) (k : A -> M B) : M B :=
  fun r => match m r with
           | Done a r' => k a r'
           | Thrown r' => Thrown r'
           end.
Definition read : M Result.t := fun r => Done r r.
Definition modify (f : Result.t -> Result.t) : M unit := fun r => Done tt (f r).

(** [result.projectData.f = x] *)
Definition assign {X} (set : X -> ProjectData.t -> ProjectData.t) (x : X) : M unit :=
  modify (fun r => Result.set_projectData (set x (Result.projectData r)) r).

(** The state left behind. *)
Definition final {A} (o : outcome A) : Result.t :=
  match o with Done _ r => r | Thrown r => r end.

Definition completes {A} (o : outcome A) : bool :=
  match o with Done _ _ => true | Thrown _ => false end.
End Exn.

Import Exn.

Notation "x <- m ;; k" := (bind m (fun x => k))
  (at level 61, m at next level, right associativity).
Notation "m ;;; k" := (bind m (fun _ => k))
  (at level 61, right associativity).

(** [_.groupBy(collection, iteratee)] inside the block: the grouped object,
    its properties in [Object.entries] order, or the iteratee's throw. *)
Definition groupBy (iteratee : row -> option string) (collection : list row)
  : M groups :=
  match group_rows iteratee collection [] with
  | Some created => ret (entries created)
  | None => throw
  end.

Definition msPerDay : num := Num.of_Z (1000 * 60 * 60 * 24).
Definition daysPerMonth : num := Num.of_decimal false 304 (-1).

(** [Math.ceil((to - from) / (1000 * 60 * 60 * 24))] *)
Definition daysBetween (from to : num) : num :=
  Num.ceil (Num.div (Num.sub to from) msPerDay).

(** The time metrics block. *)
Definition timeMetrics `{Runtime} (projectMeta : option Meta.t) : M unit :=
  match projectMeta with
  | Some m =>
      match Meta.startDate m, Meta.endDate m with
      | Some sd, Some ed =>
          if Str.truthy sd && Str.truthy ed then
            let startDate := dateParse sd in
            let endDate := dateParse ed in
            let currentDate :=
              match Meta.currentDate m with
              | Some cd => if Str.truthy cd then dateParse cd else nowMs
              | None => nowMs
              end in
            let totalDays := daysBetween startDate endDate in
            let elapsedDays := daysBetween startDate currentDate in
            assign ProjectData.set_daysElapsed elapsedDays ;;;
            assign ProjectData.set_totalDuration
              (numberToString (Num.ceil (Num.div totalDays daysPerMonth)) ++ " months") ;;;
            assign ProjectData.set_percentTimeElapsed
              (round2 (percent elapsedDays totalDays))
          else ret tt
      | _, _ => ret tt
      end
  | None => ret tt
  end.

(** The body of the [try] statement. *)
Definition processing `{Runtime} (rawBudgetData : list row) (first : row)
    (projectMeta : option Meta.t) : M unit :=
  timeMetrics projectMeta ;;;
  let columnMap := detectAndMapColumns first in
  groupedByDivision <- groupBy (divisionKey columnMap) rawBudgetData ;;
  groupedByCostType <-
    groupBy (fun r => Some (costTypeKey columnMap r)) rawBudgetData ;;
  let totalBudget := sumField rawBudgetData (ColumnMap.currentBudget columnMap) in
  let totalBilled := sumField rawBudgetData (ColumnMap.billedToDate columnMap) in
  let projectedFinalCost := sumField rawBudgetData (ColumnMap.projectedCost columnMap) in
  let percentBilled :=
    if Num.gtb totalBudget Num.zero then percent totalBilled totalBudget else Num.zero in
  let projectedOverage := Num.sub projectedFinalCost totalBudget in
  let percentOverage :=
    if Num.gtb totalBudget Num.zero then percent projectedOverage totalBudget else Num.zero in
  assign ProjectData.set_totalBudget (VStr (formatCurrency totalBudget)) ;;;
  assign ProjectData.set_totalBilled (VStr (formatCurrency totalBilled)) ;;;
  assign ProjectData.set_percentBilled (round2 percentBilled) ;;;
  assign ProjectData.set_projectedFinal (VStr (formatCurrency projectedFinalCost)) ;;;
  assign ProjectData.set_projectedOverage (VStr (formatCurrency projectedOverage)) ;;;
  assign ProjectData.set_percentOverage (round2 percentOverage) ;;;
  r <- read ;;
  let pte := ProjectData.percentTimeElapsed (Result.projectData r) in
  modify (Result.set_timeData
            [ {| Slice.name := "Time Elapsed"; Slice.value := pte |};
              {| Slice.name := "Time Remaining"; Slice.value := Num.sub hundred pte |} ]) ;;;
  r <- read ;;
  let pb := ProjectData.percentBilled (Result.projectData r) in
  modify (Result.set_budgetSpentData
            [ {| Slice.name := "Budget Spent"; Slice.value := pb |};
              {| Slice.name := "Budget Remaining"; Slice.value := Num.sub hundred pb |} ]) ;;;
  r <- read ;;
  modify (Result.set_costTypeData
            (processCostTypeData groupedByCostType columnMap
               (ProjectData.percentTimeElapsed (Result.projectData r)))) ;;;
  r <- read ;;
  modify (Result.set_divisionData
            (processDivisionData groupedByDivision columnMap
               (ProjectData.percentTimeElapsed (Result.projectData r)))) ;;;
  modify (Result.set_budgetData
            (processTopBudgetItems rawBudgetData columnMap default_limit)).

(** The empty result structure the function starts from. *)
Definition emptyResult `{Runtime} (projectMeta : option Meta.t) : Result.t :=
  {| Result.projectData :=
       {| ProjectData.projectName :=
            meta_or projectMeta Meta.projectName "Construction Project";
          ProjectData.startDate := meta_or projectMeta Meta.startDate "";
          ProjectData.endDate := meta_or projectMeta Meta.endDate "";
          ProjectData.currentDate := meta_or projectMeta Meta.currentDate nowLocale;
          ProjectData.daysElapsed := Num.zero;
          ProjectData.totalDuration := "";
          ProjectData.percentTimeElapsed := Num.zero;
          ProjectData.totalBudget := VNum Num.zero;
          ProjectData.totalBilled := VNum Num.zero;
          ProjectData.percentBilled := Num.zero;
          ProjectData.projectedFinal := VNum Num.zero;
          ProjectData.projectedOverage := VNum Num.zero;
          ProjectData.percentOverage := Num.zero |};
     Result.budgetData := [];
     Result.timeData := [];
     Result.budgetSpentData := [];
     Result.costTypeData := [];
     Result.divisionData := [] |}.

(** [normalizeBudgetData(rawBudgetData, projectMeta)]; [None] stands for a
    [null] or [undefined] row list. The [try] and the [catch] both return
    [result] as the block left it. *)
Definition normalizeBudgetData `{Runtime} (rawBudgetData : option (list row))
    (projectMeta : option Meta.t) : Result.t :=
  let result := emptyResult projectMeta in
  match rawBudgetData with
  | None | Some [] => result
  | Some (first :: rest) =>
      final (processing (first :: rest) first projectMeta result)
  end.

(** ** Red flags *)

Module Finding.
Record t := {
  title : string;
  description : string;
  type : string;
  recommendation : string
}.
End Finding.

Definition scheduleFinding (projectData : ProjectData.t) : list Finding.t :=
  let scheduleVariance :=
    Num.sub (ProjectData.percentTimeElapsed projectData)
            (ProjectData.percentBilled projectData) in
  if Num.gtb scheduleVariance (Num.of_Z 5) then
    [ {| Finding.title := "Schedule Status";
         Finding.description :=
           "Project is " ++ toFixed 1 scheduleVariance ++ "% behind schedule ("
           ++ toFixed 1 (ProjectData.percentTimeElapsed projectData)
           ++ "% time elapsed vs "
           ++ toFixed 1 (ProjectData.percentBilled projectData) ++ "% budget spent)";
         Finding.type :=
           if Num.gtb scheduleVariance (Num.of_Z 10) then "danger" else "warning";
         Finding.recommendation :=
           "Review schedule and accelerate critical path activities" |} ]
  else [].

(** One turn of [costTypeData.forEach]: the findings it pushes, or [None]
    when it throws. The finding of an entry calls [costType.name.split]:
    a name that is not a string, a function or object the table inherited,
    has no such method and the call is a TypeError. *)
Definition costTypeFinding (costType : CostTypeEntry.t) : option (list Finding.t) :=
  let variance :=
    Num.sub (CostTypeEntry.complete costType) (CostTypeEntry.expectedComplete costType) in
  let significantlyBehind := Num.ltb variance (Num.of_Z (-15)) in
  if significantlyBehind then
    match CostTypeEntry.name costType with
    | Text name =>
        Some
          [ {| Finding.title := name ++ " Progress Concern";
               Finding.description :=
                 name ++ " only "
                 ++ toFixed 1 (CostTypeEntry.complete costType)
                 ++ "% complete vs expected "
                 ++ toFixed 1 (CostTypeEntry.expectedComplete costType) ++ "%";
               Finding.type := "danger";
               Finding.recommendation :=
                 "Expedite " ++ Str.first_word name ++ " procurement and activities" |} ]
    | Inherited _ => None
    end
  else Some [].

(** [l.forEach(f)] for a callback that pushes findings: what all the
    turns push, or [None] as soon as one throws. *)
Fixpoint forEach {A} (f : A -> option (list Finding.t)) (l : list A)
  : option (list Finding.t) :=
  match l with
  | [] => Some []
  | a :: l' =>
      match f a with
      | Some pushed =>
          match forEach f l' with
          | Some later => Some (pushed ++ later)%list
          | None => None
          end
      | None => None
      end
  end.

Definition divisionFinding (division : DivisionEntry.t) : list Finding.t :=
  if Num.ltb (DivisionEntry.variance division) (Num.of_Z (-20)) then
    [ {| Finding.title := DivisionEntry.name division ++ " Behind Schedule";
         Finding.description :=
           DivisionEntry.name division ++ " only "
           ++ toFixed 1 (DivisionEntry.complete division) ++ "% complete vs expected "
           ++ toFixed 1 (DivisionEntry.expected division) ++ "%";
         Finding.type := "danger";
         Finding.recommendation :=
           "Prioritize " ++ DivisionEntry.name division
           ++ " activities to prevent cascading delays" |} ]
  else [].

Definition budgetFinding (projectData : ProjectData.t) : list Finding.t :=
  if Num.gtb (ProjectData.percentOverage projectData) Num.zero then
    [ {| Finding.title := "Budget Concerns";
         Finding.description :=
           "Projected overrun of "
           ++ Val.toString (ProjectData.projectedOverage projectData) ++ " ("
           ++ toFixed 1 (ProjectData.percentOverage projectData) ++ "% over budget)";
         Finding.type :=
           if Num.gtb (ProjectData.percentOverage projectData) (Num.of_Z 5)
           then "danger" else "warning";
         Finding.recommendation :=
           "Review contingency usage and implement cost controls" |} ]
  else [].

(** The findings are pushed in this order: schedule, cost types, divisions,
    budget. The function returns them, or throws ([None]) when a turn of
    the cost-type loop does: there is no [try] around it. *)
Definition identifyProjectRedFlags (normalizedData : Result.t)
  : option (list Finding.t) :=
  let projectData := Result.projectData normalizedData in
  let costTypeData := Result.costTypeData normalizedData in
  let divisionData := Result.divisionData normalizedData in
  match forEach costTypeFinding costTypeData with
  | Some concerns =>
      Some (scheduleFinding projectData
            ++ concerns
            ++ flat_map divisionFinding divisionData
            ++ budgetFinding projectData)%list
  | None => None
  end.

(** ** A runtime to run the examples on

    Dates are read in the date-only ISO form [YYYY-MM-DD], as UTC midnight;
    any other string is an invalid date. Currency is written the en-US way
    with no fraction digits. *)

Module Sample.

Fixpoint group3 (digits : list ascii) : list ascii :=
  match digits with
  | a :: b :: c :: (_ :: _) as rest => a :: b :: c :: ","%char :: group3 rest
  | _ => digits
  end.

Definition grouped (n : Z) : string :=
  string_of_list_ascii
    (rev (group3 (rev (list_ascii_of_string (Str.of_Z n))))).

Definition usd (x : num) : string :=
  match x with
  | S754_nan => "$NaN"
  | S754_infinity s => (if s then "-" else "") ++ "$Infinity"
  | S754_zero s => (if s then "-" else "") ++ "$0"
  | S754_finite s m e =>
      (if s then "-" else "") ++ "$" ++ grouped (Num.scaled_round 0 m e)
  end.

(** Days from 1970-01-01 to a date of the proleptic Gregorian calendar. *)
Definition days_from_civil (y m d : Z) : Z :=
  let y' := if m <=? 2 then y - 1 else y in
  let era := y' / 400 in
  let yoe := y' - era * 400 in
  let doy := (153 * (if 2 <? m then m - 3 else m + 9) + 2) / 5 + d - 1 in
  let doe := yoe * 365 + yoe / 4 - yoe / 100 + doy in
  era * 146097 + doe - 719468.

Definition isoDate (s : string) : num :=
  match Str.span_digits s with
  | ([y1; y2; y3; y4], String "-" r1) =>
      match Str.span_digits r1 with
      | ([m1; m2], String "-" r2) =>
          match Str.span_digits r2 with
          | ([d1; d2], EmptyString) =>
              let y := Str.digits_value [y1; y2; y3; y4] in
              let m := 10 * m1 + m2 in
              let d := 10 * d1 + d2 in
              if (1 <=? m) && (m <=? 12) && (1 <=? d) && (d <=? 31)
              then Num.of_Z (days_from_civil y m d * 86400000)
              else Num.NaN
          | _ => Num.NaN
          end
      | _ => Num.NaN
      end
  | _ => Num.NaN
  end.

Definition runtime : Runtime :=
  {| formatCurrency := usd;
     dateParse := isoDate;
     nowMs := isoDate "2025-06-30";
     nowLocale := "6/30/2025" |}.

End Sample.

(** ** The vocabulary of the statements *)

(** The order [_.sortBy] puts the keys in: ascending, the NaN keys last. *)
Definition key_le (a b : num) : Prop := Num.is_nan b = true \/ SFleb a b = true.

Definition ordered_by {A : Type} (iteratee : A -> num) (x y : A) : Prop :=
  key_le (iteratee x) (iteratee y).


(** From most complete to least complete: no entry is followed by a more
    complete one, and a NaN percentage comes after every number. *)
Definition complete_ge (a b : DivisionEntry.t) : Prop :=
  Num.ltb (DivisionEntry.complete a) (DivisionEntry.complete b) = false
  /\ (Num.is_nan (DivisionEntry.complete b) = true
      \/ Num.geb (DivisionEntry.complete a) (DivisionEntry.complete b) = true).

(** How a column of the map was arrived at: a key of the sample row that
    one of the two patterns of the field accepts, without regard to case,
    or the default name of the field. *)
Definition detected_by (keys : list string) (pattern fallback : re)
    (default column : string) : Prop :=
  (In column keys
   /\ (test pattern (Str.toLowerCase column) = true \/ testi fallback column = true))
  \/ column = default.

Definition unset_or_matched (keys : list string) (pattern : re) (column : string) : Prop :=
  column = "" \/ (In column keys /\ test pattern (Str.toLowerCase column) = true).

Definition loop_invariant (keys : list string) (map : ColumnMap.t) : Prop :=
  unset_or_matched keys Pat.costCode (ColumnMap.costCode map)
  /\ unset_or_matched keys Pat.description (ColumnMap.costCodeDescription map)
  /\ unset_or_matched keys Pat.costType (ColumnMap.costType map)
  /\ unset_or_matched keys Pat.currentBudget (ColumnMap.currentBudget map)
  /\ unset_or_matched keys Pat.billedToDate (ColumnMap.billedToDate map)
  /\ unset_or_matched keys Pat.percentBilled (ColumnMap.percentBilled map)
  /\ unset_or_matched keys Pat.projectedCost (ColumnMap.projectedCost map)
  /\ unset_or_matched keys Pat.variance (ColumnMap.variance map).

Fixpoint last_char (s : string) : option ascii :=
  match s with
  | EmptyString => None
  | String c EmptyString => Some c
  | String _ r => last_char r
  end.

Definition scheduleVariance (projectData : ProjectData.t) : num :=
  Num.sub (ProjectData.percentTimeElapsed projectData)
          (ProjectData.percentBilled projectData).

(** What each comparison contributes to the findings. *)
Definition schedule_rule (projectData : ProjectData.t) (l : list Finding.t) : Prop :=
  if Num.gtb (scheduleVariance projectData) (Num.of_Z 5)
  then exists f, l = [f] /\ Finding.title f = "Schedule Status"
       /\ Finding.type f
          = if Num.gtb (scheduleVariance projectData) (Num.of_Z 10)
            then "danger" else "warning"
  else l = [].

Definition cost_type_rule (costType : CostTypeEntry.t) (l : list Finding.t) : Prop :=
  if Num.ltb (Num.sub (CostTypeEntry.complete costType)
                      (CostTypeEntry.expectedComplete costType)) (Num.of_Z (-15))
  then exists name f, CostTypeEntry.name costType = Text name /\ l = [f]
       /\ Finding.title f = name ++ " Progress Concern"
       /\ Finding.type f = "danger"
  else l = [].

(** The turn of the cost-type loop throws on this entry: it is more than 15
    behind and its name is not a string. *)
Definition concern_throws (costType : CostTypeEntry.t) : bool :=
  Num.ltb (Num.sub (CostTypeEntry.complete costType)
                   (CostTypeEntry.expectedComplete costType)) (Num.of_Z (-15))
  && match CostTypeEntry.name costType with
     | Inherited _ => true
     | Text _ => false
     end.

Definition division_rule (division : DivisionEntry.t) (l : list Finding.t) : Prop :=
  if Num.ltb (DivisionEntry.variance division) (Num.of_Z (-20))
  then exists f, l = [f]
       /\ Finding.title f = DivisionEntry.name division ++ " Behind Schedule"
       /\ Finding.type f = "danger"
  else l = [].

Definition budget_rule (projectData : ProjectData.t) (l : list Finding.t) : Prop :=
  if Num.gtb (ProjectData.percentOverage projectData) Num.zero
  then exists f, l = [f] /\ Finding.title f = "Budget Concerns"
       /\ Finding.type f
          = if Num.gtb (ProjectData.percentOverage projectData) (Num.of_Z 5)
            then "danger" else "warning"
  else l = [].

(** The division iteratee throws on one of the rows. *)
Definition rows_throw (rawBudgetData : list row) (first : row) : bool :=
  match group_rows (divisionKey (detectAndMapColumns first)) rawBudgetData [] with
  | Some _ => false
  | None => true
  end.

(** The groups of the rows under a naming of the rows, in [Object.entries]
    order. *)
Definition groups_of (name : row -> string) (rows : list row) : groups :=
  entries (fold_left (fun g r => group_add (name r) r g) rows []).

Fixpoint assoc {A} (k : string) (g : list (string * A)) : option A :=
  match g with
  | [] => None
  | (k', a) :: g' => if String.eqb k' k then Some a else assoc k g'
  end.

Definition with_key (iteratee : row -> string) (k : string) (rows : list row) : list row :=
  filter (fun r => String.eqb (iteratee r) k) rows.

(** The figures of the result record, as the function sets out with them. *)
Definition budget_figures_zero (r : Result.t) : Prop :=
  ProjectData.totalBudget (Result.projectData r) = VNum Num.zero
  /\ ProjectData.totalBilled (Result.projectData r) = VNum Num.zero
  /\ ProjectData.percentBilled (Result.projectData r) = Num.zero
  /\ ProjectData.projectedFinal (Result.projectData r) = VNum Num.zero
  /\ ProjectData.projectedOverage (Result.projectData r) = VNum Num.zero
  /\ ProjectData.percentOverage (Result.projectData r) = Num.zero.

Definition time_figures_zero (r : Result.t) : Prop :=
  ProjectData.daysElapsed (Result.projectData r) = Num.zero
  /\ ProjectData.totalDuration (Result.projectData r) = ""
  /\ ProjectData.percentTimeElapsed (Result.projectData r) = Num.zero.

Definition arrays_empty (r : Result.t) : Prop :=
  Result.budgetData r = [] /\ Result.timeData r = []
  /\ Result.budgetSpentData r = [] /\ Result.costTypeData r = []
  /\ Result.divisionData r = [].

Definition strings_from_meta `{Runtime} (projectMeta : option Meta.t) (r : Result.t)
  : Prop :=
  ProjectData.projectName (Result.projectData r)
  = meta_or projectMeta Meta.projectName "Construction Project"
  /\ ProjectData.startDate (Result.projectData r) = meta_or projectMeta Meta.startDate ""
  /\ ProjectData.endDate (Result.projectData r) = meta_or projectMeta Meta.endDate ""
  /\ ProjectData.currentDate (Result.projectData r)
     = meta_or projectMeta Meta.currentDate nowLocale.

(** [projectMeta?.startDate && projectMeta?.endDate] *)
Definition has_dates (projectMeta : option Meta.t) : bool :=
  match projectMeta with
  | Some m =>
      match Meta.startDate m, Meta.endDate m with
      | Some sd, Some ed => Str.truthy sd && Str.truthy ed
      | _, _ => false
      end
  | None => false
  end.

(** The division and the cost type of a row, read off its cells. *)
Definition division_name (cell : value) : string :=
  match cell with
  | VStr costCode =>
      match leading_digits costCode with
      | EmptyString => "Other"
      | ds => "Div " ++ ds
      end
  | _ => "Other"
  end.

Definition cost_type_name (cell : value) : string :=
  if Val.truthy cell then Val.toString cell else "Other".

(** [groups] holds one group for each name met, with the rows of that name
    in their order. *)
Definition grouped_by (name : row -> string) (rows : list row)
    (groups : groups) : Prop :=
  NoDup (map fst groups)
  /\ (forall k items,
        In (k, items) groups <-> (items <> [] /\ items = with_key name k rows))
  /\ (forall r, In r rows ->
        exists items, In (name r, items) groups /\ In r items)
  /\ (forall r k items, In r rows -> In (k, items) groups -> In r items -> k = name r).

(** What a cell adds to a sum: its number, and 0 when it does not parse. *)
Definition counts_as (cell : value) (x : num) : Prop :=
  (Num.is_nan (Val.parseFloat cell) = true -> x = Num.zero)
  /\ (Num.is_nan (Val.parseFloat cell) = false -> SFeqb x (Val.parseFloat cell) = true).

(** ** Example inputs *)

Module Example.

Definition line (code : value) (description type : string)
    (budget billed forecast : Z) : row :=
  [ ("Cost Code", code); ("Description", VStr description); ("Type", VStr type);
    ("Current Budget", VNum (Num.of_Z budget));
    ("Total Billed", VNum (Num.of_Z billed));
    ("Forecast at Complete", VNum (Num.of_Z forecast)) ].

Definition footings : row := line (VStr "03-100") "Footings" "L" 1000 400 1100.
Definition rebar : row := line (VStr "03-200") "Rebar" "M" 500 100 500.
Definition paint : row := line (VStr "09-100") "Paint" "S" 300 0 300.
Definition rows : list row := [footings; rebar; paint].

(** A cost code the CSV parser typed as a number. *)
Definition numericCode : row := line (VNum (Num.of_Z 3305)) "Footings" "L" 1000 400 1100.

Definition dated (startDate endDate currentDate : string) : option Meta.t :=
  Some {| Meta.projectName := Some "Depot";
          Meta.startDate := Some startDate;
          Meta.endDate := Some endDate;
          Meta.currentDate := Some currentDate |}.

Definition year2024 : option Meta.t := dated "2024-01-01" "2024-12-31" "2024-07-01".
Definition oneDay : option Meta.t := dated "2024-03-01" "2024-03-01" "2024-03-01".
Definition undecided : option Meta.t := dated "TBD" "TBD" "2024-07-01".

(** A project looked at 91 days before it starts; it lasts 273 days. *)
Definition notStarted : option Meta.t := dated "2024-04-01" "2024-12-30" "2024-01-01".

(** A cost type that is the name of a property every object inherits. *)
Definition inheritedType : row :=
  line (VStr "03-100") "Footings" "constructor" 1000 100 1100.

End Example.

(** ** The dashboard component

    The pure helpers and the inline decisions of [ConstructionDashboard],
    and what the loader of the component and of [useProjectData] computes
    from the rows. An expression whose evaluation throws is [None]. *)

Module Dashboard.

(** [value.replace(/[^0-9.-]+/g, '')] *)
Fixpoint keep_numeric (s : string) : string :=
  match s with
  | EmptyString => EmptyString
  | String c r =>
      if Str.is_digit c || Ascii.eqb c "." || Ascii.eqb c "-"
      then String c (keep_numeric r) else keep_numeric r
  end.

Definition thousand : num := Num.of_Z 1000.
Definition million : num := Num.of_Z 1000000.

(** The body of [formatCurrency] from [isNaN(value)] on, for a value whose
    number is [value] and whose string is [text]. *)
Definition abbreviate (value : num) (text : string) : string :=
  if Num.is_nan value then "$0"
  else if Num.geb value million
  then "$" ++ toFixed 1 (Num.div value million) ++ "M"
  else if Num.geb value thousand
  then "$" ++ toFixed 0 (Num.div value thousand) ++ "K"
  else "$" ++ text.

(** The component's [formatCurrency(value)]. A string is first stripped and
    parsed; anything else is used as it is, through its number where a
    number is asked for. *)
Definition formatCurrency (value : value) : string :=
  match value with
  | VStr s =>
      let n := Str.parseFloat (keep_numeric s) in abbreviate n (numberToString n)
  | VNum n => abbreviate n (numberToString n)
  | VUndefined => abbreviate Num.NaN "undefined"
  | VNull => abbreviate Num.zero "null"
  | VBool true => abbreviate (Num.of_Z 1) "true"
  | VBool false => abbreviate Num.zero "false"
  end.

Definition green : string := "#38A169".
Definition blue : string := "#3182CE".
Definition orange : string := "#ED8936".
Definition red : string := "#E53E3E".

(** [getStatusColor(percent, expected = 50)]; [None] is an [undefined]
    second argument. *)
Definition getStatusColor (percent : num) (expected : option num) : string :=
  let expected := match expected with Some e => e | None => Num.of_Z 50 end in
  let ratio := Num.div percent expected in
  if Num.geb ratio (Num.of_decimal false 15 (-1)) then green
  else if Num.geb ratio (Num.of_decimal false 9 (-1)) then blue
  else if Num.geb ratio (Num.of_decimal false 6 (-1)) then orange
  else red.

(** The class of a finding's card. *)
Definition findingClass (finding : Finding.t) : string :=
  if String.eqb (Finding.type finding) "danger" then "bg-red-50 border-red-300"
  else if String.eqb (Finding.type finding) "warning" then "bg-yellow-50 border-yellow-300"
  else "bg-blue-50 border-blue-300".

(** The status shown beside a cost type in the analysis list. *)
Definition costTypeStatus (costType : CostTypeEntry.t) : string :=
  let variance :=
    Num.sub (CostTypeEntry.complete costType) (CostTypeEntry.expectedComplete costType) in
  if Num.geb variance (Num.of_Z 5) then "ahead of schedule"
  else if Num.geb variance (Num.of_Z (-5)) then "on schedule"
  else if Num.geb variance (Num.of_Z (-15)) then "slightly behind"
  else "significantly behind".

(** The fill of the projected-cost bar of a budget item. *)
Definition projectedFill (entry : BudgetItem.t) : string :=
  if Num.gtb (BudgetItem.projected entry) (BudgetItem.budget entry) then red
  else if Num.ltb (BudgetItem.projected entry) (BudgetItem.budget entry) then green
  else blue.

(** What a value interpolated in the markup shows: a string or a number as
    text, nothing for the others. *)
Definition shown (v : value) : string :=
  match v with
  | VStr s => s
  | VNum n => numberToString n
  | _ => ""
  end.

(** The first item of the Budget Management list. In its second branch
    [projectedOverage.replace] is called: only a string has that method. *)
Definition budgetManagementItem (projectData : ProjectData.t) : option string :=
  if Num.gtb (Val.parseFloat (VNum (ProjectData.percentOverage projectData))) Num.zero
  then Some ("Projected overrun of " ++ shown (ProjectData.projectedOverage projectData)
             ++ " (" ++ toFixed 1 (ProjectData.percentOverage projectData)
             ++ "% over budget)")
  else
    match ProjectData.projectedOverage projectData with
    | VStr s =>
        Some ("Project is currently "
              ++ formatCurrency (VNum (SFabs (Str.parseFloat (keep_numeric s))))
              ++ " under budget")
    | _ => None
    end.

(** The sentence under the project overview chart. *)
Definition scheduleSentence (projectData : ProjectData.t) : string :=
  let percentTimeElapsed := ProjectData.percentTimeElapsed projectData in
  let percentBilled := ProjectData.percentBilled projectData in
  if Num.gtb percentTimeElapsed percentBilled
  then "Project is " ++ toFixed 2 (Num.sub percentTimeElapsed percentBilled)
       ++ "% behind schedule"
  else "Project is " ++ toFixed 2 (Num.sub percentBilled percentTimeElapsed)
       ++ "% ahead of schedule".

(** The fills of the bars of the two completion charts. *)
Definition costTypeFill (entry : CostTypeEntry.t) : string :=
  getStatusColor (CostTypeEntry.complete entry)
                 (Some (CostTypeEntry.expectedComplete entry)).

Definition divisionFill (entry : DivisionEntry.t) : string :=
  getStatusColor (DivisionEntry.complete entry) (Some (DivisionEntry.expected entry)).

End Dashboard.

(** [identifyProjectRedFlags(normalizedData)] on the data just normalized,
    as both loaders call it: the findings, or [None] when the call throws
    (the loaders then report the error and show no record). *)
Definition keyFindings `{Runtime} (rawBudgetData : option (list row))
    (projectMeta : option Meta.t) : option (list Finding.t) :=
  identifyProjectRedFlags (normalizeBudgetData rawBudgetData projectMeta).

(** ** More vocabulary *)

(** The patterns of the [else if] chain, in order, and the field a key
    falls to: that of the first pattern that accepts it. *)
Definition chain : list re :=
  [Pat.costCode; Pat.description; Pat.costType; Pat.currentBudget;
   Pat.billedToDate; Pat.percentBilled; Pat.projectedCost; Pat.variance].

Fixpoint first_match (patterns : list re) (s : string) : option nat :=
  match patterns with
  | [] => None
  | p :: ps => if test p s then Some 0%nat else option_map S (first_match ps s)
  end.

Definition claimed_by (i : nat) (key : string) : bool :=
  match first_match chain (Str.toLowerCase key) with
  | Some j => Nat.eqb i j
  | None => false
  end.

Fixpoint last_of {A} (l : list A) : option A :=
  match l with
  | [] => None
  | [x] => Some x
  | _ :: l' => last_of l'
  end.

(** The column of field [i]: the last key that falls to the field, else
    what [inferColumnMappings] gives. *)
Definition detected_column (i : nat) (keys : list string) : string :=
  match last_of (filter (claimed_by i) keys) with
  | Some k => k
  | None => nth i (ColumnMap.fields (inferColumnMappings keys)) ""
  end.

Definition default_columns : list string :=
  ["Budget Code"; "Budget Code Description"; "Cost Type";
   "E - Current Contract Budget"; "J - Total Billed to Date"; "% Billed to Date";
   "Q - Proj Cost @ Complete (J+P)"; "(Over) / Under Budget (G-Q)"].

(** The patterns of [inferColumnMappings], in the order of the fields. *)
Definition fallbacks : list re :=
  [Pat.code; Pat.descr; Pat.type; Pat.budget; Pat.billed; Pat.pctBilled;
   Pat.projected; Pat.varianceOverUnder].

(** No pattern of either list accepts the key. *)
Definition unrecognised (key : string) : bool :=
  forallb (fun p => negb (test p (Str.toLowerCase key))) chain
  && forallb (fun p => negb (testi p key)) fallbacks.

(** A cell that adds nothing to a sum: it does not parse, or parses to 0. *)
Definition adds_nothing (cell : value) : bool :=
  negb (Num.truthy (Val.parseFloat cell)).

Definition same_budget (k : num) (item : BudgetItem.t) : bool :=
  SFeqb k (BudgetItem.budget item).

(** The [try] block of [normalizeBudgetData] was entered and ran to its
    end on the rows. *)
Definition processed (rawBudgetData : option (list row)) : bool :=
  match rawBudgetData with
  | Some (first :: rest) => negb (rows_throw (first :: rest) first)
  | _ => false
  end.

Definition is_some {A} (o : option A) : bool :=
  match o with Some _ => true | None => false end.

(** The metadata has a start and an end date, and one of the two is not
    read as a date. *)
Definition dates_unparsable `{Runtime} (projectMeta : option Meta.t) : bool :=
  match projectMeta with
  | Some m =>
      match Meta.startDate m, Meta.endDate m with
      | Some sd, Some ed =>
          Str.truthy sd && Str.truthy ed
          && (Num.is_nan (dateParse sd) || Num.is_nan (dateParse ed))
      | _, _ => false
      end
  | None => false
  end.

(** A cost code written with a leading zero, as "03-100". *)
Definition leading_zero (cell : value) : bool :=
  match cell with
  | VStr (String c _) => Ascii.eqb c "0"
  | _ => false
  end.

(** The turn did not pass quietly: it pushed a finding, or it threw. *)
Definition raised (turn : option (list Finding.t)) : bool :=
  match turn with Some [] => false | _ => true end.

Definition same_complete (k : num) (entry : DivisionEntry.t) : bool :=
  SFeqb k (DivisionEntry.complete entry).

(** The number the component's [formatCurrency] compares with its
    thresholds: that of the stripped string, or the value as a number. *)
Definition amount (value : value) : num :=
  match value with
  | VStr s => Str.parseFloat (Dashboard.keep_numeric s)
  | VNum n => n
  | VUndefined => Num.NaN
  | VNull => Num.zero
  | VBool true => Num.of_Z 1
  | VBool false => Num.zero
  end.

(** The column of field [i], spelled out: the last key of the row that the
    chain of [detectAndMapColumns] gives to the field; when no key falls to
    it, the first key its fallback pattern accepts, case ignored; when
    there is none, or that key is the empty string, the default name. *)
Definition selected_column (i : nat) (keys : list string) : string :=
  match last_of (filter (claimed_by i) keys) with
  | Some k => k
  | None =>
      match find (testi (nth i fallbacks Pat.code)) keys with
      | Some k => if Str.truthy k then k else nth i default_columns ""
      | None => nth i default_columns ""
      end
  end.

(** The division of a row under a column map. *)
Definition division_of (columnMap : ColumnMap.t) (r : row) : string :=
  division_name (get r (ColumnMap.costCode columnMap)).

(** The number nearest to [k / 100]: what [parseFloat] reads in a numeral
    with two decimals. *)
Definition hundredths (k : Z) : num := Num.of_decimal false k (-2).

(** [v] is one of the numbers 0.00, 0.01, ..., 400.00: [k], its hundredfold
    rounded to an integer, lies between 0 and 40000, and [v] is the number
    nearest to [k / 100]. *)
Definition two_decimals (v : num) : bool :=
  match v with
  | S754_zero false => true
  | S754_finite false m e =>
      let k := Num.scaled_round 2 m e in
      (0 <=? k) && (k <=? 40000) && NumStr.eqb v (hundredths k)
  | _ => false
  end.

(** [p] holds of the [fuel] integers from [k] on. *)
Fixpoint every_from (fuel : nat) (k : Z) (p : Z -> bool) : bool :=
  match fuel with
  | O => true
  | S fuel' => p k && every_from fuel' (k + 1) p
  end.

(** [v + (100 - v)] is exactly 100. *)
Definition sum_exact (v : num) : bool :=
  NumStr.eqb (Num.add v (Num.sub hundred v)) hundred.

(** [x] is a number from 0 up that [toFixed(2)] rounds to 400.00 at most. *)
Definition rounds_within (x : num) : bool :=
  match x with
  | S754_zero _ => true
  | S754_finite false m e =>
      negb (Num.ge_1e21 m e) && (Num.scaled_round 2 m e <=? 40000)
  | _ => false
  end.

(** What is evaluated for each [k], on [v] the number nearest to
    [k / 100]: the sum, that the numeral of [k] hundredths is read back as
    [v], and that [v] passes [two_decimals]. *)
Definition checked (k : Z) : bool :=
  let v := hundredths k in
  sum_exact v
  && NumStr.eqb (Str.parseFloat (Str.fixed_digits 2 k)) v
  && two_decimals v.

(** * Properties *)

(** ** The order of the numbers *)

Section NumOrder.

Lemma SFcompare_antisym (a b : num) :
  SFcompare b a = option_map CompOpp (SFcompare a b).
Proof.
  destruct a as [sa|sa| |sa ma ea], b as [sb|sb| |sb mb eb];
    try destruct sa; try destruct sb; simpl; try reflexivity;
    rewrite (Z.compare_antisym ea eb);
    destruct (ea ?= eb); simpl; try reflexivity;
    rewrite (Pos.compare_cont_antisym ma mb Eq); simpl;
    try rewrite CompOpp_involutive; reflexivity.
Qed.

Lemma SFcompare_opp (a b : num) :
  SFcompare (SFopp a) (SFopp b) = SFcompare b a.
Proof.
  rewrite (SFcompare_antisym a b).
  destruct a as [sa|sa| |sa ma ea], b as [sb|sb| |sb mb eb];
    try destruct sa; try destruct sb; simpl; try reflexivity;
    destruct (ea ?= eb); simpl; try rewrite CompOpp_involutive; reflexivity.
Qed.

Lemma SFleb_opp (a b : num) : SFleb (SFopp a) (SFopp b) = SFleb b a.
Proof. unfold SFleb. now rewrite SFcompare_opp. Qed.

Lemma SFleb_not_nan (a b : num) :
  SFleb a b = true -> Num.is_nan a = false /\ Num.is_nan b = false.
Proof. destruct a, b; simpl; auto; discriminate. Qed.

Lemma SFleb_total (a b : num) :
  Num.is_nan a = false -> Num.is_nan b = false ->
  SFleb a b = true \/ SFleb b a = true.
Proof.
  intros Ha Hb. unfold SFleb. rewrite (SFcompare_antisym a b).
  destruct (SFcompare a b) as [[]|] eqn:E; simpl; auto.
  destruct a, b; simpl in *; discriminate.
Qed.

Lemma SFltb_SFleb (a b : num) : SFleb b a = true -> SFltb a b = false.
Proof.
  unfold SFleb, SFltb. rewrite (SFcompare_antisym a b).
  destruct (SFcompare a b) as [[]|]; simpl; congruence.
Qed.

Lemma SFleb_trans (a b c : num) :
  SFleb a b = true -> SFleb b c = true -> SFleb a c = true.
Proof.
  unfold SFleb.
  destruct a as [sa|sa| |sa ma ea], b as [sb|sb| |sb mb eb],
           c as [sc|sc| |sc mc ec];
    try destruct sa; try destruct sb; try destruct sc; simpl;
    try reflexivity; try discriminate; intros Hab Hbc;
    change (Pos.compare_cont Eq) with Pos.compare in *;
    destruct (Z.compare_spec ea eb), (Z.compare_spec eb ec),
             (Z.compare_spec ea ec);
    try lia; try discriminate; try reflexivity; subst;
    destruct (Pos.compare_spec ma mb), (Pos.compare_spec mb mc),
             (Pos.compare_spec ma mc);
    simpl in *; try lia; try discriminate; reflexivity.
Qed.

End NumOrder.

(** ** [_.sortBy] sorts

    The order the keys end up in: ascending, the NaN keys last. *)

Lemma key_le_trans (a b c : num) : key_le a b -> key_le b c -> key_le a c.
Proof.
  intros [Hb|Hab] [Hc|Hbc]; try (left; exact Hc).
  - apply SFleb_not_nan in Hbc. destruct Hbc; congruence.
  - right. eapply SFleb_trans; eassumption.
Qed.

Lemma compareAscending_le (a b : num) :
  (compareAscending a b <=? 0) = true -> key_le a b.
Proof.
  unfold compareAscending, key_le, Num.gtb, Num.ltb, SFeqb, SFltb, SFleb.
  rewrite (SFcompare_antisym a b).
  destruct (SFcompare a b) as [[]|] eqn:E; simpl; auto; try discriminate;
    destruct a, b; simpl in *; auto; discriminate.
Qed.

Lemma compareAscending_gt (a b : num) :
  (compareAscending a b <=? 0) = false -> key_le b a.
Proof.
  unfold compareAscending, key_le, Num.gtb, Num.ltb, SFeqb, SFltb, SFleb.
  rewrite (SFcompare_antisym a b).
  destruct (SFcompare a b) as [[]|] eqn:E; simpl; auto; try discriminate;
    destruct a, b; simpl in *; auto; discriminate.
Qed.

Section SortByFacts.
Context {A : Type} (iteratee : A -> num).

Lemma sort_insert_perm (x : A) (l : list A) :
  Permutation (sort_insert iteratee x l) (x :: l).
Proof.
  induction l as [|y l IH]; simpl.
  - apply Permutation_refl.
  - destruct (compareAscending (iteratee x) (iteratee y) <=? 0).
    + apply Permutation_refl.
    + eapply Permutation_trans; [apply perm_skip, IH | apply perm_swap].
Qed.

Lemma sortBy_perm (l : list A) : Permutation (sortBy iteratee l) l.
Proof.
  induction l as [|x l IH]; simpl.
  - apply perm_nil.
  - eapply Permutation_trans; [apply sort_insert_perm | apply perm_skip, IH].
Qed.

Lemma sort_insert_sorted (x : A) (l : list A) :
  StronglySorted (ordered_by iteratee) l ->
  StronglySorted (ordered_by iteratee) (sort_insert iteratee x l).
Proof.
  induction 1 as [|y l Hl IH Hy]; simpl.
  - repeat constructor.
  - destruct (compareAscending (iteratee x) (iteratee y) <=? 0) eqn:E.
    + apply compareAscending_le in E.
      constructor; [constructor; assumption|].
      constructor; [exact E|].
      eapply Forall_impl; [|exact Hy].
      intros z Hz. eapply key_le_trans; eassumption.
    + apply compareAscending_gt in E.
      constructor; [exact IH|].
      eapply Permutation_Forall; [apply Permutation_sym, sort_insert_perm|].
      constructor; assumption.
Qed.

Lemma sortBy_sorted (l : list A) :
  StronglySorted (ordered_by iteratee) (sortBy iteratee l).
Proof.
  induction l as [|x l IH]; simpl.
  - constructor.
  - apply sort_insert_sorted, IH.
Qed.
End SortByFacts.

Lemma In_firstn {A} (n : nat) (l : list A) (y : A) :
  In y (firstn n l) -> In y l.
Proof.
  intros H. rewrite <- (firstn_skipn n l). apply in_or_app. now left.
Qed.


Lemma StronglySorted_impl {A} (R S : A -> A -> Prop) (l : list A) :
  (forall x y, R x y -> S x y) -> StronglySorted R l -> StronglySorted S l.
Proof.
  intros HRS. induction 1 as [|x l Hl IH Hx]; constructor; auto.
  eapply Forall_impl; [|exact Hx]. auto.
Qed.

(** ** Reading a cell as a number *)


Lemma parseFloatOr_unparsable (v : value) (d : num) :
  Num.is_nan (Val.parseFloat v) = true -> parseFloatOr v d = d.
Proof.
  intros H. unfold parseFloatOr, Num.truthy. now rewrite H.
Qed.

Lemma parseFloatOr_zero (v : value) :
  Num.is_nan (Val.parseFloat v) = false ->
  SFeqb (parseFloatOr v Num.zero) (Val.parseFloat v) = true.
Proof.
  unfold parseFloatOr, Num.truthy.
  destruct (Val.parseFloat v) as [s|s| |s m e]; simpl; try discriminate; intros _.
  - reflexivity.
  - destruct s; reflexivity.
  - unfold SFeqb. simpl. destruct s; rewrite Z.compare_refl;
      change (Pos.compare_cont Eq m m) with (m ?= m)%positive;
      now rewrite Pos.compare_refl.
Qed.

(** ** The top budget items *)


Lemma neg_is_nan (a : num) : Num.is_nan (Num.neg a) = Num.is_nan a.
Proof. now destruct a. Qed.


(** ** The division list *)

(** C10: the list [processDivisionData] returns is in non-increasing order
    of [complete]. *)
Theorem division_data_sorted (groupedByDivision : groups)
    (columnMap : ColumnMap.t) (expectedComplete : num) :
  StronglySorted complete_ge
    (processDivisionData groupedByDivision columnMap expectedComplete).
Proof.
  unfold processDivisionData.
  eapply StronglySorted_impl; [|apply sortBy_sorted].
  intros a b [Hn|Hle]; unfold complete_ge.
  - rewrite neg_is_nan in Hn. split; [|now left].
    unfold Num.ltb, SFltb. destruct (DivisionEntry.complete a), (DivisionEntry.complete b);
      simpl in *; congruence.
  - unfold Num.neg in Hle. rewrite SFleb_opp in Hle.
    split; [apply SFltb_SFleb, Hle | right; exact Hle].
Qed.

(** ** Column detection *)

Lemma truthy_nonempty (s : string) : Str.truthy s = true <-> s <> "".
Proof. destruct s; simpl; split; congruence. Qed.

Lemma detect_key_invariant (keys : list string) (map : ColumnMap.t) (key : string) :
  In key keys -> loop_invariant keys map -> loop_invariant keys (detect_key map key).
Proof.
  intros Hin (H1 & H2 & H3 & H4 & H5 & H6 & H7 & H8).
  unfold detect_key.
  repeat match goal with
         | |- context [if test ?p ?s then _ else _] => destruct (test p s) eqn:?
         end;
    unfold loop_invariant; simpl; repeat split; auto; right; auto.
Qed.

Lemma detect_loop_invariant (keys ks : list string) (map : ColumnMap.t) :
  incl ks keys -> loop_invariant keys map ->
  loop_invariant keys (fold_left detect_key ks map).
Proof.
  revert map. induction ks as [|k ks IH]; intros map Hincl Hinv; simpl.
  - exact Hinv.
  - apply IH.
    + intros x Hx. apply Hincl. now right.
    + apply detect_key_invariant; [apply Hincl; now left | exact Hinv].
Qed.

Lemma find_or_spec (r : re) (keys : list string) (d : string) :
  (In (find_or r keys d) keys /\ testi r (find_or r keys d) = true
   /\ find_or r keys d <> "")
  \/ find_or r keys d = d.
Proof.
  unfold find_or. destruct (find (testi r) keys) as [k|] eqn:E; [|now right].
  apply find_some in E. destruct E as [Hin Ht].
  destruct (Str.truthy k) eqn:Hk; [|now right].
  left. repeat split; auto. now apply truthy_nonempty.
Qed.

Lemma pick_detected (keys : list string) (pattern fallback : re) (d det : string) :
  d <> "" -> unset_or_matched keys pattern det ->
  detected_by keys pattern fallback d (pick det (find_or fallback keys d))
  /\ pick det (find_or fallback keys d) <> "".
Proof.
  intros Hd Hdet. unfold pick. destruct (Str.truthy det) eqn:E.
  - apply truthy_nonempty in E. destruct Hdet as [->|[Hin Ht]]; [congruence|].
    split; [left; auto | exact E].
  - destruct (find_or_spec fallback keys d) as [(Hin & Ht & Hne)|Heq].
    + split; [left; auto | exact Hne].
    + rewrite Heq. split; [now right | exact Hd].
Qed.

(** ** Red flags *)

Lemma last_char_append (a b : string) :
  b <> "" -> last_char (a ++ b) = last_char b.
Proof.
  intros Hb. induction a as [|c a IH]; simpl; [reflexivity|].
  rewrite <- IH. destruct (a ++ b) eqn:E; [|reflexivity].
  destruct a; simpl in E; [congruence|discriminate].
Qed.

Lemma schedule_rule_holds (pd : ProjectData.t) : schedule_rule pd (scheduleFinding pd).
Proof.
  unfold schedule_rule, scheduleFinding. fold (scheduleVariance pd).
  destruct (Num.gtb (scheduleVariance pd) (Num.of_Z 5)); [|reflexivity].
  eexists. repeat split.
Qed.

Lemma cost_type_rule_holds (c : CostTypeEntry.t) (l : list Finding.t) :
  costTypeFinding c = Some l -> cost_type_rule c l.
Proof.
  unfold cost_type_rule, costTypeFinding.
  destruct (Num.ltb _ _); [|now intros [= <-]].
  destruct (CostTypeEntry.name c) as [name|key]; [|discriminate].
  intros [= <-]. eexists _, _. repeat split.
Qed.

Lemma costTypeFinding_throws (c : CostTypeEntry.t) :
  costTypeFinding c = None <-> concern_throws c = true.
Proof.
  unfold costTypeFinding, concern_throws.
  destruct (Num.ltb _ _), (CostTypeEntry.name c); simpl; split; congruence.
Qed.

Lemma division_rule_holds (d : DivisionEntry.t) : division_rule d (divisionFinding d).
Proof.
  unfold division_rule, divisionFinding.
  destruct (Num.ltb _ _); [|reflexivity]. eexists. repeat split.
Qed.

Lemma budget_rule_holds (pd : ProjectData.t) : budget_rule pd (budgetFinding pd).
Proof.
  unfold budget_rule, budgetFinding.
  destruct (Num.gtb (ProjectData.percentOverage pd) Num.zero); [|reflexivity].
  eexists. repeat split.
Qed.

Lemma flat_map_Forall2 {A B} (f : A -> list B) (R : A -> list B -> Prop) (l : list A) :
  (forall a, R a (f a)) ->
  flat_map f l = List.concat (map f l) /\ Forall2 R l (map f l).
Proof.
  intros HR. split; [apply flat_map_concat_map|].
  induction l; simpl; constructor; auto.
Qed.

Section ForEach.
Context {A : Type} (f : A -> option (list Finding.t)).

Lemma forEach_Some (l : list A) (pushed : list Finding.t) :
  forEach f l = Some pushed ->
  exists each, Forall2 (fun a x => f a = Some x) l each /\ pushed = List.concat each.
Proof.
  revert pushed. induction l as [|a l IH]; simpl; intros pushed.
  - intros [= <-]. exists []. split; [constructor|reflexivity].
  - destruct (f a) as [x|] eqn:Ea; [|discriminate].
    destruct (forEach f l) as [later|]; [|discriminate].
    intros [= <-]. destruct (IH later eq_refl) as [each [Hall ->]].
    exists (x :: each). split; [now constructor|reflexivity].
Qed.

Lemma forEach_None (l : list A) :
  forEach f l = None <-> exists a, In a l /\ f a = None.
Proof.
  induction l as [|a l IH]; simpl.
  - split; [discriminate|]. intros [a [[] _]].
  - destruct (f a) as [x|] eqn:Ea.
    + destruct (forEach f l) as [later|].
      * split; [discriminate|]. intros [b [[<-|Hb] Hn]]; [congruence|].
        assert (Hex : exists a0, In a0 l /\ f a0 = None) by eauto.
        apply IH in Hex. discriminate.
      * split; [|reflexivity]. intros _.
        destruct (proj1 IH eq_refl) as [b [Hb Hn]]. exists b. split; [now right|exact Hn].
    + split; [|reflexivity]. intros _. exists a. split; [now left|exact Ea].
Qed.

Lemma forEach_total (g : A -> list Finding.t) (l : list A) :
  (forall a, In a l -> f a = Some (g a)) -> forEach f l = Some (flat_map g l).
Proof.
  induction l as [|a l IH]; simpl; intros Hg; [reflexivity|].
  rewrite (Hg a (or_introl eq_refl)), IH; [reflexivity|].
  intros b Hb. apply Hg. now right.
Qed.

End ForEach.

Lemma title_in_cost_types (l : list CostTypeEntry.t) (concerns : list Finding.t)
    (f : Finding.t) :
  forEach costTypeFinding l = Some concerns -> In f concerns ->
  last_char (Finding.title f) = Some "n"%char.
Proof.
  intros Hl Hf. apply forEach_Some in Hl. destruct Hl as [each [Hall ->]].
  apply in_concat in Hf. destruct Hf as [x [Hx Hf]].
  induction Hall as [|c y l each Hc _ IH]; [contradiction|].
  destruct Hx as [<-|Hx]; [|now apply IH].
  unfold costTypeFinding in Hc. destruct (Num.ltb _ _).
  - destruct (CostTypeEntry.name c) as [name|key]; [|discriminate].
    injection Hc as <-. destruct Hf as [<-|[]]. simpl. now rewrite last_char_append.
  - injection Hc as <-. contradiction.
Qed.

Lemma title_in_divisions (l : list DivisionEntry.t) (f : Finding.t) :
  In f (flat_map divisionFinding l) -> last_char (Finding.title f) = Some "e"%char.
Proof.
  rewrite in_flat_map. intros [d [_ Hf]]. unfold divisionFinding in Hf.
  destruct (Num.ltb _ _); [|contradiction]. destruct Hf as [<-|[]]. simpl.
  now rewrite last_char_append.
Qed.

(** What [identifyProjectRedFlags] does on every record. It throws exactly
    when the cost-type list holds an entry that is more than 15 behind and
    whose name is not a string. Otherwise the findings are, in order, what
    the schedule comparison, each cost-type entry, each division entry and
    the budget comparison contribute, each contribution being one finding
    when its threshold comparison holds and none otherwise; so a finding
    titled "Schedule Status" (resp. "Budget Concerns") is there exactly
    when the schedule variance exceeds 5 (resp. the overage percentage
    exceeds 0). *)
Theorem red_flags_fire_on_thresholds (normalizedData : Result.t) :
  let projectData := Result.projectData normalizedData in
  match identifyProjectRedFlags normalizedData with
  | None => existsb concern_throws (Result.costTypeData normalizedData) = true
  | Some findings =>
      existsb concern_throws (Result.costTypeData normalizedData) = false
      /\ (exists schedule costTypes divisions budget,
            findings
            = (schedule ++ List.concat costTypes ++ List.concat divisions ++ budget)%list
            /\ schedule_rule projectData schedule
            /\ Forall2 cost_type_rule (Result.costTypeData normalizedData) costTypes
            /\ Forall2 division_rule (Result.divisionData normalizedData) divisions
            /\ budget_rule projectData budget)
      /\ ((exists f, In f findings /\ Finding.title f = "Schedule Status")
          <-> Num.gtb (scheduleVariance projectData) (Num.of_Z 5) = true)
      /\ ((exists f, In f findings /\ Finding.title f = "Budget Concerns")
          <-> Num.gtb (ProjectData.percentOverage projectData) Num.zero = true)
  end.
Proof.
  intros projectData. unfold identifyProjectRedFlags. fold projectData.
  destruct (forEach costTypeFinding (Result.costTypeData normalizedData))
    as [concerns|] eqn:Hc.
  - split; [|split; [|split]].
    + destruct (existsb concern_throws (Result.costTypeData normalizedData)) eqn:He;
        [|reflexivity].
      apply existsb_exists in He. destruct He as [c [Hin Ht]].
      assert (Hn : forEach costTypeFinding (Result.costTypeData normalizedData) = None).
      { apply forEach_None. exists c. split; [exact Hin|].
        now apply costTypeFinding_throws. }
      congruence.
    + destruct (forEach_Some _ _ _ Hc) as [costTypes [Hall ->]].
      exists (scheduleFinding projectData), costTypes,
             (map divisionFinding (Result.divisionData normalizedData)),
             (budgetFinding projectData).
      destruct (flat_map_Forall2 divisionFinding division_rule
                  (Result.divisionData normalizedData) division_rule_holds) as [E2 F2].
      split; [now rewrite E2|].
      split; [apply schedule_rule_holds|]. split.
      * eapply Forall2_impl; [|exact Hall]. intros c l. apply cost_type_rule_holds.
      * split; [exact F2|apply budget_rule_holds].
    + split.
      * intros [f [Hin Ht]]. rewrite !in_app_iff in Hin.
        destruct Hin as [Hin|[Hin|[Hin|Hin]]].
        -- unfold scheduleFinding in Hin. fold (scheduleVariance projectData) in Hin.
           destruct (Num.gtb (scheduleVariance projectData) (Num.of_Z 5));
             [reflexivity|contradiction].
        -- apply (title_in_cost_types _ _ _ Hc) in Hin. rewrite Ht in Hin. discriminate.
        -- apply title_in_divisions in Hin. rewrite Ht in Hin. discriminate.
        -- unfold budgetFinding in Hin. destruct (Num.gtb _ Num.zero); [|contradiction].
           destruct Hin as [<-|[]]. discriminate.
      * intros Hgt. pose proof (schedule_rule_holds projectData) as Hs.
        unfold schedule_rule in Hs. rewrite Hgt in Hs.
        destruct Hs as [f [Hf [Ht _]]]. exists f. split; [|exact Ht].
        rewrite Hf. now left.
    + split.
      * intros [f [Hin Ht]]. rewrite !in_app_iff in Hin.
        destruct Hin as [Hin|[Hin|[Hin|Hin]]].
        -- unfold scheduleFinding in Hin. destruct (Num.gtb _ (Num.of_Z 5)); [|contradiction].
           destruct Hin as [<-|[]]. discriminate.
        -- apply (title_in_cost_types _ _ _ Hc) in Hin. rewrite Ht in Hin. discriminate.
        -- apply title_in_divisions in Hin. rewrite Ht in Hin. discriminate.
        -- unfold budgetFinding in Hin.
           destruct (Num.gtb (ProjectData.percentOverage projectData) Num.zero);
             [reflexivity|contradiction].
      * intros Hgt. pose proof (budget_rule_holds projectData) as Hs.
        unfold budget_rule in Hs. rewrite Hgt in Hs.
        destruct Hs as [f [Hf [Ht _]]]. exists f. split; [|exact Ht].
        rewrite !in_app_iff. right. right. right. rewrite Hf. now left.
  - apply forEach_None in Hc. destruct Hc as [c [Hin Hn]].
    apply existsb_exists. exists c. split; [exact Hin|].
    now apply costTypeFinding_throws.
Qed.

(** ** The [try] block *)

Section Processing.
Context `{Runtime}.

(** The time metrics block never throws, and writes only the three
    time fields. *)
Lemma timeMetrics_done (projectMeta : option Meta.t) (r : Result.t) :
  timeMetrics projectMeta r = Done tt (final (timeMetrics projectMeta r)).
Proof.
  unfold timeMetrics.
  destruct projectMeta as [m|]; [|reflexivity].
  destruct (Meta.startDate m), (Meta.endDate m); try reflexivity.
  destruct (Str.truthy s && Str.truthy s0); reflexivity.
Qed.

Lemma group_rows_named (iteratee : row -> option string) (name : row -> string)
    (rows : list row) (created : groups) :
  (forall r, In r rows -> iteratee r = Some (name r)) ->
  group_rows iteratee rows created
  = Some (fold_left (fun g r => group_add (name r) r g) rows created).
Proof.
  revert created. induction rows as [|r rows IH]; intros created Hn; simpl.
  - reflexivity.
  - rewrite (Hn r (or_introl eq_refl)). apply IH.
    intros r' Hr'. apply Hn. now right.
Qed.

Lemma group_rows_Some (iteratee : row -> option string) (rows : list row)
    (created g : groups) :
  group_rows iteratee rows created = Some g ->
  forall r, In r rows -> exists k, iteratee r = Some k.
Proof.
  revert created. induction rows as [|r0 rows IH]; simpl; intros created Hg r Hr.
  - contradiction.
  - destruct (iteratee r0) as [k0|] eqn:E0; [|discriminate].
    destruct Hr as [<-|Hr]; [now exists k0 | eapply IH; eauto].
Qed.

Lemma groupBy_total (name : row -> string) (rows : list row) (r : Result.t) :
  groupBy (fun x => Some (name x)) rows r = Done (groups_of name rows) r.
Proof.
  unfold groupBy, groups_of.
  rewrite (group_rows_named _ name); [reflexivity|]. intros; reflexivity.
Qed.

Lemma processing_thrown (rawBudgetData : list row) (first : row)
    (projectMeta : option Meta.t) (r : Result.t) :
  rows_throw rawBudgetData first = true ->
  processing rawBudgetData first projectMeta r
  = Thrown (final (timeMetrics projectMeta r)).
Proof.
  unfold rows_throw, processing, bind at 1. intros Hthrow.
  rewrite timeMetrics_done. unfold bind at 1, groupBy at 1.
  destruct (group_rows _ _ _); [discriminate|reflexivity].
Qed.

Lemma processing_completes (rawBudgetData : list row) (first : row)
    (projectMeta : option Meta.t) (r : Result.t) :
  completes (processing rawBudgetData first projectMeta r)
  = negb (rows_throw rawBudgetData first).
Proof.
  unfold rows_throw, processing, bind at 1.
  rewrite timeMetrics_done. unfold bind at 1, groupBy at 1.
  destruct (group_rows _ _ _); [|reflexivity].
  cbv beta iota delta [ret]. unfold bind at 1. rewrite groupBy_total. reflexivity.
Qed.
End Processing.

Section ProcessingResult.
Context `{Runtime}.

Lemma timeMetrics_budget_untouched (projectMeta : option Meta.t) (r : Result.t) :
  let r' := final (timeMetrics projectMeta r) in
  Result.budgetData r' = Result.budgetData r
  /\ Result.timeData r' = Result.timeData r
  /\ Result.budgetSpentData r' = Result.budgetSpentData r
  /\ Result.costTypeData r' = Result.costTypeData r
  /\ Result.divisionData r' = Result.divisionData r
  /\ ProjectData.totalBudget (Result.projectData r')
     = ProjectData.totalBudget (Result.projectData r)
  /\ ProjectData.totalBilled (Result.projectData r')
     = ProjectData.totalBilled (Result.projectData r)
  /\ ProjectData.percentBilled (Result.projectData r')
     = ProjectData.percentBilled (Result.projectData r)
  /\ ProjectData.projectedFinal (Result.projectData r')
     = ProjectData.projectedFinal (Result.projectData r)
  /\ ProjectData.projectedOverage (Result.projectData r')
     = ProjectData.projectedOverage (Result.projectData r)
  /\ ProjectData.percentOverage (Result.projectData r')
     = ProjectData.percentOverage (Result.projectData r)
  /\ ProjectData.projectName (Result.projectData r')
     = ProjectData.projectName (Result.projectData r)
  /\ ProjectData.startDate (Result.projectData r')
     = ProjectData.startDate (Result.projectData r)
  /\ ProjectData.endDate (Result.projectData r')
     = ProjectData.endDate (Result.projectData r)
  /\ ProjectData.currentDate (Result.projectData r')
     = ProjectData.currentDate (Result.projectData r).
Proof.
  unfold timeMetrics.
  destruct projectMeta as [m|]; [|simpl; tauto].
  destruct (Meta.startDate m), (Meta.endDate m); try (simpl; tauto).
  destruct (Str.truthy s && Str.truthy s0); simpl; tauto.
Qed.

(** The state the block ends in when no row throws, field by field. *)
Lemma processing_done (rawBudgetData : list row) (first : row)
    (projectMeta : option Meta.t) (r0 : Result.t) :
  rows_throw rawBudgetData first = false ->
  let columnMap := detectAndMapColumns first in
  let totalBudget := sumField rawBudgetData (ColumnMap.currentBudget columnMap) in
  let totalBilled := sumField rawBudgetData (ColumnMap.billedToDate columnMap) in
  let projectedFinalCost := sumField rawBudgetData (ColumnMap.projectedCost columnMap) in
  let timed := final (timeMetrics projectMeta r0) in
  let pte := ProjectData.percentTimeElapsed (Result.projectData timed) in
  let r := final (processing rawBudgetData first projectMeta r0) in
  ProjectData.percentTimeElapsed (Result.projectData r) = pte
  /\ ProjectData.totalBudget (Result.projectData r) = VStr (formatCurrency totalBudget)
  /\ ProjectData.totalBilled (Result.projectData r) = VStr (formatCurrency totalBilled)
  /\ ProjectData.percentBilled (Result.projectData r)
     = round2 (if Num.gtb totalBudget Num.zero
               then percent totalBilled totalBudget else Num.zero)
  /\ ProjectData.projectedFinal (Result.projectData r)
     = VStr (formatCurrency projectedFinalCost)
  /\ ProjectData.projectedOverage (Result.projectData r)
     = VStr (formatCurrency (Num.sub projectedFinalCost totalBudget))
  /\ ProjectData.percentOverage (Result.projectData r)
     = round2 (if Num.gtb totalBudget Num.zero
               then percent (Num.sub projectedFinalCost totalBudget) totalBudget
               else Num.zero)
  /\ Result.timeData r
     = [ {| Slice.name := "Time Elapsed"; Slice.value := pte |};
         {| Slice.name := "Time Remaining"; Slice.value := Num.sub hundred pte |} ]
  /\ Result.budgetSpentData r
     = [ {| Slice.name := "Budget Spent";
            Slice.value := ProjectData.percentBilled (Result.projectData r) |};
         {| Slice.name := "Budget Remaining";
            Slice.value :=
              Num.sub hundred (ProjectData.percentBilled (Result.projectData r)) |} ]
  /\ Result.costTypeData r
     = processCostTypeData (groups_of (costTypeKey columnMap) rawBudgetData) columnMap pte
  /\ (exists groupedByDivision,
        groupBy (divisionKey columnMap) rawBudgetData timed = Done groupedByDivision timed
        /\ Result.divisionData r
           = processDivisionData groupedByDivision columnMap pte)
  /\ Result.budgetData r = processTopBudgetItems rawBudgetData columnMap default_limit.
Proof.
  intros Hthrow columnMap totalBudget totalBilled projectedFinalCost timed pte r.
  unfold rows_throw in Hthrow. fold columnMap in Hthrow.
  assert (Hg : exists g, groupBy (divisionKey columnMap) rawBudgetData timed = Done g timed).
  { unfold groupBy.
    destruct (group_rows (divisionKey columnMap) rawBudgetData []);
      [eexists; reflexivity|discriminate]. }
  destruct Hg as [g Hg].
  assert (Hr : r = final (processing rawBudgetData first projectMeta r0)) by reflexivity.
  cbv beta zeta delta [processing bind] in Hr. rewrite timeMetrics_done in Hr.
  fold timed columnMap in Hr. rewrite Hg in Hr.
  cbv beta iota in Hr. rewrite groupBy_total in Hr.
  cbv beta iota zeta delta [assign modify read ret final] in Hr.
  rewrite Hr. cbn [Result.projectData Result.timeData Result.budgetSpentData
    Result.costTypeData Result.divisionData Result.budgetData
    Result.set_projectData Result.set_timeData Result.set_budgetSpentData
    Result.set_costTypeData Result.set_divisionData Result.set_budgetData
    ProjectData.percentTimeElapsed ProjectData.totalBudget ProjectData.totalBilled
    ProjectData.percentBilled ProjectData.projectedFinal ProjectData.projectedOverage
    ProjectData.percentOverage
    ProjectData.set_totalBudget ProjectData.set_totalBilled
    ProjectData.set_percentBilled ProjectData.set_projectedFinal
    ProjectData.set_projectedOverage ProjectData.set_percentOverage].
  fold pte.
  repeat (split; [reflexivity|]).
  split; [|reflexivity].
  eexists. split; [exact Hg|reflexivity].
Qed.
End ProcessingResult.

(** ** Grouping *)

Lemma assoc_group_add (k k' : string) (r : row) (g : groups) :
  assoc k (group_add k' r g)
  = if String.eqb k' k
    then Some (match assoc k g with Some rs => rs ++ [r] | None => [r] end)%list
    else assoc k g.
Proof.
  induction g as [|[k0 rs] g IH]; simpl.
  - destruct (String.eqb k' k); reflexivity.
  - destruct (String.eqb k0 k') eqn:E0; simpl.
    + apply String.eqb_eq in E0. subst k0.
      destruct (String.eqb k' k); reflexivity.
    + destruct (String.eqb k0 k) eqn:E1.
      * apply String.eqb_eq in E1. subst k0.
        rewrite String.eqb_sym in E0. now rewrite E0.
      * exact IH.
Qed.

Lemma keys_group_add (k : string) (r : row) (g : groups) :
  map fst (group_add k r g)
  = if existsb (String.eqb k) (map fst g) then map fst g else (map fst g ++ [k])%list.
Proof.
  induction g as [|[k0 rs] g IH]; simpl; [reflexivity|].
  rewrite (String.eqb_sym k k0).
  destruct (String.eqb k0 k) eqn:E; simpl; [reflexivity|].
  rewrite IH. destruct (existsb (String.eqb k) (map fst g)); reflexivity.
Qed.

Lemma NoDup_group_add (k : string) (r : row) (g : groups) :
  NoDup (map fst g) -> NoDup (map fst (group_add k r g)).
Proof.
  intros Hnd. rewrite keys_group_add.
  destruct (existsb (String.eqb k) (map fst g)) eqn:E; [exact Hnd|].
  apply NoDup_app; [exact Hnd | repeat constructor; intros [] | ].
  intros x Hx [Hk|[]]. subst x.
  assert (existsb (String.eqb k) (map fst g) = true); [|congruence].
  apply existsb_exists. exists k. split; [exact Hx | apply String.eqb_refl].
Qed.

Lemma assoc_fold_group_add (iteratee : row -> string) (k : string)
    (rows : list row) (g : groups) :
  assoc k (fold_left (fun g r => group_add (iteratee r) r g) rows g)
  = match assoc k g, with_key iteratee k rows with
    | None, [] => None
    | None, l => Some l
    | Some l0, l => Some (l0 ++ l)%list
    end.
Proof.
  revert g. induction rows as [|r rows IH]; intros g; simpl.
  - destruct (assoc k g); [now rewrite app_nil_r | reflexivity].
  - rewrite IH, assoc_group_add. unfold with_key. simpl.
    destruct (String.eqb (iteratee r) k); [|reflexivity].
    destruct (assoc k g) as [l0|]; simpl.
    + now rewrite <- app_assoc.
    + reflexivity.
Qed.

Lemma NoDup_fold_group_add (iteratee : row -> string) (rows : list row)
    (g : groups) :
  NoDup (map fst g) ->
  NoDup (map fst (fold_left (fun g r => group_add (iteratee r) r g) rows g)).
Proof.
  revert g. induction rows as [|r rows IH]; intros g Hg; simpl; [exact Hg|].
  apply IH, NoDup_group_add, Hg.
Qed.

Lemma assoc_In {A} (k : string) (a : A) (g : list (string * A)) :
  NoDup (map fst g) -> (In (k, a) g <-> assoc k g = Some a).
Proof.
  induction g as [|[k0 a0] g IH]; simpl; intros Hnd.
  - split; [intros [] | discriminate].
  - inversion Hnd as [|? ? Hnotin Hnd']; subst.
    destruct (String.eqb k0 k) eqn:E.
    + apply String.eqb_eq in E. subst k0. split.
      * intros [Heq|Hin]; [congruence|].
        exfalso. apply Hnotin. apply in_map_iff. now exists (k, a).
      * intros Heq. left. congruence.
    + apply String.eqb_neq in E. rewrite <- (IH Hnd'). split.
      * intros [Heq|Hin]; [congruence|exact Hin].
      * now right.
Qed.

(** [Object.entries] lists the properties that were created, each once. *)
Lemma insert_index_perm {A} (n : Z) (e : string * A) (l : list (Z * (string * A))) :
  Permutation (insert_index n e l) ((n, e) :: l).
Proof.
  induction l as [|[m e'] l IH]; simpl; [apply Permutation_refl|].
  destruct (n <=? m); [apply Permutation_refl|].
  eapply Permutation_trans; [apply perm_skip, IH | apply perm_swap].
Qed.

Lemma index_entries_perm {A} (l : list (string * A)) :
  Permutation (map snd (index_entries l)) (filter is_index l).
Proof.
  induction l as [|e l IH]; simpl; [apply perm_nil|].
  unfold is_index at 1. destruct (array_index (fst e)) as [n|]; [|exact IH].
  eapply Permutation_trans;
    [apply Permutation_map, insert_index_perm | simpl; apply perm_skip, IH].
Qed.

Lemma filter_split_perm {A} (f : A -> bool) (l : list A) :
  Permutation (filter f l ++ filter (fun x => negb (f x)) l) l.
Proof.
  induction l as [|x l IH]; simpl; [apply perm_nil|].
  destruct (f x); simpl.
  - apply perm_skip, IH.
  - eapply Permutation_trans; [apply Permutation_sym, Permutation_middle|].
    apply perm_skip, IH.
Qed.

Lemma entries_perm {A} (l : list (string * A)) : Permutation (entries l) l.
Proof.
  unfold entries.
  eapply Permutation_trans; [|apply (filter_split_perm is_index)].
  apply Permutation_app_tail, index_entries_perm.
Qed.

(** What [_.groupBy] returns: one group for each key the iteratee produced,
    holding the rows of that key in collection order. *)
Lemma groups_of_spec (iteratee : row -> string) (rows : list row) :
  let groups := groups_of iteratee rows in
  NoDup (map fst groups)
  /\ forall k items,
       In (k, items) groups <-> (items <> [] /\ items = with_key iteratee k rows).
Proof.
  intros groups. unfold groups, groups_of.
  set (created := fold_left (fun g r => group_add (iteratee r) r g) rows []).
  assert (Hnd : NoDup (map fst created)).
  { apply NoDup_fold_group_add. constructor. }
  split.
  - eapply Permutation_NoDup; [|exact Hnd].
    apply Permutation_map, Permutation_sym, entries_perm.
  - intros k items. transitivity (In (k, items) created).
    + split; apply Permutation_in;
        [apply entries_perm | apply Permutation_sym, entries_perm].
    + rewrite (assoc_In _ _ _ Hnd). unfold created.
      rewrite assoc_fold_group_add. simpl.
      destruct (with_key iteratee k rows) as [|r l]; split.
      * discriminate.
      * intros [Hne ->]. congruence.
      * intros [= <-]. split; [discriminate|reflexivity].
      * intros [_ ->]. reflexivity.
Qed.

(** Each row is in the group of its key and in no other group. *)
Lemma groups_of_exactly_one (iteratee : row -> string) (rows : list row) (r : row) :
  In r rows ->
  (exists items, In (iteratee r, items) (groups_of iteratee rows) /\ In r items)
  /\ forall k items,
       In (k, items) (groups_of iteratee rows) -> In r items -> k = iteratee r.
Proof.
  intros Hr. destruct (groups_of_spec iteratee rows) as [_ Hspec]. split.
  - exists (with_key iteratee (iteratee r) rows).
    assert (Hin : In r (with_key iteratee (iteratee r) rows)).
    { apply filter_In. split; [exact Hr | apply String.eqb_refl]. }
    split; [|exact Hin]. apply Hspec. split; [|reflexivity].
    intros E. rewrite E in Hin. contradiction.
  - intros k items Hg Hin. apply Hspec in Hg. destruct Hg as [_ ->].
    apply filter_In in Hin. destruct Hin as [_ E].
    apply String.eqb_eq in E. now symmetry.
Qed.

(** ** The empty boundary *)

Lemma emptyResult_default `{Runtime} (projectMeta : option Meta.t) :
  budget_figures_zero (emptyResult projectMeta)
  /\ time_figures_zero (emptyResult projectMeta)
  /\ arrays_empty (emptyResult projectMeta)
  /\ strings_from_meta projectMeta (emptyResult projectMeta).
Proof.
  unfold budget_figures_zero, time_figures_zero, arrays_empty, strings_from_meta.
  simpl. repeat split.
Qed.

(** C8: for a row list that is null, undefined or empty the function
    returns the default record, whatever [projectMeta] is: every figure
    zero, the five arrays empty. *)
Theorem empty_input_returns_default `{Runtime} (projectMeta : option Meta.t) :
  let absent := normalizeBudgetData None projectMeta in
  let empty := normalizeBudgetData (Some []) projectMeta in
  absent = emptyResult projectMeta
  /\ empty = emptyResult projectMeta
  /\ budget_figures_zero absent /\ time_figures_zero absent /\ arrays_empty absent
  /\ budget_figures_zero empty /\ time_figures_zero empty /\ arrays_empty empty
  /\ strings_from_meta projectMeta absent /\ strings_from_meta projectMeta empty.
Proof.
  intros absent empty.
  destruct (emptyResult_default projectMeta) as (Hb & Ht & Ha & Hs).
  unfold absent, empty, normalizeBudgetData. repeat split; assumption.
Qed.

(** ** The [catch] clause *)

Lemma timeMetrics_skipped `{Runtime} (projectMeta : option Meta.t) (r : Result.t) :
  has_dates projectMeta = false -> final (timeMetrics projectMeta r) = r.
Proof.
  unfold has_dates, timeMetrics.
  destruct projectMeta as [m|]; [|reflexivity].
  destruct (Meta.startDate m), (Meta.endDate m); try reflexivity.
  intros ->. reflexivity.
Qed.

(** C1, as the code has it: when the block throws, the record returned is the
    result record as the time metrics block left it. Its budget figures are
    zero, its five arrays empty and its strings those taken from
    [projectMeta]; [daysElapsed], [totalDuration] and [percentTimeElapsed]
    hold what was computed from the dates, and are the defaults only when
    [projectMeta] lacks a start or an end date. *)
Theorem catch_returns_result_as_left `{Runtime} (first : row) (rest : list row)
    (projectMeta : option Meta.t) :
  completes (processing (first :: rest) first projectMeta (emptyResult projectMeta))
  = false ->
  let r := normalizeBudgetData (Some (first :: rest)) projectMeta in
  r = final (timeMetrics projectMeta (emptyResult projectMeta))
  /\ budget_figures_zero r /\ arrays_empty r /\ strings_from_meta projectMeta r
  /\ (has_dates projectMeta = false -> r = emptyResult projectMeta).
Proof.
  intros Hthrown r.
  rewrite processing_completes in Hthrown. apply negb_false_iff in Hthrown.
  assert (Hr : r = final (timeMetrics projectMeta (emptyResult projectMeta))).
  { unfold r, normalizeBudgetData. now rewrite processing_thrown. }
  pose proof (timeMetrics_budget_untouched projectMeta (emptyResult projectMeta)) as Hu.
  cbv zeta in Hu. rewrite <- Hr in Hu.
  destruct Hu as (U1 & U2 & U3 & U4 & U5 & U6 & U7 & U8 & U9 & U10 & U11
                  & U12 & U13 & U14 & U15).
  split; [exact Hr|].
  unfold budget_figures_zero, arrays_empty, strings_from_meta.
  rewrite U1, U2, U3, U4, U5, U6, U7, U8, U9, U10, U11, U12, U13, U14, U15.
  simpl. repeat split.
  intros Hd. rewrite Hr. now apply timeMetrics_skipped.
Qed.

(** C1, witness: a numeric cost code makes the division iteratee throw. *)
Lemma catch_returns_result_as_left_witness :
  completes (@processing Sample.runtime [Example.numericCode] Example.numericCode
               Example.year2024 (@emptyResult Sample.runtime Example.year2024)) = false
  /\ budget_figures_zero
       (@normalizeBudgetData Sample.runtime (Some [Example.numericCode]) Example.year2024)
  /\ arrays_empty
       (@normalizeBudgetData Sample.runtime (Some [Example.numericCode]) Example.year2024).
Proof.
  assert (Hthrown :
    completes (@processing Sample.runtime [Example.numericCode] Example.numericCode
                 Example.year2024 (@emptyResult Sample.runtime Example.year2024)) = false)
    by (vm_compute; reflexivity).
  split; [exact Hthrown|].
  destruct (@catch_returns_result_as_left Sample.runtime Example.numericCode []
              Example.year2024 Hthrown) as (_ & Hb & Ha & _).
  split; assumption.
Defined.

(** C1, counterexample: the block throws on a numeric cost code after the time
    metrics were written, and the record returned carries them: 182 days
    elapsed, "13 months", 49.86 percent. *)
Lemma catch_keeps_time_metrics :
  let r := @normalizeBudgetData Sample.runtime (Some [Example.numericCode])
             Example.year2024 in
  completes (@processing Sample.runtime [Example.numericCode] Example.numericCode
               Example.year2024 (@emptyResult Sample.runtime Example.year2024)) = false
  /\ ProjectData.daysElapsed (Result.projectData r) = Num.of_Z 182
  /\ Num.is_zero (ProjectData.daysElapsed (Result.projectData r)) = false
  /\ ProjectData.totalDuration (Result.projectData r) = "13 months"
  /\ numberToString (ProjectData.percentTimeElapsed (Result.projectData r)) = "49.86"
  /\ Num.is_zero (ProjectData.percentTimeElapsed (Result.projectData r)) = false.
Proof. vm_compute. repeat split. Qed.

(** ** Variance arithmetic *)

Lemma parseFloatOr_cases (v : value) (d : num) :
  (Num.truthy (Val.parseFloat v) = true -> parseFloatOr v d = Val.parseFloat v)
  /\ (Num.truthy (Val.parseFloat v) = false -> parseFloatOr v d = d)
  /\ (Num.is_nan (Val.parseFloat v) = true -> parseFloatOr v d = d).
Proof.
  unfold parseFloatOr, Num.truthy.
  destruct (Num.is_nan (Val.parseFloat v)), (Num.is_zero (Val.parseFloat v));
    simpl; repeat split; congruence.
Qed.

Lemma divisionEntry_spec (columnMap : ColumnMap.t) (expectedComplete : num)
    (group : string * list row) (d : DivisionEntry.t) :
  In d (divisionEntry columnMap expectedComplete group) ->
  let totalBudget := sumField (snd group) (ColumnMap.currentBudget columnMap) in
  let totalBilled := sumField (snd group) (ColumnMap.billedToDate columnMap) in
  let percentComplete := percent totalBilled totalBudget in
  Num.gtb totalBudget Num.zero = true
  /\ DivisionEntry.name d = lookup_or divisionNames (fst group)
  /\ DivisionEntry.complete d = round2 percentComplete
  /\ DivisionEntry.expected d = expectedComplete
  /\ DivisionEntry.variance d = round2 (Num.sub percentComplete expectedComplete).
Proof.
  destruct group as [division items]. unfold divisionEntry. simpl.
  destruct (Num.gtb (sumField items (ColumnMap.currentBudget columnMap)) Num.zero);
    [|intros []].
  intros [<-|[]]. simpl. repeat split.
Qed.

Lemma processDivisionData_spec (groups : groups)
    (columnMap : ColumnMap.t) (expectedComplete : num) (d : DivisionEntry.t) :
  In d (processDivisionData groups columnMap expectedComplete) ->
  exists group, In group groups /\ In d (divisionEntry columnMap expectedComplete group).
Proof.
  unfold processDivisionData. intros Hd.
  eapply Permutation_in in Hd; [|apply sortBy_perm].
  apply in_flat_map in Hd. exact Hd.
Qed.

(** ** Grouping and totals *)

Lemma divisionKey_name (columnMap : ColumnMap.t) (r : row) (k : string) :
  divisionKey columnMap r = Some k ->
  k = division_name (get r (ColumnMap.costCode columnMap)).
Proof.
  unfold divisionKey, division_name, Val.or.
  destruct (get r (ColumnMap.costCode columnMap)) as [| |b|n|s].
  - simpl. congruence.
  - simpl. congruence.
  - destruct b; simpl; congruence.
  - simpl. destruct (Num.truthy n); simpl; congruence.
  - destruct s as [|c s]; [simpl; congruence|].
    change (Val.truthy (VStr (String c s))) with true. cbv iota.
    destruct (leading_digits (String c s)); intros [= <-]; reflexivity.
Qed.

Lemma costTypeKey_name (columnMap : ColumnMap.t) (r : row) :
  costTypeKey columnMap r = cost_type_name (get r (ColumnMap.costType columnMap)).
Proof.
  unfold costTypeKey, cost_type_name, Val.or.
  destruct (Val.truthy (get r (ColumnMap.costType columnMap))); reflexivity.
Qed.

Lemma fold_group_add_ext (f g : row -> string) (rows : list row)
    (acc : groups) :
  (forall r, In r rows -> f r = g r) ->
  fold_left (fun a r => group_add (f r) r a) rows acc
  = fold_left (fun a r => group_add (g r) r a) rows acc.
Proof.
  revert acc. induction rows as [|r rows IH]; intros acc Hext; simpl; [reflexivity|].
  rewrite (Hext r (or_introl eq_refl)). apply IH.
  intros r' Hr'. apply Hext. now right.
Qed.

Lemma groups_of_ext (f g : row -> string) (rows : list row) :
  (forall r, In r rows -> f r = g r) -> groups_of f rows = groups_of g rows.
Proof. intros Hext. unfold groups_of. now rewrite (fold_group_add_ext f g). Qed.

Lemma groups_of_grouped (name : row -> string) (rows : list row) :
  grouped_by name rows (groups_of name rows).
Proof.
  destruct (groups_of_spec name rows) as [Hnd Hspec].
  split; [exact Hnd|]. split; [exact Hspec|]. split.
  - intros r Hr. apply (groups_of_exactly_one name rows r Hr).
  - intros r k items Hr. apply (groups_of_exactly_one name rows r Hr).
Qed.

Lemma sumField_fold (items : list row) (fieldName : string) :
  sumField items fieldName
  = fold_left Num.add
      (map (fun item => parseFloatOr (get item fieldName) Num.zero) items) Num.zero.
Proof.
  unfold sumField. generalize Num.zero at 2 4.
  induction items as [|item items IH]; intros acc; simpl; [reflexivity|apply IH].
Qed.

Lemma parseFloatOr_counts (cell : value) : counts_as cell (parseFloatOr cell Num.zero).
Proof.
  split; [apply parseFloatOr_unparsable | apply parseFloatOr_zero].
Qed.

(** The grouping and the totals on the rows the division iteratee accepts:
    every row is in exactly one division group, named after the leading
    digits of its cost code or "Other", and in exactly one cost-type group,
    named by its cost-type cell or "Other"; the totals and the sums of the
    groups add, row by row, the parsed cell or 0. *)
Theorem rows_grouped_and_summed `{Runtime} (first : row) (rest : list row)
    (projectMeta : option Meta.t) :
  completes (processing (first :: rest) first projectMeta (emptyResult projectMeta))
  = true ->
  let rows := first :: rest in
  let columnMap := detectAndMapColumns first in
  let division := fun r => division_name (get r (ColumnMap.costCode columnMap)) in
  let costType := fun r => cost_type_name (get r (ColumnMap.costType columnMap)) in
  let r := normalizeBudgetData (Some rows) projectMeta in
  let expected := ProjectData.percentTimeElapsed (Result.projectData r) in
  grouped_by division rows (groups_of division rows)
  /\ grouped_by costType rows (groups_of costType rows)
  /\ Result.divisionData r
     = processDivisionData (groups_of division rows) columnMap expected
  /\ Result.costTypeData r
     = processCostTypeData (groups_of costType rows) columnMap expected
  /\ ProjectData.totalBudget (Result.projectData r)
     = VStr (formatCurrency (sumField rows (ColumnMap.currentBudget columnMap)))
  /\ ProjectData.totalBilled (Result.projectData r)
     = VStr (formatCurrency (sumField rows (ColumnMap.billedToDate columnMap)))
  /\ ProjectData.projectedFinal (Result.projectData r)
     = VStr (formatCurrency (sumField rows (ColumnMap.projectedCost columnMap)))
  /\ (forall items fieldName,
        sumField items fieldName
        = fold_left Num.add
            (map (fun item => parseFloatOr (get item fieldName) Num.zero) items)
            Num.zero)
  /\ (forall cell, counts_as cell (parseFloatOr cell Num.zero)).
Proof.
  intros Hdone rows columnMap division costType r expected.
  subst rows.
  rewrite processing_completes in Hdone. apply negb_true_iff in Hdone.
  pose proof (processing_done (first :: rest) first projectMeta
                (emptyResult projectMeta) Hdone) as Hp.
  cbv zeta in Hp. fold columnMap in Hp.
  destruct Hp as (Hpte & Htb & Htbl & _ & Hpf & _ & _ & _ & _ & Hct & Hdiv & _).
  destruct Hdiv as [g [Hg Hdiv]].
  assert (Hgd : g = groups_of division (first :: rest)).
  { unfold groupBy in Hg.
    destruct (group_rows (divisionKey columnMap) (first :: rest) []) as [created|] eqn:E;
      [|discriminate].
    cbv beta delta [ret] in Hg. injection Hg as <-.
    rewrite (group_rows_named _ division) in E.
    - injection E as <-. reflexivity.
    - intros x Hx. destruct (group_rows_Some _ _ _ _ E x Hx) as [k Hk].
      rewrite Hk. f_equal. now apply divisionKey_name. }
  split; [apply groups_of_grouped|]. split; [apply groups_of_grouped|].
  split.
  { unfold expected, r, normalizeBudgetData.
    rewrite Hdiv, Hpte, Hgd. reflexivity. }
  split.
  { unfold expected, r, normalizeBudgetData.
    rewrite Hct, Hpte. f_equal. apply groups_of_ext. intros x _.
    apply costTypeKey_name. }
  split; [exact Htb|]. split; [exact Htbl|]. split; [exact Hpf|].
  split; [apply sumField_fold | apply parseFloatOr_counts].
Qed.

(** Witness of the grouping on the example rows. *)
Lemma rows_grouped_and_summed_witness :
  completes (@processing Sample.runtime Example.rows Example.footings
               Example.year2024 (@emptyResult Sample.runtime Example.year2024)) = true
  /\ ProjectData.totalBudget
       (Result.projectData
          (@normalizeBudgetData Sample.runtime (Some Example.rows) Example.year2024))
     = VStr "$1,800".
Proof.
  assert (Hdone :
    completes (@processing Sample.runtime Example.rows Example.footings
                 Example.year2024 (@emptyResult Sample.runtime Example.year2024)) = true)
    by (vm_compute; reflexivity).
  split; [exact Hdone|].
  destruct (@rows_grouped_and_summed Sample.runtime Example.footings
              [Example.rebar; Example.paint] Example.year2024 Hdone)
    as (_ & _ & _ & _ & Htb & _).
  change (Some Example.rows) with (Some (Example.footings :: [Example.rebar; Example.paint])).
  rewrite Htb. vm_compute. reflexivity.
Defined.

(** C2, on the failing input: a cost code the parser typed as a number makes
    the division iteratee throw, so no row is grouped and no total is
    summed, though the budget cells of the rows add up to 2000. *)
Lemma numeric_cost_code_not_grouped :
  let rows := [Example.footings; Example.numericCode] in
  let r := @normalizeBudgetData Sample.runtime (Some rows) Example.year2024 in
  divisionKey (detectAndMapColumns Example.footings) Example.numericCode = None
  /\ completes (@processing Sample.runtime rows Example.footings Example.year2024
                  (@emptyResult Sample.runtime Example.year2024)) = false
  /\ Result.divisionData r = []
  /\ Result.costTypeData r = []
  /\ ProjectData.totalBudget (Result.projectData r) = VNum Num.zero
  /\ numberToString (sumField rows "Current Budget") = "2000".
Proof. vm_compute. repeat split. Qed.

(** ** Division by the total *)

Lemma costTypeEntry_spec (columnMap : ColumnMap.t) (expectedComplete : num)
    (group : string * list row) (c : CostTypeEntry.t) :
  In c (costTypeEntry columnMap expectedComplete group) ->
  let totalBudget := sumField (snd group) (ColumnMap.currentBudget columnMap) in
  let totalBilled := sumField (snd group) (ColumnMap.billedToDate columnMap) in
  Num.gtb totalBudget Num.zero = true
  /\ CostTypeEntry.complete c = round2 (percent totalBilled totalBudget).
Proof.
  destruct group as [costType items]. unfold costTypeEntry. simpl.
  destruct (Num.gtb (sumField items (ColumnMap.currentBudget columnMap)) Num.zero);
    [|intros []].
  intros [<-|[]]. simpl. split; reflexivity.
Qed.

Lemma round2_zero : round2 Num.zero = Num.zero.
Proof. reflexivity. Qed.

(** The budget percentages divide by a positive total only: with a total
    budget that is not positive [percentBilled] and [percentOverage] are 0,
    a group enters the cost-type or the division list only with a positive
    budget sum, and an item's [percentBilled] is 0 unless its budget is
    positive. *)
Theorem budget_percentages_guarded `{Runtime} (first : row) (rest : list row)
    (projectMeta : option Meta.t)
    (groups : groups) (columnMap' : ColumnMap.t)
    (expectedComplete : num) (rawBudgetData : list row) (limit : nat) :
  completes (processing (first :: rest) first projectMeta (emptyResult projectMeta))
  = true ->
  let columnMap := detectAndMapColumns first in
  let totalBudget := sumField (first :: rest) (ColumnMap.currentBudget columnMap) in
  let r := normalizeBudgetData (Some (first :: rest)) projectMeta in
  (Num.gtb totalBudget Num.zero = false ->
   ProjectData.percentBilled (Result.projectData r) = Num.zero
   /\ ProjectData.percentOverage (Result.projectData r) = Num.zero)
  /\ Forall (fun c =>
       exists costType items,
         In (costType, items) groups
         /\ Num.gtb (sumField items (ColumnMap.currentBudget columnMap')) Num.zero = true
         /\ CostTypeEntry.complete c
            = round2 (percent (sumField items (ColumnMap.billedToDate columnMap'))
                              (sumField items (ColumnMap.currentBudget columnMap'))))
       (processCostTypeData groups columnMap' expectedComplete)
  /\ Forall (fun d =>
       exists division items,
         In (division, items) groups
         /\ Num.gtb (sumField items (ColumnMap.currentBudget columnMap')) Num.zero = true
         /\ DivisionEntry.complete d
            = round2 (percent (sumField items (ColumnMap.billedToDate columnMap'))
                              (sumField items (ColumnMap.currentBudget columnMap'))))
       (processDivisionData groups columnMap' expectedComplete)
  /\ Forall (fun item =>
       BudgetItem.percentBilled item
       = if Num.gtb (BudgetItem.budget item) Num.zero
         then percent (BudgetItem.billed item) (BudgetItem.budget item)
         else Num.zero)
       (processTopBudgetItems rawBudgetData columnMap' limit).
Proof.
  intros Hdone columnMap totalBudget r.
  rewrite processing_completes in Hdone. apply negb_true_iff in Hdone.
  pose proof (processing_done (first :: rest) first projectMeta
                (emptyResult projectMeta) Hdone) as Hp.
  cbv zeta in Hp. fold columnMap totalBudget in Hp.
  destruct Hp as (_ & _ & _ & Hpb & _ & _ & Hpo & _).
  split; [|split; [|split]].
  - intros Hle. unfold r, normalizeBudgetData.
    rewrite Hpb, Hpo, Hle. split; apply round2_zero.
  - apply Forall_forall. intros c Hc. unfold processCostTypeData in Hc.
    apply in_flat_map in Hc. destruct Hc as [[costType items] [Hg Hc]].
    apply costTypeEntry_spec in Hc. exists costType, items. split; [exact Hg|exact Hc].
  - apply Forall_forall. intros d Hd.
    apply processDivisionData_spec in Hd. destruct Hd as [[division items] [Hg Hd]].
    apply divisionEntry_spec in Hd. cbv zeta in Hd. simpl in Hd.
    destruct Hd as (Hpos & _ & Hc & _).
    exists division, items. split; [exact Hg|]. split; [exact Hpos|exact Hc].
  - apply Forall_forall. intros item Hitem.
    unfold processTopBudgetItems in Hitem. apply In_firstn in Hitem.
    eapply Permutation_in in Hitem; [|apply sortBy_perm].
    apply in_map_iff in Hitem. destruct Hitem as [row [<- _]]. reflexivity.
Qed.

(** Witness of the guard on the example rows. *)
Lemma budget_percentages_guarded_witness :
  completes (@processing Sample.runtime Example.rows Example.footings
               Example.year2024 (@emptyResult Sample.runtime Example.year2024)) = true
  /\ Forall (fun item =>
       BudgetItem.percentBilled item
       = if Num.gtb (BudgetItem.budget item) Num.zero
         then percent (BudgetItem.billed item) (BudgetItem.budget item)
         else Num.zero)
       (processTopBudgetItems Example.rows (detectAndMapColumns Example.footings) 5).
Proof.
  assert (Hdone :
    completes (@processing Sample.runtime Example.rows Example.footings
                 Example.year2024 (@emptyResult Sample.runtime Example.year2024)) = true)
    by (vm_compute; reflexivity).
  split; [exact Hdone|].
  apply (@budget_percentages_guarded Sample.runtime Example.footings
           [Example.rebar; Example.paint] Example.year2024 []
           (detectAndMapColumns Example.footings) Num.zero Example.rows 5%nat Hdone).
Defined.

(** C7, on the failing input: for a project that starts and ends on the same
    day the total number of days is 0, the elapsed percentage is computed
    as 0 / 0 with no guard, and the record holds NaN. *)
Lemma one_day_project_divides_by_zero :
  let day := Sample.isoDate "2024-03-01" in
  let totalDays := daysBetween day day in
  let r := @normalizeBudgetData Sample.runtime (Some Example.rows) Example.oneDay in
  Num.is_zero totalDays = true
  /\ Num.is_nan (Num.div (daysBetween day day) totalDays) = true
  /\ completes (@processing Sample.runtime Example.rows Example.footings Example.oneDay
                  (@emptyResult Sample.runtime Example.oneDay)) = true
  /\ Num.is_nan (ProjectData.percentTimeElapsed (Result.projectData r)) = true.
Proof. vm_compute. repeat split. Qed.


(** * Further properties *)

(** ** Which key a column is *)

Lemma last_of_cons {A} (x : A) (l : list A) :
  last_of (x :: l) = match last_of l with Some y => Some y | None => Some x end.
Proof.
  destruct l as [|y l]; [reflexivity|].
  change (last_of (x :: y :: l)) with (last_of (y :: l)).
  assert (H : exists z, last_of (y :: l) = Some z).
  { clear x. revert y. induction l as [|a l IH]; intros y; [now exists y|].
    destruct (IH a) as [z Hz]. exists z. exact Hz. }
  destruct H as [z ->]. reflexivity.
Qed.

Lemma claimed_nonempty (i : nat) (key : string) :
  claimed_by i key = true -> Str.truthy key = true.
Proof. destruct key; [discriminate|reflexivity]. Qed.

(** One turn of the loop writes the key into the field it falls to. *)
Lemma detect_key_fields (map : ColumnMap.t) (key : string) (i : nat) :
  (i < 8)%nat ->
  nth i (ColumnMap.fields (detect_key map key)) ""
  = if claimed_by i key then key else nth i (ColumnMap.fields map) "".
Proof.
  intros Hi. unfold detect_key, claimed_by, chain, first_match.
  repeat match goal with
         | |- context [if test ?p ?s then _ else _] => destruct (test p s)
         end;
    do 8 (destruct i as [|i]; [reflexivity|]); lia.
Qed.

Lemma detect_loop_fields (keys : list string) (map : ColumnMap.t) (i : nat) :
  (i < 8)%nat ->
  nth i (ColumnMap.fields (fold_left detect_key keys map)) ""
  = match last_of (filter (claimed_by i) keys) with
    | Some k => k
    | None => nth i (ColumnMap.fields map) ""
    end.
Proof.
  intros Hi. revert map. induction keys as [|k keys IH]; intros map.
  - reflexivity.
  - cbn [fold_left filter]. rewrite IH, (detect_key_fields map k i Hi).
    destruct (claimed_by i k); [|reflexivity].
    rewrite last_of_cons. destruct (last_of (filter (claimed_by i) keys)); reflexivity.
Qed.

Lemma last_of_In {A} (l : list A) (x : A) : last_of l = Some x -> In x l.
Proof.
  induction l as [|y l IH]; [discriminate|]. rewrite last_of_cons.
  destruct (last_of l) as [z|]; intros [= <-]; [right; auto | now left].
Qed.

Lemma merge_fields (fallback map : ColumnMap.t) (i : nat) :
  (i < 8)%nat ->
  nth i (ColumnMap.fields (merge fallback map)) ""
  = pick (nth i (ColumnMap.fields map) "") (nth i (ColumnMap.fields fallback) "").
Proof. intros Hi. do 8 (destruct i as [|i]; [reflexivity|]). lia. Qed.

Lemma detected_column_spec (sampleRow : row) (i : nat) :
  (i < 8)%nat ->
  nth i (ColumnMap.fields (detectAndMapColumns sampleRow)) ""
  = detected_column i (keys_of sampleRow).
Proof.
  intros Hi. unfold detectAndMapColumns, detected_column.
  rewrite (merge_fields _ _ i Hi), (detect_loop_fields _ _ i Hi).
  destruct (last_of (filter (claimed_by i) (keys_of sampleRow))) as [k|] eqn:E.
  - apply last_of_In, filter_In in E. destruct E as [_ Hc].
    apply claimed_nonempty in Hc. unfold pick. now rewrite Hc.
  - assert (Hempty : nth i (ColumnMap.fields ColumnMap.empty) "" = "").
    { do 8 (destruct i as [|i]; [reflexivity|]). lia. }
    rewrite Hempty. reflexivity.
Qed.

(** In [detectAndMapColumns] a key falls to the field of the first pattern
    of the chain that accepts it, and a later key overwrites an earlier one:
    each column is the last key that falls to its field and, when no key
    does, the first key the fallback pattern accepts or the default name. *)
Theorem last_claiming_key_wins (sampleRow : row) :
  ColumnMap.fields (detectAndMapColumns sampleRow)
  = map (fun i => detected_column i (keys_of sampleRow)) (seq 0 8).
Proof.
  pose proof (detected_column_spec sampleRow) as H.
  change (ColumnMap.fields (detectAndMapColumns sampleRow))
    with (map (fun i => nth i (ColumnMap.fields (detectAndMapColumns sampleRow)) "")
              (seq 0 8)).
  apply map_ext_in. intros i Hi. apply H. apply in_seq in Hi. lia.
Qed.

Lemma find_none_all {A} (f : A -> bool) (l : list A) :
  (forall x, In x l -> f x = false) -> find f l = None.
Proof.
  induction l as [|x l IH]; intros H; simpl; [reflexivity|].
  rewrite (H x (or_introl eq_refl)). apply IH. intros y Hy. apply H. now right.
Qed.

Lemma unrecognised_unclaimed (key : string) (i : nat) :
  unrecognised key = true -> claimed_by i key = false.
Proof.
  unfold unrecognised, claimed_by, chain. intros H.
  apply andb_true_iff in H. destruct H as [H _]. simpl in H.
  repeat (apply andb_true_iff in H; destruct H as [?H H]).
  unfold first_match.
  repeat match goal with
         | Hn : negb (test ?p ?s) = true |- _ =>
             apply negb_true_iff in Hn; rewrite Hn; clear Hn
         end.
  reflexivity.
Qed.

Lemma unrecognised_no_fallback (key : string) (p : re) :
  unrecognised key = true -> In p fallbacks -> testi p key = false.
Proof.
  unfold unrecognised. intros H Hp. apply andb_true_iff in H. destruct H as [_ H].
  rewrite forallb_forall in H. apply negb_true_iff. now apply H.
Qed.

(** A row none of whose keys any pattern accepts (a row with no key among
    them) gets the eight default column names. *)
Theorem unrecognised_headers_get_defaults (sampleRow : row) :
  forallb unrecognised (keys_of sampleRow) = true ->
  ColumnMap.fields (detectAndMapColumns sampleRow) = default_columns.
Proof.
  intros H. rewrite forallb_forall in H.
  assert (Hfilter : forall i, filter (claimed_by i) (keys_of sampleRow) = []).
  { intros i. induction (keys_of sampleRow) as [|k ks IH]; [reflexivity|]. simpl.
    rewrite (unrecognised_unclaimed k i (H k (or_introl eq_refl))).
    apply IH. intros x Hx. apply H. now right. }
  assert (Hfind : forall p d, In p fallbacks -> find_or p (keys_of sampleRow) d = d).
  { intros p d Hp. unfold find_or. rewrite find_none_all; [reflexivity|].
    intros k Hk. apply unrecognised_no_fallback; auto. }
  pose proof (detected_column_spec sampleRow) as Hspec.
  change (ColumnMap.fields (detectAndMapColumns sampleRow))
    with (map (fun i => nth i (ColumnMap.fields (detectAndMapColumns sampleRow)) "")
              (seq 0 8)).
  change default_columns with (map (fun i => nth i default_columns "") (seq 0 8)).
  apply map_ext_in. intros i Hi. apply in_seq in Hi. rewrite Hspec by lia.
  unfold detected_column. rewrite Hfilter.
  unfold inferColumnMappings, ColumnMap.fields; cbn [ColumnMap.costCode
    ColumnMap.costCodeDescription ColumnMap.costType ColumnMap.currentBudget
    ColumnMap.billedToDate ColumnMap.percentBilled ColumnMap.projectedCost
    ColumnMap.variance].
  rewrite !Hfind by (unfold fallbacks; simpl; tauto).
  reflexivity.
Qed.

(** Witness: three headers no pattern accepts. *)
Lemma unrecognised_headers_get_defaults_witness :
  forallb unrecognised ["Item"; "Amount"; "Notes"] = true
  /\ ColumnMap.costCode
       (detectAndMapColumns [("Item", VStr "a"); ("Amount", VNull); ("Notes", VNull)])
     = "Budget Code".
Proof.
  split; [vm_compute; reflexivity|].
  pose proof (unrecognised_headers_get_defaults
                [("Item", VStr "a"); ("Amount", VNull); ("Notes", VNull)]
                ltac:(vm_compute; reflexivity)) as H.
  exact (f_equal (fun l => nth 0 l "") H).
Defined.

(** ** What every path of [normalizeBudgetData] keeps *)

Section Paths.
Context `{Runtime}.

(** The block writes the time fields in the time metrics block only, and
    never the strings. *)
Lemma processing_keeps (rawBudgetData : list row) (first : row)
    (projectMeta : option Meta.t) (r0 : Result.t) :
  let timed := final (timeMetrics projectMeta r0) in
  let r := final (processing rawBudgetData first projectMeta r0) in
  ProjectData.daysElapsed (Result.projectData r)
  = ProjectData.daysElapsed (Result.projectData timed)
  /\ ProjectData.totalDuration (Result.projectData r)
     = ProjectData.totalDuration (Result.projectData timed)
  /\ ProjectData.percentTimeElapsed (Result.projectData r)
     = ProjectData.percentTimeElapsed (Result.projectData timed)
  /\ ProjectData.projectName (Result.projectData r)
     = ProjectData.projectName (Result.projectData timed)
  /\ ProjectData.startDate (Result.projectData r)
     = ProjectData.startDate (Result.projectData timed)
  /\ ProjectData.endDate (Result.projectData r)
     = ProjectData.endDate (Result.projectData timed)
  /\ ProjectData.currentDate (Result.projectData r)
     = ProjectData.currentDate (Result.projectData timed).
Proof.
  intros timed r.
  destruct (rows_throw rawBudgetData first) eqn:Hthrow.
  - unfold r. rewrite (processing_thrown _ _ _ _ Hthrow). fold timed. simpl. tauto.
  - assert (Hg : exists g, groupBy (divisionKey (detectAndMapColumns first))
                             rawBudgetData timed = Done g timed).
    { unfold groupBy. unfold rows_throw in Hthrow.
      destruct (group_rows (divisionKey (detectAndMapColumns first)) rawBudgetData []);
        [eexists; reflexivity|discriminate]. }
    destruct Hg as [g Hg].
    assert (Hr : r = final (processing rawBudgetData first projectMeta r0)) by reflexivity.
    cbv beta zeta delta [processing bind] in Hr. rewrite timeMetrics_done in Hr.
    fold timed in Hr. rewrite Hg in Hr.
    cbv beta iota in Hr. rewrite groupBy_total in Hr.
    cbv beta iota zeta delta [assign modify read ret final] in Hr.
    rewrite Hr. cbn [Result.projectData Result.set_projectData Result.set_timeData
      Result.set_budgetSpentData Result.set_costTypeData Result.set_divisionData
      Result.set_budgetData
      ProjectData.daysElapsed ProjectData.totalDuration ProjectData.percentTimeElapsed
      ProjectData.projectName ProjectData.startDate ProjectData.endDate
      ProjectData.currentDate
      ProjectData.set_totalBudget ProjectData.set_totalBilled
      ProjectData.set_percentBilled ProjectData.set_projectedFinal
      ProjectData.set_projectedOverage ProjectData.set_percentOverage].
    repeat split.
Qed.

(** The groups behind the two lists of a completed block. *)
Lemma normalized_groups (first : row) (rest : list row) (projectMeta : option Meta.t) :
  rows_throw (first :: rest) first = false ->
  let rows := first :: rest in
  let columnMap := detectAndMapColumns first in
  let division := fun r => division_name (get r (ColumnMap.costCode columnMap)) in
  let costType := fun r => cost_type_name (get r (ColumnMap.costType columnMap)) in
  let r := normalizeBudgetData (Some rows) projectMeta in
  let expected := ProjectData.percentTimeElapsed (Result.projectData r) in
  Result.divisionData r
  = processDivisionData (groups_of division rows) columnMap expected
  /\ Result.costTypeData r
     = processCostTypeData (groups_of costType rows) columnMap expected.
Proof.
  intros Hdone rows columnMap division costType r expected. subst rows.
  pose proof (processing_done (first :: rest) first projectMeta
                (emptyResult projectMeta) Hdone) as Hp.
  cbv zeta in Hp. fold columnMap in Hp.
  destruct Hp as (Hpte & _ & _ & _ & _ & _ & _ & _ & _ & Hct & Hdiv & _).
  destruct Hdiv as [g [Hg Hdiv]].
  assert (Hgd : g = groups_of division (first :: rest)).
  { unfold groupBy in Hg.
    destruct (group_rows (divisionKey columnMap) (first :: rest) []) as [created|] eqn:E;
      [|discriminate].
    cbv beta delta [ret] in Hg. injection Hg as <-.
    rewrite (group_rows_named _ division) in E.
    - injection E as <-. reflexivity.
    - intros x Hx. destruct (group_rows_Some _ _ _ _ E x Hx) as [k Hk].
      rewrite Hk. f_equal. now apply divisionKey_name. }
  split.
  - unfold expected, r, normalizeBudgetData. rewrite Hdiv, Hpte, Hgd. reflexivity.
  - unfold expected, r, normalizeBudgetData. rewrite Hct, Hpte. f_equal.
    apply groups_of_ext. intros x _. apply costTypeKey_name.
Qed.

End Paths.

(** ** The record the dashboard is given *)

Section Record.
Context `{Runtime}.

(** Without a completed block the budget side of the record is as the
    function set out with it. *)
Lemma unprocessed_record (rawBudgetData : option (list row))
    (projectMeta : option Meta.t) :
  processed rawBudgetData = false ->
  let r := normalizeBudgetData rawBudgetData projectMeta in
  budget_figures_zero r /\ arrays_empty r.
Proof.
  intros Hp r.
  assert (Hd : budget_figures_zero (emptyResult projectMeta)
               /\ arrays_empty (emptyResult projectMeta)).
  { split; [unfold budget_figures_zero | unfold arrays_empty]; simpl; repeat split. }
  destruct rawBudgetData as [[|first rest]|]; try exact Hd.
  simpl in Hp. apply negb_false_iff in Hp.
  unfold r, normalizeBudgetData. rewrite (processing_thrown _ _ _ _ Hp).
  pose proof (timeMetrics_budget_untouched projectMeta (emptyResult projectMeta)) as Hu.
  cbv zeta in Hu.
  destruct Hu as (U1 & U2 & U3 & U4 & U5 & U6 & U7 & U8 & U9 & U10 & U11 & _).
  unfold budget_figures_zero, arrays_empty. cbn [final].
  rewrite U1, U2, U3, U4, U5, U6, U7, U8, U9, U10, U11.
  simpl. repeat split.
Qed.

End Record.

(** The first item of the Budget Management list can be rendered
    exactly when the block of [normalizeBudgetData] ran to its end. On the
    record returned for no rows, and on the one the [catch] clause returns,
    [percentOverage] is 0 and [projectedOverage] is the number 0, which has
    no [replace] method: the expression throws. *)
Theorem budget_item_needs_processed_rows `{Runtime} (rawBudgetData : option (list row))
    (projectMeta : option Meta.t) :
  is_some (Dashboard.budgetManagementItem
             (Result.projectData (normalizeBudgetData rawBudgetData projectMeta)))
  = processed rawBudgetData.
Proof.
  destruct (processed rawBudgetData) eqn:Hp.
  - destruct rawBudgetData as [[|first rest]|]; try discriminate.
    simpl in Hp. apply negb_true_iff in Hp.
    pose proof (processing_done (first :: rest) first projectMeta
                  (emptyResult projectMeta) Hp) as Hd.
    cbv zeta in Hd. destruct Hd as (_ & _ & _ & _ & _ & Hov & _).
    unfold normalizeBudgetData, Dashboard.budgetManagementItem.
    rewrite Hov. destruct (Num.gtb _ _); reflexivity.
  - destruct (unprocessed_record rawBudgetData projectMeta Hp)
      as [(_ & _ & _ & _ & Hov & Hpct) _].
    unfold Dashboard.budgetManagementItem. rewrite Hov, Hpct. reflexivity.
Qed.

(** ** The findings of the loaders *)

(** For no rows at all, [null] or an empty list, the loaders find
    nothing to report, whatever the metadata. *)
Theorem no_rows_no_findings `{Runtime} (projectMeta : option Meta.t) :
  keyFindings None projectMeta = Some []
  /\ keyFindings (Some []) projectMeta = Some [].
Proof. split; reflexivity. Qed.

(** When the block throws, the findings are computed from the record
    the [catch] clause returns: the schedule comparison alone can fire, and
    it compares the elapsed time with a budget spent of 0. *)
Theorem caught_record_findings `{Runtime} (first : row) (rest : list row)
    (projectMeta : option Meta.t) :
  rows_throw (first :: rest) first = true ->
  let r := normalizeBudgetData (Some (first :: rest)) projectMeta in
  keyFindings (Some (first :: rest)) projectMeta
  = Some (scheduleFinding (Result.projectData r))
  /\ ProjectData.percentBilled (Result.projectData r) = Num.zero
  /\ Forall (fun f => Finding.title f = "Schedule Status")
       (scheduleFinding (Result.projectData r)).
Proof.
  intros Hthrow r.
  assert (Hp : processed (Some (first :: rest)) = false).
  { simpl. now rewrite Hthrow. }
  destruct (unprocessed_record _ projectMeta Hp)
    as [(_ & _ & Hpb & _ & _ & Hpct) (_ & _ & _ & Hct & Hdiv)].
  fold r in Hpb, Hpct, Hct, Hdiv.
  assert (Hk : keyFindings (Some (first :: rest)) projectMeta
               = Some (scheduleFinding (Result.projectData r))).
  { unfold keyFindings, identifyProjectRedFlags. fold r.
    rewrite Hct, Hdiv. unfold budgetFinding. rewrite Hpct.
    simpl. now rewrite app_nil_r. }
  split; [exact Hk|]. split; [exact Hpb|].
  unfold scheduleFinding.
  destruct (Num.gtb _ _); repeat constructor.
Qed.

(** Witness: a numeric cost code half way through the year 2024. *)
Lemma caught_record_findings_witness :
  rows_throw [Example.numericCode] Example.numericCode = true
  /\ @keyFindings Sample.runtime (Some [Example.numericCode]) Example.year2024
     = Some (scheduleFinding
               (Result.projectData
                  (@normalizeBudgetData Sample.runtime (Some [Example.numericCode])
                     Example.year2024)))
  /\ option_map (map Finding.description)
       (@keyFindings Sample.runtime (Some [Example.numericCode]) Example.year2024)
     = Some ["Project is 49.9% behind schedule (49.9% time elapsed vs 0.0% budget spent)"].
Proof.
  assert (Hthrow : rows_throw [Example.numericCode] Example.numericCode = true)
    by (vm_compute; reflexivity).
  split; [exact Hthrow|].
  destruct (@caught_record_findings Sample.runtime Example.numericCode []
              Example.year2024 Hthrow) as (Hk & _ & _).
  split; [exact Hk | vm_compute; reflexivity].
Defined.

(** ** Invariants of the record *)

Section Invariants.
Context `{Runtime}.

Lemma costTypeEntry_expected (columnMap : ColumnMap.t) (expectedComplete : num)
    (group : string * list row) (c : CostTypeEntry.t) :
  In c (costTypeEntry columnMap expectedComplete group) ->
  CostTypeEntry.name c = normalizedTypeOf (fst group)
  /\ CostTypeEntry.expectedComplete c = expectedComplete.
Proof.
  destruct group as [costType items]. unfold costTypeEntry.
  destruct (Num.gtb _ _); [|intros []].
  intros [<-|[]]. split; reflexivity.
Qed.

(** The time side of the record and its strings, on every path. *)
Lemma normalized_time (rawBudgetData : option (list row)) (projectMeta : option Meta.t) :
  let r := normalizeBudgetData rawBudgetData projectMeta in
  let timed :=
    match rawBudgetData with
    | Some (_ :: _) => final (timeMetrics projectMeta (emptyResult projectMeta))
    | _ => emptyResult projectMeta
    end in
  ProjectData.daysElapsed (Result.projectData r)
  = ProjectData.daysElapsed (Result.projectData timed)
  /\ ProjectData.totalDuration (Result.projectData r)
     = ProjectData.totalDuration (Result.projectData timed)
  /\ ProjectData.percentTimeElapsed (Result.projectData r)
     = ProjectData.percentTimeElapsed (Result.projectData timed)
  /\ strings_from_meta projectMeta r.
Proof.
  intros r timed.
  destruct rawBudgetData as [[|first rest]|];
    [unfold strings_from_meta; simpl; repeat split | |
     unfold strings_from_meta; simpl; repeat split].
  pose proof (processing_keeps (first :: rest) first projectMeta
                (emptyResult projectMeta)) as Hk.
  cbv zeta in Hk. destruct Hk as (K1 & K2 & K3 & K4 & K5 & K6 & K7).
  pose proof (timeMetrics_budget_untouched projectMeta (emptyResult projectMeta)) as Hu.
  cbv zeta in Hu.
  destruct Hu as (_ & _ & _ & _ & _ & _ & _ & _ & _ & _ & _ & U12 & U13 & U14 & U15).
  unfold r, timed, normalizeBudgetData, strings_from_meta.
  rewrite K1, K2, K3, K4, K5, K6, K7, U12, U13, U14, U15.
  simpl. repeat split.
Qed.

(** What the entries of the two lists are made of, on every path. *)
Lemma normalized_entries (rawBudgetData : option (list row))
    (projectMeta : option Meta.t) :
  let r := normalizeBudgetData rawBudgetData projectMeta in
  let pte := ProjectData.percentTimeElapsed (Result.projectData r) in
  Forall (fun c => CostTypeEntry.expectedComplete c = pte) (Result.costTypeData r)
  /\ Forall (fun d => DivisionEntry.expected d = pte
                      /\ exists percentComplete,
                           DivisionEntry.variance d
                           = round2 (Num.sub percentComplete pte))
       (Result.divisionData r).
Proof.
  intros r pte.
  destruct (processed rawBudgetData) eqn:Hp.
  - destruct rawBudgetData as [[|first rest]|]; try discriminate.
    simpl in Hp. apply negb_true_iff in Hp.
    destruct (normalized_groups first rest projectMeta Hp) as [Hdiv Hct].
    fold r in Hdiv, Hct. fold pte in Hdiv, Hct. split.
    + rewrite Hct. apply Forall_forall. intros c Hc.
      unfold processCostTypeData in Hc. apply in_flat_map in Hc.
      destruct Hc as [group [_ Hc]]. now apply costTypeEntry_expected in Hc.
    + rewrite Hdiv. apply Forall_forall. intros d Hd.
      apply processDivisionData_spec in Hd. destruct Hd as [group [_ Hd]].
      apply divisionEntry_spec in Hd. cbv zeta in Hd.
      destruct Hd as (_ & _ & _ & He & Hv). split; [exact He|].
      eexists. exact Hv.
  - destruct (unprocessed_record rawBudgetData projectMeta Hp)
      as [_ (_ & _ & _ & Hct & Hdiv)].
    fold r in Hct, Hdiv. rewrite Hct, Hdiv. split; constructor.
Qed.

End Invariants.

(** Whatever the rows and on every path, the strings of the record are
    those of the metadata or their defaults, and the expected progress of
    every cost type and of every division is the elapsed-time percentage
    of the record itself. *)
Theorem expected_progress_is_elapsed_time `{Runtime} (rawBudgetData : option (list row))
    (projectMeta : option Meta.t) :
  let r := normalizeBudgetData rawBudgetData projectMeta in
  let pte := ProjectData.percentTimeElapsed (Result.projectData r) in
  strings_from_meta projectMeta r
  /\ Forall (fun c => CostTypeEntry.expectedComplete c = pte) (Result.costTypeData r)
  /\ Forall (fun d => DivisionEntry.expected d = pte) (Result.divisionData r).
Proof.
  intros r pte.
  destruct (normalized_time rawBudgetData projectMeta) as (_ & _ & _ & Hs).
  destruct (normalized_entries rawBudgetData projectMeta) as [Hct Hdiv].
  split; [exact Hs|]. split; [exact Hct|].
  eapply Forall_impl; [|exact Hdiv]. intros d [He _]. exact He.
Qed.

(** ** Dates that are not dates *)

Lemma is_nan_eq (x : num) : Num.is_nan x = true -> x = Num.NaN.
Proof. destruct x; try discriminate; reflexivity. Qed.

Lemma sub_nan_l (x : num) : Num.sub Num.NaN x = Num.NaN.
Proof. reflexivity. Qed.

Lemma sub_nan_r (x : num) : Num.sub x Num.NaN = Num.NaN.
Proof. destruct x; reflexivity. Qed.

Lemma div_nan_r (x : num) : Num.div x Num.NaN = Num.NaN.
Proof. destruct x; reflexivity. Qed.

Lemma daysBetween_nan (from to : num) :
  Num.is_nan from || Num.is_nan to = true -> daysBetween from to = Num.NaN.
Proof.
  intros Hn. unfold daysBetween. apply orb_true_iff in Hn.
  destruct Hn as [Hn|Hn]; apply is_nan_eq in Hn; rewrite Hn.
  - now rewrite sub_nan_r.
  - now rewrite sub_nan_l.
Qed.

Lemma forEach_nil {A} (f : A -> option (list Finding.t)) (l : list A) :
  Forall (fun a => f a = Some []) l -> forEach f l = Some [].
Proof.
  induction 1 as [|a l Ha _ IH]; simpl; [reflexivity|]. now rewrite Ha, IH.
Qed.

Lemma flat_map_nil {A B} (f : A -> list B) (l : list A) :
  Forall (fun x => f x = []) l -> flat_map f l = [].
Proof.
  induction 1 as [|x l Hx _ IH]; simpl; [reflexivity|]. now rewrite Hx, IH.
Qed.

Section Unparsable.
Context `{Runtime}.

Lemma timeMetrics_nan (projectMeta : option Meta.t) (r0 : Result.t) :
  dates_unparsable projectMeta = true ->
  let timed := final (timeMetrics projectMeta r0) in
  ProjectData.totalDuration (Result.projectData timed) = "NaN months"
  /\ ProjectData.percentTimeElapsed (Result.projectData timed) = Num.NaN.
Proof.
  unfold dates_unparsable, timeMetrics.
  destruct projectMeta as [m|]; [|discriminate].
  destruct (Meta.startDate m) as [sd|]; [|discriminate].
  destruct (Meta.endDate m) as [ed|]; [|discriminate].
  intros Hd. apply andb_true_iff in Hd. destruct Hd as [Ht Hn]. rewrite Ht.
  cbv beta zeta delta [bind assign modify final].
  cbn [Result.projectData Result.set_projectData ProjectData.totalDuration
       ProjectData.percentTimeElapsed ProjectData.set_daysElapsed
       ProjectData.set_totalDuration ProjectData.set_percentTimeElapsed].
  rewrite (daysBetween_nan _ _ Hn). unfold percent. rewrite div_nan_r.
  split; reflexivity.
Qed.

Lemma normalized_nan (first : row) (rest : list row) (projectMeta : option Meta.t) :
  dates_unparsable projectMeta = true ->
  let r := normalizeBudgetData (Some (first :: rest)) projectMeta in
  ProjectData.totalDuration (Result.projectData r) = "NaN months"
  /\ ProjectData.percentTimeElapsed (Result.projectData r) = Num.NaN.
Proof.
  intros Hd r.
  destruct (normalized_time (Some (first :: rest)) projectMeta) as (_ & K2 & K3 & _).
  destruct (timeMetrics_nan projectMeta (emptyResult projectMeta) Hd) as [T2 T3].
  fold r in K2, K3. rewrite K2, K3. split; assumption.
Qed.

End Unparsable.

(** When the metadata has both dates and one of them is not read as a
    date, the record of a non-empty row list shows "NaN months" as the
    total duration and holds NaN as the elapsed-time percentage, on both
    paths of the block. *)
Theorem unparsable_date_time_figures `{Runtime} (first : row) (rest : list row)
    (projectMeta : option Meta.t) :
  dates_unparsable projectMeta = true ->
  let r := normalizeBudgetData (Some (first :: rest)) projectMeta in
  ProjectData.totalDuration (Result.projectData r) = "NaN months"
  /\ Num.is_nan (ProjectData.percentTimeElapsed (Result.projectData r)) = true
  /\ Forall (fun c => Num.is_nan (CostTypeEntry.expectedComplete c) = true)
       (Result.costTypeData r)
  /\ Forall (fun d => Num.is_nan (DivisionEntry.expected d) = true
                      /\ Num.is_nan (DivisionEntry.variance d) = true)
       (Result.divisionData r).
Proof.
  intros Hd r.
  destruct (normalized_nan first rest projectMeta Hd) as [Ht Hp].
  destruct (normalized_entries (Some (first :: rest)) projectMeta) as [Hct Hdiv].
  fold r in Ht, Hp, Hct, Hdiv. rewrite Hp in Hct, Hdiv.
  split; [exact Ht|]. split; [now rewrite Hp|]. split.
  - eapply Forall_impl; [|exact Hct]. intros c ->. reflexivity.
  - eapply Forall_impl; [|exact Hdiv]. intros d [-> [pc ->]].
    rewrite sub_nan_r. split; reflexivity.
Qed.

(** Witness: dates still to be decided. *)
Lemma unparsable_date_time_figures_witness :
  @dates_unparsable Sample.runtime Example.undecided = true
  /\ ProjectData.totalDuration
       (Result.projectData
          (@normalizeBudgetData Sample.runtime (Some Example.rows) Example.undecided))
     = "NaN months".
Proof.
  assert (Hd : @dates_unparsable Sample.runtime Example.undecided = true)
    by (vm_compute; reflexivity).
  split; [exact Hd|].
  destruct (@unparsable_date_time_figures Sample.runtime Example.footings
              [Example.rebar; Example.paint] Example.undecided Hd) as [Ht _].
  exact Ht.
Defined.

(** With such dates no schedule, cost-type or division finding is ever
    raised, however little was billed: every comparison with NaN fails, and
    the budget comparison alone can fire. *)
Theorem unparsable_date_findings `{Runtime} (first : row) (rest : list row)
    (projectMeta : option Meta.t) :
  dates_unparsable projectMeta = true ->
  keyFindings (Some (first :: rest)) projectMeta
  = Some (budgetFinding (Result.projectData
                           (normalizeBudgetData (Some (first :: rest)) projectMeta))).
Proof.
  intros Hd. unfold keyFindings, identifyProjectRedFlags.
  set (r := normalizeBudgetData (Some (first :: rest)) projectMeta).
  destruct (normalized_nan first rest projectMeta Hd) as [_ Hp].
  destruct (normalized_entries (Some (first :: rest)) projectMeta) as [Hct Hdiv].
  fold r in Hp, Hct, Hdiv. rewrite Hp in Hct, Hdiv.
  assert (Hs : scheduleFinding (Result.projectData r) = []).
  { unfold scheduleFinding. rewrite Hp, sub_nan_l. reflexivity. }
  assert (Hc : forEach costTypeFinding (Result.costTypeData r) = Some []).
  { apply forEach_nil. eapply Forall_impl; [|exact Hct].
    intros c Hc. unfold costTypeFinding. rewrite Hc, sub_nan_r. reflexivity. }
  assert (Hv : flat_map divisionFinding (Result.divisionData r) = []).
  { apply flat_map_nil. eapply Forall_impl; [|exact Hdiv].
    intros d [_ [pc Hvar]]. unfold divisionFinding.
    rewrite Hvar, sub_nan_r. reflexivity. }
  rewrite Hs, Hc, Hv. reflexivity.
Qed.

(** Witness: footings 40% billed, rebar 20%, paint 0%, and the only
    finding is the projected overrun. *)
Lemma unparsable_date_findings_witness :
  @dates_unparsable Sample.runtime Example.undecided = true
  /\ option_map (map Finding.title)
       (@keyFindings Sample.runtime (Some Example.rows) Example.undecided)
     = Some ["Budget Concerns"].
Proof.
  assert (Hd : @dates_unparsable Sample.runtime Example.undecided = true)
    by (vm_compute; reflexivity).
  split; [exact Hd|].
  etransitivity;
    [exact (f_equal (option_map (map Finding.title))
              (@unparsable_date_findings Sample.runtime Example.footings
                 [Example.rebar; Example.paint] Example.undecided Hd))
    | vm_compute; reflexivity].
Defined.

(** With such dates the dashboard paints every bar of the two completion
    charts red and calls every cost type significantly behind, the very
    cost types for which no finding is raised. *)
Theorem unparsable_date_dashboard `{Runtime} (first : row) (rest : list row)
    (projectMeta : option Meta.t) :
  dates_unparsable projectMeta = true ->
  let r := normalizeBudgetData (Some (first :: rest)) projectMeta in
  Forall (fun c => Dashboard.costTypeFill c = Dashboard.red
                   /\ Dashboard.costTypeStatus c = "significantly behind"
                   /\ costTypeFinding c = Some [])
    (Result.costTypeData r)
  /\ Forall (fun d => Dashboard.divisionFill d = Dashboard.red
                      /\ divisionFinding d = [])
       (Result.divisionData r).
Proof.
  intros Hd r.
  destruct (normalized_nan first rest projectMeta Hd) as [_ Hp].
  destruct (normalized_entries (Some (first :: rest)) projectMeta) as [Hct Hdiv].
  fold r in Hp, Hct, Hdiv. rewrite Hp in Hct, Hdiv. split.
  - eapply Forall_impl; [|exact Hct]. intros c Hc.
    unfold Dashboard.costTypeFill, Dashboard.getStatusColor, Dashboard.costTypeStatus,
      costTypeFinding.
    rewrite Hc, div_nan_r, sub_nan_r. repeat split.
  - eapply Forall_impl; [|exact Hdiv]. intros d [He [pc Hvar]].
    unfold Dashboard.divisionFill, Dashboard.getStatusColor, divisionFinding.
    rewrite He, Hvar, div_nan_r, sub_nan_r. repeat split.
Qed.

(** Witness: the three cost types of the example rows. *)
Lemma unparsable_date_dashboard_witness :
  @dates_unparsable Sample.runtime Example.undecided = true
  /\ Forall (fun c => Dashboard.costTypeFill c = Dashboard.red
                      /\ Dashboard.costTypeStatus c = "significantly behind"
                      /\ costTypeFinding c = Some [])
       (Result.costTypeData
          (@normalizeBudgetData Sample.runtime (Some Example.rows) Example.undecided)).
Proof.
  assert (Hd : @dates_unparsable Sample.runtime Example.undecided = true)
    by (vm_compute; reflexivity).
  split; [exact Hd|].
  exact (proj1 (@unparsable_date_dashboard Sample.runtime Example.footings
                  [Example.rebar; Example.paint] Example.undecided Hd)).
Defined.

(** With such dates the sentence under the project overview chart reads
    "NaN% ahead of schedule", whatever was billed. *)
Theorem unparsable_date_reads_ahead `{Runtime} (first : row) (rest : list row)
    (projectMeta : option Meta.t) :
  dates_unparsable projectMeta = true ->
  Dashboard.scheduleSentence
    (Result.projectData (normalizeBudgetData (Some (first :: rest)) projectMeta))
  = "Project is NaN% ahead of schedule".
Proof.
  intros Hd. destruct (normalized_nan first rest projectMeta Hd) as [_ Hp].
  unfold Dashboard.scheduleSentence. rewrite Hp, sub_nan_r.
  replace (Num.gtb Num.NaN _) with false; [reflexivity|].
  unfold Num.gtb. now destruct (ProjectData.percentBilled _).
Qed.

(** Witness: the example rows with dates still to be decided. *)
Lemma unparsable_date_reads_ahead_witness :
  @dates_unparsable Sample.runtime Example.undecided = true
  /\ Dashboard.scheduleSentence
       (Result.projectData
          (@normalizeBudgetData Sample.runtime (Some Example.rows) Example.undecided))
     = "Project is NaN% ahead of schedule".
Proof.
  assert (Hd : @dates_unparsable Sample.runtime Example.undecided = true)
    by (vm_compute; reflexivity).
  split; [exact Hd|].
  exact (@unparsable_date_reads_ahead Sample.runtime Example.footings
           [Example.rebar; Example.paint] Example.undecided Hd).
Defined.

(** ** No dates *)

Lemma getStatusColor_zero (percent : num) :
  Dashboard.getStatusColor percent (Some Num.zero)
  = if Num.gtb percent Num.zero then Dashboard.green else Dashboard.red.
Proof. destruct percent as [[]|[]| |[] m e]; reflexivity. Qed.

(** When the metadata lacks a start or an end date, the time figures of
    the record stay 0, "" and 0 on every path, and the dashboard divides
    each percentage complete by an expected progress of 0: a bar is green
    as soon as anything was billed, and red otherwise. *)
Theorem no_dates_no_expected_progress `{Runtime} (rawBudgetData : option (list row))
    (projectMeta : option Meta.t) :
  has_dates projectMeta = false ->
  let r := normalizeBudgetData rawBudgetData projectMeta in
  time_figures_zero r
  /\ Forall (fun c => Dashboard.costTypeFill c
                      = if Num.gtb (CostTypeEntry.complete c) Num.zero
                        then Dashboard.green else Dashboard.red)
       (Result.costTypeData r)
  /\ Forall (fun d => Dashboard.divisionFill d
                      = if Num.gtb (DivisionEntry.complete d) Num.zero
                        then Dashboard.green else Dashboard.red)
       (Result.divisionData r).
Proof.
  intros Hd r.
  assert (Ht : time_figures_zero r).
  { destruct (normalized_time rawBudgetData projectMeta) as (K1 & K2 & K3 & _).
    fold r in K1, K2, K3. unfold time_figures_zero. rewrite K1, K2, K3.
    destruct rawBudgetData as [[|first rest]|];
      try rewrite (timeMetrics_skipped _ _ Hd); simpl; repeat split. }
  destruct (normalized_entries rawBudgetData projectMeta) as [Hct Hdiv].
  fold r in Hct, Hdiv. destruct Ht as (T1 & T2 & T3). rewrite T3 in Hct, Hdiv.
  split; [repeat split; assumption|]. split.
  - eapply Forall_impl; [|exact Hct]. intros c Hc.
    unfold Dashboard.costTypeFill. rewrite Hc. apply getStatusColor_zero.
  - eapply Forall_impl; [|exact Hdiv]. intros d [He _].
    unfold Dashboard.divisionFill. rewrite He. apply getStatusColor_zero.
Qed.

(** Witness: the example rows with no metadata; the paint, of which nothing
    was billed, is red. *)
Lemma no_dates_no_expected_progress_witness :
  has_dates None = false
  /\ time_figures_zero (@normalizeBudgetData Sample.runtime (Some Example.rows) None)
  /\ map Dashboard.costTypeFill
       (Result.costTypeData (@normalizeBudgetData Sample.runtime (Some Example.rows) None))
     = [Dashboard.green; Dashboard.green; Dashboard.red].
Proof.
  split; [reflexivity|].
  split; [|vm_compute; reflexivity].
  exact (proj1 (@no_dates_no_expected_progress Sample.runtime (Some Example.rows)
                  None eq_refl)).
Defined.

(** ** Division labels *)

Lemma divisionNames_leading_zero (ds : string) : divisionNames ("Div 0" ++ ds) = None.
Proof. reflexivity. Qed.

Lemma leading_zero_name (cell : value) :
  leading_zero cell = true -> exists ds, division_name cell = "Div 0" ++ ds.
Proof.
  destruct cell as [| |b|n|[|c s]]; try discriminate.
  simpl. intros Hc. apply Ascii.eqb_eq in Hc. subst c.
  exists (leading_digits s). reflexivity.
Qed.

Lemma leading_zero_key (columnMap : ColumnMap.t) (r : row) :
  leading_zero (get r (ColumnMap.costCode columnMap)) = true ->
  divisionKey columnMap r
  = Some (division_name (get r (ColumnMap.costCode columnMap))).
Proof.
  unfold divisionKey.
  destruct (get r (ColumnMap.costCode columnMap)) as [| |b|n|[|c s]]; try discriminate.
  simpl. intros Hc. apply Ascii.eqb_eq in Hc. subst c. reflexivity.
Qed.

(** Cost codes written with a leading zero ("03-100") are grouped under
    "Div 03", a key the table of division names does not hold: when every
    row has such a code the block completes and no entry of the division
    list carries a descriptive name. *)
Theorem leading_zero_divisions_unlabelled `{Runtime} (first : row) (rest : list row)
    (projectMeta : option Meta.t) :
  forallb (fun r => leading_zero (get r (ColumnMap.costCode (detectAndMapColumns first))))
          (first :: rest) = true ->
  processed (Some (first :: rest)) = true
  /\ Forall (fun d => (exists ds, DivisionEntry.name d = "Div 0" ++ ds)
                      /\ divisionNames (DivisionEntry.name d) = None)
       (Result.divisionData (normalizeBudgetData (Some (first :: rest)) projectMeta)).
Proof.
  intros Hz. rewrite forallb_forall in Hz.
  set (columnMap := detectAndMapColumns first) in *.
  set (division := fun r => division_name (get r (ColumnMap.costCode columnMap))).
  assert (Hdone : rows_throw (first :: rest) first = false).
  { unfold rows_throw. fold columnMap.
    rewrite (group_rows_named _ division); [reflexivity|].
    intros r Hr. now apply leading_zero_key, Hz. }
  split; [simpl; now rewrite Hdone|].
  destruct (normalized_groups first rest projectMeta Hdone) as [Hdiv _].
  fold columnMap division in Hdiv. rewrite Hdiv.
  apply Forall_forall. intros d Hd.
  apply processDivisionData_spec in Hd. destruct Hd as [[k items] [Hg Hd]].
  apply divisionEntry_spec in Hd. cbv zeta in Hd.
  destruct Hd as (_ & Hname & _). simpl in Hname.
  apply groups_of_spec in Hg. destruct Hg as [Hne Hitems].
  destruct items as [|r items]; [congruence|].
  assert (Hr : In r (with_key division k (first :: rest))).
  { rewrite <- Hitems. now left. }
  apply filter_In in Hr. destruct Hr as [Hr Hk]. apply String.eqb_eq in Hk.
  destruct (leading_zero_name _ (Hz r Hr)) as [ds Hds].
  unfold division in Hk. rewrite Hds in Hk. subst k.
  rewrite Hname. unfold lookup_or. rewrite divisionNames_leading_zero.
  split; [now exists ds | reflexivity].
Qed.

(** Witness: the example rows, of divisions 03 and 09. *)
Lemma leading_zero_divisions_unlabelled_witness :
  processed (Some Example.rows) = true
  /\ map DivisionEntry.name
       (Result.divisionData
          (@normalizeBudgetData Sample.runtime (Some Example.rows) Example.year2024))
     = ["Div 03"; "Div 09"].
Proof.
  split; [|vm_compute; reflexivity].
  exact (proj1 (@leading_zero_divisions_unlabelled Sample.runtime Example.footings
                  [Example.rebar; Example.paint] Example.year2024 eq_refl)).
Defined.

(** ** Findings and what the dashboard makes of them *)

Lemma Forall_flat_map {A B} (P : B -> Prop) (f : A -> list B) (l : list A) :
  (forall x, Forall P (f x)) -> Forall P (flat_map f l).
Proof.
  intros Hf. induction l as [|x l IH]; simpl; [constructor|].
  apply Forall_app. split; [apply Hf | exact IH].
Qed.

(** Every finding [identifyProjectRedFlags] returns is of type "danger"
    or "warning"; the third styling of the finding cards, the blue one, is
    never used. *)
Theorem findings_are_danger_or_warning (normalizedData : Result.t) :
  match identifyProjectRedFlags normalizedData with
  | Some findings =>
      Forall (fun f => (Finding.type f = "danger" \/ Finding.type f = "warning")
                       /\ String.eqb (Dashboard.findingClass f)
                                     "bg-blue-50 border-blue-300" = false)
        findings
  | None => True
  end.
Proof.
  unfold identifyProjectRedFlags.
  destruct (forEach costTypeFinding (Result.costTypeData normalizedData))
    as [concerns|] eqn:Hc; [|exact I].
  repeat (apply Forall_app; split); try apply Forall_flat_map; try intros x.
  - unfold scheduleFinding. destruct (Num.gtb _ _); [|constructor].
    constructor; [|constructor]. unfold Dashboard.findingClass. simpl.
    destruct (Num.gtb _ _); split; auto.
  - apply forEach_Some in Hc. destruct Hc as [each [Hall ->]].
    induction Hall as [|c y l each Hy _ IH]; [constructor|].
    simpl. apply Forall_app. split; [|exact IH].
    unfold costTypeFinding in Hy. destruct (Num.ltb _ _).
    + destruct (CostTypeEntry.name c); [|discriminate]. injection Hy as <-.
      constructor; [|constructor]. split; [now left | reflexivity].
    + injection Hy as <-. constructor.
  - unfold divisionFinding. destruct (Num.ltb _ _); [|constructor].
    constructor; [|constructor]. split; [now left | reflexivity].
  - unfold budgetFinding. destruct (Num.gtb _ _); [|constructor].
    constructor; [|constructor]. unfold Dashboard.findingClass. simpl.
    destruct (Num.gtb _ _); split; auto.
Qed.

Lemma SFltb_le (a b : num) : SFltb a b = true -> SFleb a b = true.
Proof. unfold SFltb, SFleb. destruct (SFcompare a b) as [[]|]; congruence. Qed.

Lemma SFltb_below (v a b : num) :
  SFltb v a = true -> SFleb b a = false -> SFleb b v = false.
Proof.
  intros Hva Hba. destruct (SFleb b v) eqn:Hbv; [|reflexivity].
  rewrite (SFleb_trans b v a Hbv (SFltb_le _ _ Hva)) in Hba. discriminate.
Qed.

Lemma SFltb_not_ge (v a : num) : SFltb v a = true -> SFleb a v = false.
Proof.
  intros Hva. destruct (SFleb a v) eqn:Hav; [|reflexivity].
  rewrite (SFltb_SFleb _ _ Hav) in Hva. discriminate.
Qed.

Lemma SFltb_false_ge (v a : num) :
  Num.is_nan v = false -> Num.is_nan a = false -> SFltb v a = false -> SFleb a v = true.
Proof.
  intros Hv Ha. unfold SFltb, SFleb. rewrite (SFcompare_antisym v a).
  destruct (SFcompare v a) as [[]|] eqn:E; simpl; try congruence.
  destruct v, a; simpl in *; discriminate.
Qed.

(** The dashboard calls a cost type significantly behind exactly when
    the turn of [identifyProjectRedFlags] for it raises a progress concern
    or throws, or when its variance is NaN, in which case the turn does
    neither. The turn throws, and no finding at all is returned, when the
    entry is that far behind and its name is not a string. *)
Theorem status_agrees_with_progress_concern (costType : CostTypeEntry.t) :
  let variance :=
    Num.sub (CostTypeEntry.complete costType) (CostTypeEntry.expectedComplete costType) in
  String.eqb (Dashboard.costTypeStatus costType) "significantly behind"
  = raised (costTypeFinding costType) || Num.is_nan variance
  /\ raised (costTypeFinding costType) && Num.is_nan variance = false
  /\ match costTypeFinding costType, CostTypeEntry.name costType with
     | Some [], _ => True
     | Some (f :: l), Text name =>
         l = [] /\ Finding.title f = name ++ " Progress Concern"
     | None, Inherited _ => True
     | _, _ => False
     end.
Proof.
  intros variance. unfold Dashboard.costTypeStatus, costTypeFinding. fold variance.
  destruct (Num.is_nan variance) eqn:Hn.
  - rewrite (is_nan_eq _ Hn). repeat split.
  - unfold Num.ltb, Num.geb. destruct (SFltb variance (Num.of_Z (-15))) eqn:Hlt.
    + rewrite (SFltb_below _ _ (Num.of_Z 5) Hlt eq_refl).
      rewrite (SFltb_below _ _ (Num.of_Z (-5)) Hlt eq_refl).
      rewrite (SFltb_not_ge _ _ Hlt).
      destruct (CostTypeEntry.name costType); repeat split.
    + rewrite (SFltb_false_ge variance (Num.of_Z (-15)) Hn eq_refl Hlt).
      split; [|split; [reflexivity|exact I]].
      destruct (SFleb (Num.of_Z 5) variance), (SFleb (Num.of_Z (-5)) variance);
        reflexivity.
Qed.

(** ** Amounts on the dashboard *)

(** The component's [formatCurrency] abbreviates from 1000 upwards only:
    a negative amount is printed in full behind the dollar sign, whatever
    its size, be it given as a number or as a string to be stripped. *)
Theorem negative_amounts_not_abbreviated (value : value) :
  Num.ltb (amount value) Num.zero = true ->
  Dashboard.formatCurrency value = "$" ++ numberToString (amount value).
Proof.
  intros Hneg.
  assert (Hshape : forall text, Dashboard.abbreviate (amount value) text = "$" ++ text).
  { intros text. unfold Dashboard.abbreviate, Num.geb. unfold Num.ltb in Hneg.
    rewrite (SFltb_below _ _ Dashboard.million Hneg eq_refl).
    rewrite (SFltb_below _ _ Dashboard.thousand Hneg eq_refl).
    destruct (amount value); try discriminate; reflexivity. }
  destruct value as [| |[]|n|s]; try discriminate; apply Hshape.
Qed.

(** Witness: an overrun of two and a half millions the other way. *)
Lemma negative_amounts_not_abbreviated_witness :
  Num.ltb (amount (VStr "-$2,500,000")) Num.zero = true
  /\ Dashboard.formatCurrency (VStr "-$2,500,000") = "$-2500000".
Proof.
  split; [reflexivity|].
  exact (negative_amounts_not_abbreviated (VStr "-$2,500,000") eq_refl).
Defined.

Lemma SFltb_irrefl (a : num) : SFltb a a = false.
Proof.
  destruct (Num.is_nan a) eqn:Hn.
  - now rewrite (is_nan_eq _ Hn).
  - apply SFltb_SFleb. now destruct (SFleb_total a a Hn Hn).
Qed.

(** When the projected-cost cell of a row does not parse, or parses to
    0, the item's projected cost is its budget and the dashboard fills its
    projected bar blue, as for a cost exactly on budget. *)
Theorem unparsable_projection_is_on_budget (columnMap : ColumnMap.t) (r : row) :
  adds_nothing (get r (ColumnMap.projectedCost columnMap)) = true ->
  let item := budgetItem columnMap r in
  BudgetItem.projected item = BudgetItem.budget item
  /\ Dashboard.projectedFill item = Dashboard.blue.
Proof.
  intros Hn item. unfold adds_nothing in Hn. apply negb_true_iff in Hn.
  assert (Hp : BudgetItem.projected item = BudgetItem.budget item).
  { unfold item, budgetItem. cbn [BudgetItem.projected BudgetItem.budget].
    exact (proj1 (proj2 (parseFloatOr_cases _ _)) Hn). }
  split; [exact Hp|].
  unfold Dashboard.projectedFill, Num.gtb, Num.ltb. rewrite Hp.
  now rewrite SFltb_irrefl.
Qed.

(** Witness: a forecast still to be made. *)
Lemma unparsable_projection_is_on_budget_witness :
  let r := [("Current Budget", VNum (Num.of_Z 1000)); ("Forecast at Complete", VStr "TBD")] in
  let columnMap := detectAndMapColumns r in
  adds_nothing (get r (ColumnMap.projectedCost columnMap)) = true
  /\ BudgetItem.projected (budgetItem columnMap r) = Num.of_Z 1000
  /\ Dashboard.projectedFill (budgetItem columnMap r) = Dashboard.blue.
Proof.
  intros r columnMap.
  assert (Hn : adds_nothing (get r (ColumnMap.projectedCost columnMap)) = true)
    by (vm_compute; reflexivity).
  split; [exact Hn|].
  split; [vm_compute; reflexivity|].
  exact (proj2 (unparsable_projection_is_on_budget columnMap r Hn)).
Defined.

(** ** Rows without a budget *)

Lemma sumField_nothing (items : list row) (fieldName : string) :
  (forall r, In r items -> adds_nothing (get r fieldName) = true) ->
  sumField items fieldName = Num.zero.
Proof.
  unfold sumField. induction items as [|item items IH]; intros Hn; [reflexivity|].
  cbn [fold_left].
  assert (Hi : parseFloatOr (get item fieldName) Num.zero = Num.zero).
  { apply (proj1 (proj2 (parseFloatOr_cases _ _))).
    apply negb_true_iff. apply Hn. now left. }
  rewrite Hi. change (Num.add Num.zero Num.zero) with Num.zero.
  apply IH. intros r Hr. apply Hn. now right.
Qed.

Lemma groups_of_rows (name : row -> string) (rows : list row) (k : string)
    (items : list row) :
  In (k, items) (groups_of name rows) -> forall r, In r items -> In r rows.
Proof.
  intros Hg r Hr. apply groups_of_spec in Hg. destruct Hg as [_ ->].
  apply filter_In in Hr. tauto.
Qed.

(** When no row has a current-budget cell that parses to a number other
    than 0, as when the budget column was not found, nothing is divided:
    the cost-type and the division list are empty and the two percentages
    of the record are 0, whether the block completes or not. *)
Theorem unbudgeted_rows_give_empty_lists `{Runtime} (first : row) (rest : list row)
    (projectMeta : option Meta.t) :
  forallb (fun r => adds_nothing
                      (get r (ColumnMap.currentBudget (detectAndMapColumns first))))
          (first :: rest) = true ->
  let r := normalizeBudgetData (Some (first :: rest)) projectMeta in
  Result.costTypeData r = [] /\ Result.divisionData r = []
  /\ ProjectData.percentBilled (Result.projectData r) = Num.zero
  /\ ProjectData.percentOverage (Result.projectData r) = Num.zero.
Proof.
  intros Hn r. rewrite forallb_forall in Hn.
  destruct (rows_throw (first :: rest) first) eqn:Hthrow.
  - assert (Hp : processed (Some (first :: rest)) = false).
    { simpl. now rewrite Hthrow. }
    destruct (unprocessed_record _ projectMeta Hp)
      as [(_ & _ & Hpb & _ & _ & Hpct) (_ & _ & _ & Hct & Hdiv)].
    repeat split; assumption.
  - set (columnMap := detectAndMapColumns first) in *.
    assert (Hgroup : forall name k items,
              In (k, items) (groups_of name (first :: rest)) ->
              sumField items (ColumnMap.currentBudget columnMap) = Num.zero).
    { intros name k items Hg. apply sumField_nothing.
      intros x Hx. apply Hn. eapply groups_of_rows; eassumption. }
    destruct (normalized_groups first rest projectMeta Hthrow) as [Hdiv Hct].
    fold r columnMap in Hdiv, Hct.
    pose proof (processing_done (first :: rest) first projectMeta
                  (emptyResult projectMeta) Hthrow) as Hd.
    cbv zeta in Hd. fold columnMap in Hd.
    destruct Hd as (_ & _ & _ & Hpb & _ & _ & Hpct & _).
    rewrite (sumField_nothing _ _ Hn) in Hpb, Hpct.
    split; [|split; [|split]].
    + rewrite Hct. apply flat_map_nil. apply Forall_forall.
      intros [k items] Hg. unfold costTypeEntry.
      now rewrite (Hgroup _ _ _ Hg).
    + rewrite Hdiv. unfold processDivisionData.
      rewrite flat_map_nil; [reflexivity|]. apply Forall_forall.
      intros [k items] Hg. unfold divisionEntry.
      now rewrite (Hgroup _ _ _ Hg).
    + exact Hpb.
    + exact Hpct.
Qed.

(** Witness: headers no pattern recognises, so that the budget is looked
    for under a default column name the rows do not have. *)
Lemma unbudgeted_rows_give_empty_lists_witness :
  let r := [("Item", VStr "Footings"); ("Amount", VNum (Num.of_Z 1000))] in
  forallb (fun x => adds_nothing
                      (get x (ColumnMap.currentBudget (detectAndMapColumns r)))) [r]
  = true
  /\ Result.costTypeData (@normalizeBudgetData Sample.runtime (Some [r]) None) = []
  /\ Result.divisionData (@normalizeBudgetData Sample.runtime (Some [r]) None) = [].
Proof.
  intros r.
  assert (Hn : forallb (fun x => adds_nothing
                         (get x (ColumnMap.currentBudget (detectAndMapColumns r)))) [r]
               = true) by (vm_compute; reflexivity).
  split; [exact Hn|].
  destruct (@unbudgeted_rows_give_empty_lists Sample.runtime r [] None Hn)
    as (Hct & Hdiv & _).
  split; assumption.
Defined.

(** ** Ties in the sorted lists *)

Lemma SFeqb_leb (a b : num) :
  SFeqb a b = true -> SFleb a b = true /\ SFleb b a = true.
Proof.
  unfold SFeqb, SFleb. rewrite (SFcompare_antisym a b).
  destruct (SFcompare a b) as [[]|]; simpl; try discriminate. auto.
Qed.

Lemma SFleb_antisym (a b : num) :
  SFleb a b = true -> SFleb b a = true -> SFeqb a b = true.
Proof.
  unfold SFeqb, SFleb. rewrite (SFcompare_antisym a b).
  destruct (SFcompare a b) as [[]|]; simpl; congruence.
Qed.

Lemma SFeqb_common (k a b : num) :
  SFeqb k a = true -> SFeqb k b = true -> SFeqb a b = true.
Proof.
  intros Ha Hb. apply SFeqb_leb in Ha, Hb. destruct Ha as [Hka Hak], Hb as [Hkb Hbk].
  apply SFleb_antisym; eapply SFleb_trans; eassumption.
Qed.

Lemma SFeqb_opp (a b : num) : SFeqb (SFopp a) (SFopp b) = SFeqb a b.
Proof.
  unfold SFeqb. rewrite SFcompare_opp, (SFcompare_antisym a b).
  destruct (SFcompare a b) as [[]|]; reflexivity.
Qed.

Section Stable.
Context {A : Type} (iteratee : A -> num) (k : num).

Lemma filter_sort_insert (x : A) (l : list A) :
  filter (fun y => SFeqb k (iteratee y)) (sort_insert iteratee x l)
  = filter (fun y => SFeqb k (iteratee y)) (x :: l).
Proof.
  induction l as [|y l IH]; [reflexivity|].
  cbn [sort_insert].
  destruct (compareAscending (iteratee x) (iteratee y) <=? 0) eqn:Hc; [reflexivity|].
  cbn [filter] in *. rewrite IH.
  destruct (SFeqb k (iteratee x)) eqn:Hx, (SFeqb k (iteratee y)) eqn:Hy; try reflexivity.
  unfold compareAscending in Hc. rewrite (SFeqb_common _ _ _ Hx Hy) in Hc.
  discriminate.
Qed.

(** The sort is stable: the elements of one key stay in their order. *)
Lemma sortBy_stable (l : list A) :
  filter (fun y => SFeqb k (iteratee y)) (sortBy iteratee l)
  = filter (fun y => SFeqb k (iteratee y)) l.
Proof.
  induction l as [|x l IH]; [reflexivity|].
  cbn [sortBy fold_right]. fold (sortBy iteratee l).
  rewrite filter_sort_insert. cbn [filter]. now rewrite IH.
Qed.

End Stable.

(** Ties keep their order. The divisions of one percentage complete
    come in the order of their groups, and the budget items of one budget
    in the order of their rows, when the limit does not cut the list. *)
Theorem ties_keep_their_order (groupedByDivision : groups) (rawBudgetData : list row)
    (columnMap : ColumnMap.t) (expectedComplete k : num) :
  filter (same_complete k)
    (processDivisionData groupedByDivision columnMap expectedComplete)
  = filter (same_complete k)
      (flat_map (divisionEntry columnMap expectedComplete) groupedByDivision)
  /\ filter (same_budget k)
       (processTopBudgetItems rawBudgetData columnMap (List.length rawBudgetData))
     = filter (same_budget k) (map (budgetItem columnMap) rawBudgetData).
Proof.
  split.
  - unfold processDivisionData.
    rewrite (filter_ext (same_complete k)
               (fun y => SFeqb (SFopp k) (Num.neg (DivisionEntry.complete y)))).
    + rewrite sortBy_stable. apply filter_ext.
      intros d. unfold same_complete, Num.neg. apply SFeqb_opp.
    + intros d. unfold same_complete, Num.neg. symmetry. apply SFeqb_opp.
  - unfold processTopBudgetItems. rewrite firstn_all2.
    + rewrite (filter_ext (same_budget k)
                 (fun y => SFeqb (SFopp k) (Num.neg (BudgetItem.budget y)))).
      * rewrite sortBy_stable. apply filter_ext.
        intros d. unfold same_budget, Num.neg. apply SFeqb_opp.
      * intros d. unfold same_budget, Num.neg. symmetry. apply SFeqb_opp.
    + rewrite (Permutation_length (sortBy_perm _ _)). now rewrite length_map.
Qed.

(** * The claims on columns, findings, variances and progress pairs *)

(** ** Column detection *)

Lemma infer_fields (keys : list string) (i : nat) :
  (i < 8)%nat ->
  nth i (ColumnMap.fields (inferColumnMappings keys)) ""
  = find_or (nth i fallbacks Pat.code) keys (nth i default_columns "").
Proof. intros Hi. do 8 (destruct i as [|i]; [reflexivity|]). lia. Qed.

(** C3: the column map is computed from the keys of the first row alone.
    Each of its eight columns is selected by matching the keys, case
    ignored: it is the last key that the detection chain gives to the
    field; when there is none, the first key the field's fallback pattern
    accepts; and the default name of the field only when no key is
    selected either way. So each column is a key that one of the field's
    two patterns accepts or the default name, and none is empty. *)
Theorem column_detection `{Runtime} (first other : row) (rest : list row)
    (projectMeta : option Meta.t) :
  keys_of other = keys_of first ->
  let keys := keys_of first in
  let columnMap := detectAndMapColumns first in
  normalizeBudgetData (Some (first :: rest)) projectMeta
  = final (processing (first :: rest) first projectMeta (emptyResult projectMeta))
  /\ detectAndMapColumns other = columnMap
  /\ ColumnMap.fields columnMap = map (fun i => selected_column i keys) (seq 0 8)
  /\ Forall (fun column => column <> "") (ColumnMap.fields columnMap)
  /\ detected_by keys Pat.costCode Pat.code "Budget Code"
       (ColumnMap.costCode columnMap)
  /\ detected_by keys Pat.description Pat.descr "Budget Code Description"
       (ColumnMap.costCodeDescription columnMap)
  /\ detected_by keys Pat.costType Pat.type "Cost Type"
       (ColumnMap.costType columnMap)
  /\ detected_by keys Pat.currentBudget Pat.budget "E - Current Contract Budget"
       (ColumnMap.currentBudget columnMap)
  /\ detected_by keys Pat.billedToDate Pat.billed "J - Total Billed to Date"
       (ColumnMap.billedToDate columnMap)
  /\ detected_by keys Pat.percentBilled Pat.pctBilled "% Billed to Date"
       (ColumnMap.percentBilled columnMap)
  /\ detected_by keys Pat.projectedCost Pat.projected "Q - Proj Cost @ Complete (J+P)"
       (ColumnMap.projectedCost columnMap)
  /\ detected_by keys Pat.variance Pat.varianceOverUnder "(Over) / Under Budget (G-Q)"
       (ColumnMap.variance columnMap).
Proof.
  intros Hkeys keys columnMap.
  split; [reflexivity|].
  split; [unfold columnMap, detectAndMapColumns; now rewrite Hkeys|].
  split.
  { change (ColumnMap.fields columnMap)
      with (map (fun i => nth i (ColumnMap.fields columnMap) "") (seq 0 8)).
    apply map_ext_in. intros i Hi. apply in_seq in Hi.
    unfold columnMap. rewrite detected_column_spec by lia.
    unfold detected_column, selected_column. fold keys.
    rewrite infer_fields by lia. reflexivity. }
  assert (Hinv : loop_invariant keys (fold_left detect_key keys ColumnMap.empty)).
  { apply detect_loop_invariant; [apply incl_refl|].
    unfold loop_invariant, unset_or_matched; simpl; repeat split; now left. }
  destruct Hinv as (H1 & H2 & H3 & H4 & H5 & H6 & H7 & H8).
  unfold columnMap, detectAndMapColumns, merge, inferColumnMappings,
    ColumnMap.fields; simpl; fold keys.
  pose proof (pick_detected keys _ Pat.code "Budget Code" _ ltac:(discriminate) H1) as [? ?].
  pose proof (pick_detected keys _ Pat.descr "Budget Code Description" _
                ltac:(discriminate) H2) as [? ?].
  pose proof (pick_detected keys _ Pat.type "Cost Type" _ ltac:(discriminate) H3) as [? ?].
  pose proof (pick_detected keys _ Pat.budget "E - Current Contract Budget" _
                ltac:(discriminate) H4) as [? ?].
  pose proof (pick_detected keys _ Pat.billed "J - Total Billed to Date" _
                ltac:(discriminate) H5) as [? ?].
  pose proof (pick_detected keys _ Pat.pctBilled "% Billed to Date" _
                ltac:(discriminate) H6) as [? ?].
  pose proof (pick_detected keys _ Pat.projected "Q - Proj Cost @ Complete (J+P)" _
                ltac:(discriminate) H7) as [? ?].
  pose proof (pick_detected keys _ Pat.varianceOverUnder "(Over) / Under Budget (G-Q)" _
                ltac:(discriminate) H8) as [? ?].
  repeat split; try assumption.
  repeat (constructor; [assumption|]). constructor.
Qed.

(** C3, witness: two rows with the same keys and different cells. Six of
    the columns are keys of the row; no key is a percentage billed or a
    variance, and these two get their default names. *)
Lemma column_detection_witness :
  keys_of Example.rebar = keys_of Example.footings
  /\ detectAndMapColumns Example.rebar = detectAndMapColumns Example.footings
  /\ map (fun i => selected_column i (keys_of Example.footings)) (seq 0 8)
     = ["Cost Code"; "Description"; "Type"; "Current Budget"; "Total Billed";
        "% Billed to Date"; "Forecast at Complete"; "(Over) / Under Budget (G-Q)"]
  /\ ColumnMap.fields (detectAndMapColumns Example.footings)
     = map (fun i => selected_column i (keys_of Example.footings)) (seq 0 8).
Proof.
  split; [reflexivity|].
  destruct (@column_detection Sample.runtime Example.footings Example.rebar []
              None eq_refl) as (_ & Hsame & Hsel & _).
  split; [exact Hsame|]. split; [vm_compute; reflexivity | exact Hsel].
Defined.

(** ** Red flags on a cost type named like an inherited property *)

(** C5, on the failing input: one row of cost type "constructor", 10%
    billed half way through the year. [costTypeMap] answers the key with
    what every object inherits under it, the entry's name is not a string,
    the entry is more than 15 behind and the schedule comparison holds,
    and [identifyProjectRedFlags] throws at [name.split]: no finding is
    returned. The dashboard calls the entry significantly behind. *)
Lemma inherited_cost_type_name_throws :
  let r := @normalizeBudgetData Sample.runtime (Some [Example.inheritedType])
             Example.year2024 in
  map CostTypeEntry.name (Result.costTypeData r) = [Inherited "constructor"]
  /\ map (fun c => Num.ltb (Num.sub (CostTypeEntry.complete c)
                                    (CostTypeEntry.expectedComplete c))
                           (Num.of_Z (-15)))
       (Result.costTypeData r) = [true]
  /\ Num.gtb (scheduleVariance (Result.projectData r)) (Num.of_Z 5) = true
  /\ identifyProjectRedFlags r = None
  /\ map Dashboard.costTypeStatus (Result.costTypeData r) = ["significantly behind"].
Proof. vm_compute. repeat split. Qed.

(** ** Variance arithmetic *)

(** C6: at the project level the overage is the projected final cost less
    the total budget, and the overage percentage is that overage over the
    total budget times 100 when the total budget is positive, else 0; the
    record holds them formatted as currency and rounded to two decimals.
    The division list holds exactly one entry for each division whose rows
    have a positive budget sum, and the variance of that entry is the
    percentage complete of those very rows less the expected percentage of
    the record, rounded to two decimals. The budget list is that of
    [processTopBudgetItems], each of whose items is made of one row: its
    variance is its budget less its projected cost, the projected cost
    being that row's projected-cost cell, or the item's budget when the
    cell does not parse (or parses to zero). *)
Theorem variance_arithmetic `{Runtime} (first : row) (rest : list row)
    (projectMeta : option Meta.t) (columnMap' : ColumnMap.t)
    (rawBudgetData : list row) (limit : nat) :
  completes (processing (first :: rest) first projectMeta (emptyResult projectMeta))
  = true ->
  let rows := first :: rest in
  let columnMap := detectAndMapColumns first in
  let totalBudget := sumField rows (ColumnMap.currentBudget columnMap) in
  let projectedFinalCost := sumField rows (ColumnMap.projectedCost columnMap) in
  let projectedOverage := Num.sub projectedFinalCost totalBudget in
  let percentOverage :=
    if Num.gtb totalBudget Num.zero
    then Num.mul (Num.div projectedOverage totalBudget) hundred else Num.zero in
  let r := normalizeBudgetData (Some rows) projectMeta in
  let expectedComplete := ProjectData.percentTimeElapsed (Result.projectData r) in
  ProjectData.projectedOverage (Result.projectData r)
  = VStr (formatCurrency projectedOverage)
  /\ ProjectData.percentOverage (Result.projectData r) = round2 percentOverage
  /\ (forall d,
        In d (Result.divisionData r) <->
        exists division,
          with_key (division_of columnMap) division rows <> []
          /\ let items := with_key (division_of columnMap) division rows in
             let groupBudget := sumField items (ColumnMap.currentBudget columnMap) in
             let groupBilled := sumField items (ColumnMap.billedToDate columnMap) in
             let percentComplete := Num.mul (Num.div groupBilled groupBudget) hundred in
             Num.gtb groupBudget Num.zero = true
             /\ d = {| DivisionEntry.name := lookup_or divisionNames division;
                       DivisionEntry.complete := round2 percentComplete;
                       DivisionEntry.expected := expectedComplete;
                       DivisionEntry.variance :=
                         round2 (Num.sub percentComplete expectedComplete) |})
  /\ Result.budgetData r = processTopBudgetItems rows columnMap default_limit
  /\ Forall (fun item =>
       exists row,
         In row rawBudgetData
         /\ item = budgetItem columnMap' row
         /\ BudgetItem.variance item
            = Num.sub (BudgetItem.budget item) (BudgetItem.projected item)
         /\ let cell := get row (ColumnMap.projectedCost columnMap') in
            (Num.truthy (Val.parseFloat cell) = true ->
             BudgetItem.projected item = Val.parseFloat cell)
            /\ (Num.truthy (Val.parseFloat cell) = false ->
                BudgetItem.projected item = BudgetItem.budget item)
            /\ (Num.is_nan (Val.parseFloat cell) = true ->
                BudgetItem.projected item = BudgetItem.budget item))
       (processTopBudgetItems rawBudgetData columnMap' limit).
Proof.
  intros Hdone rows columnMap totalBudget projectedFinalCost projectedOverage
    percentOverage r expectedComplete.
  rewrite processing_completes in Hdone. apply negb_true_iff in Hdone.
  pose proof (processing_done (first :: rest) first projectMeta
                (emptyResult projectMeta) Hdone) as Hp.
  cbv zeta in Hp.
  destruct Hp as (_ & _ & _ & _ & _ & Hover & Hpct & _ & _ & _ & _ & Hitems).
  destruct (normalized_groups first rest projectMeta Hdone) as [Hdiv _].
  fold rows columnMap r expectedComplete in Hdiv.
  split; [exact Hover|]. split; [exact Hpct|]. split; [|split; [exact Hitems|]].
  - intros d. rewrite Hdiv. unfold processDivisionData.
    fold (division_of columnMap).
    destruct (groups_of_spec (division_of columnMap) rows) as [_ Hspec].
    split.
    + intros Hd. eapply Permutation_in in Hd; [|apply sortBy_perm].
      apply in_flat_map in Hd. destruct Hd as [[division items] [Hg Hd]].
      apply Hspec in Hg. destruct Hg as [Hne Hitems'].
      exists division. rewrite <- Hitems'. split; [exact Hne|].
      unfold divisionEntry in Hd. fold (percent
        (sumField items (ColumnMap.billedToDate columnMap))
        (sumField items (ColumnMap.currentBudget columnMap))).
      destruct (Num.gtb (sumField items (ColumnMap.currentBudget columnMap)) Num.zero);
        [|contradiction].
      destruct Hd as [<-|[]]. split; reflexivity.
    + intros [division [Hne [Hgt ->]]].
      eapply Permutation_in; [apply Permutation_sym, sortBy_perm|].
      apply in_flat_map.
      exists (division, with_key (division_of columnMap) division rows).
      split; [apply Hspec; split; [exact Hne|reflexivity]|].
      unfold divisionEntry. rewrite Hgt. now left.
  - apply Forall_forall. intros item Hitem.
    unfold processTopBudgetItems in Hitem. apply In_firstn in Hitem.
    eapply Permutation_in in Hitem; [|apply sortBy_perm].
    apply in_map_iff in Hitem. destruct Hitem as [row [<- Hrow]].
    exists row. split; [exact Hrow|]. split; [reflexivity|]. split; [reflexivity|].
    simpl. apply parseFloatOr_cases.
Qed.

(** C6, witness: the example rows half way through the year 2024. The
    footings and the rebar make division 03, of which 500 of 1500 is
    billed: 33.33 percent complete against 49.86 expected, a variance of
    -16.53. The footings, with a budget of 1000 and a forecast of 1100,
    have a variance of -100. *)
Lemma variance_arithmetic_witness :
  let r := @normalizeBudgetData Sample.runtime (Some Example.rows) Example.year2024 in
  completes (@processing Sample.runtime Example.rows Example.footings
               Example.year2024 (@emptyResult Sample.runtime Example.year2024)) = true
  /\ ProjectData.projectedOverage (Result.projectData r) = VStr "$100"
  /\ In {| DivisionEntry.name := "Div 03";
           DivisionEntry.complete := hundredths 3333;
           DivisionEntry.expected := hundredths 4986;
           DivisionEntry.variance := Num.neg (hundredths 1653) |}
        (Result.divisionData r)
  /\ map (fun item => numberToString (BudgetItem.variance item)) (Result.budgetData r)
     = ["-100"; "0"; "0"]
  /\ Forall (fun item =>
       BudgetItem.variance item
       = Num.sub (BudgetItem.budget item) (BudgetItem.projected item))
       (processTopBudgetItems Example.rows (detectAndMapColumns Example.footings) 5).
Proof.
  intros r.
  assert (Hdone :
    completes (@processing Sample.runtime Example.rows Example.footings
                 Example.year2024 (@emptyResult Sample.runtime Example.year2024)) = true)
    by (vm_compute; reflexivity).
  split; [exact Hdone|].
  destruct (@variance_arithmetic Sample.runtime Example.footings
              [Example.rebar; Example.paint] Example.year2024
              (detectAndMapColumns Example.footings) Example.rows 5%nat Hdone)
    as (Hover & _ & Hdiv & Hbudget & Hitems).
  split; [etransitivity; [exact Hover | vm_compute; reflexivity]|].
  split.
  - apply (proj2 (Hdiv _)). exists "Div 03".
    split; [vm_compute; discriminate|]. split; vm_compute; reflexivity.
  - split; [vm_compute; reflexivity|].
    eapply Forall_impl; [|exact Hitems].
    intros item [row (_ & _ & Hv & _)]. exact Hv.
Defined.

(** ** The two progress pairs *)

Lemma NumStr_eqb_eq (a b : num) : NumStr.eqb a b = true -> a = b.
Proof.
  destruct a as [sa|sa| |sa ma ea], b as [sb|sb| |sb mb eb]; simpl;
    try discriminate; try reflexivity.
  - intros E. apply Bool.eqb_prop in E. now subst.
  - intros E. apply Bool.eqb_prop in E. now subst.
  - intros E. apply andb_true_iff in E. destruct E as [E E3].
    apply andb_true_iff in E. destruct E as [E1 E2].
    apply Bool.eqb_prop in E1. apply Pos.eqb_eq in E2. apply Z.eqb_eq in E3.
    now subst.
Qed.

Lemma every_from_spec (p : Z -> bool) (fuel : nat) (k : Z) :
  every_from fuel k p = true ->
  forall j, k <= j < k + Z.of_nat fuel -> p j = true.
Proof.
  revert k. induction fuel as [|fuel IH]; intros k Hall j Hj; [lia|].
  cbn [every_from] in Hall. apply andb_true_iff in Hall. destruct Hall as [Hk Hall].
  destruct (Z.eq_dec j k) as [->|Hne]; [exact Hk|].
  apply (IH (k + 1) Hall). lia.
Qed.

(** The 40001 numbers, each by evaluation. *)
Lemma hundredths_checked : every_from (Z.to_nat 40001) 0 checked = true.
Proof. vm_cast_no_check (eq_refl true). Qed.

Lemma checked_spec (k : Z) :
  0 <= k <= 40000 ->
  Num.add (hundredths k) (Num.sub hundred (hundredths k)) = hundred
  /\ Str.parseFloat (Str.fixed_digits 2 k) = hundredths k
  /\ two_decimals (hundredths k) = true.
Proof.
  intros Hk.
  assert (H : checked k = true).
  { apply (every_from_spec checked _ 0 hundredths_checked k). lia. }
  unfold checked, sum_exact in H. cbv zeta in H.
  apply andb_true_iff in H. destruct H as [H H3].
  apply andb_true_iff in H. destruct H as [H1 H2].
  split; [now apply NumStr_eqb_eq|]. split; [now apply NumStr_eqb_eq|exact H3].
Qed.

Lemma two_decimals_sum (v : num) :
  two_decimals v = true -> Num.add v (Num.sub hundred v) = hundred.
Proof.
  intros Hv.
  assert (Hk : exists k, 0 <= k <= 40000 /\ v = hundredths k).
  { destruct v as [[]|[]| |[] m e]; try discriminate.
    - exists 0. split; [lia|reflexivity].
    - cbn [two_decimals] in Hv. apply andb_true_iff in Hv. destruct Hv as [Hr He].
      apply andb_true_iff in Hr. destruct Hr as [H0 H1].
      exists (Num.scaled_round 2 m e). split; [lia|]. now apply NumStr_eqb_eq. }
  destruct Hk as [k [Hk ->]]. now apply checked_spec.
Qed.

Lemma scaled_round_nonneg (f : nat) (m : positive) (e : Z) :
  0 <= Num.scaled_round f m e.
Proof.
  unfold Num.scaled_round.
  assert (Ht : 0 <= Z.pos m * 10 ^ Z.of_nat f).
  { apply Z.mul_nonneg_nonneg; [lia|]. apply Z.pow_nonneg. lia. }
  destruct (Z.leb_spec 0 e) as [He|He].
  - apply Z.mul_nonneg_nonneg; [exact Ht|]. apply Z.pow_nonneg. lia.
  - apply Z.div_pos.
    + assert (0 <= 2 ^ (- e)) by (apply Z.pow_nonneg; lia). lia.
    + apply Z.pow_pos_nonneg; lia.
Qed.

(** A percentage within the range is rounded to one of the 40001 numbers. *)
Lemma round2_two_decimals (x : num) :
  rounds_within x = true -> two_decimals (round2 x) = true.
Proof.
  destruct x as [s|s| |[] m e]; try discriminate.
  - intros _. destruct s; reflexivity.
  - cbn [rounds_within]. intros Hx. apply andb_true_iff in Hx. destruct Hx as [Hg Hn].
    apply negb_true_iff in Hg. apply Z.leb_le in Hn.
    unfold round2, toFixed. rewrite Hg.
    change ("" ++ Str.fixed_digits 2 (Num.scaled_round 2 m e))
      with (Str.fixed_digits 2 (Num.scaled_round 2 m e)).
    pose proof (scaled_round_nonneg 2 m e) as H0.
    destruct (checked_spec (Num.scaled_round 2 m e) (conj H0 Hn)) as (_ & -> & Ht).
    exact Ht.
Qed.

(** C9, as the code has it: when the block completes, [timeData] is the
    pair ('Time Elapsed', v), ('Time Remaining', 100 - v) for v the
    [percentTimeElapsed] of the record, and [budgetSpentData] the pair
    ('Budget Spent', w), ('Budget Remaining', 100 - w) for w its
    [percentBilled], the subtraction being that of the numbers. The two
    values of a pair sum exactly to 100 whenever the percentage is one of
    the two-decimal numbers from 0.00 to 400.00; it is one of them when
    the metadata lacks a date, for v, and when the billed total is from 0
    to 400 percent of the budget total, for w. *)
Theorem progress_pairs `{Runtime} (first : row) (rest : list row)
    (projectMeta : option Meta.t) :
  completes (processing (first :: rest) first projectMeta (emptyResult projectMeta))
  = true ->
  let columnMap := detectAndMapColumns first in
  let totalBudget := sumField (first :: rest) (ColumnMap.currentBudget columnMap) in
  let totalBilled := sumField (first :: rest) (ColumnMap.billedToDate columnMap) in
  let percentBilled :=
    if Num.gtb totalBudget Num.zero
    then Num.mul (Num.div totalBilled totalBudget) hundred else Num.zero in
  let r := normalizeBudgetData (Some (first :: rest)) projectMeta in
  let v := ProjectData.percentTimeElapsed (Result.projectData r) in
  let w := ProjectData.percentBilled (Result.projectData r) in
  Result.timeData r
  = [ {| Slice.name := "Time Elapsed"; Slice.value := v |};
      {| Slice.name := "Time Remaining"; Slice.value := Num.sub hundred v |} ]
  /\ Result.budgetSpentData r
     = [ {| Slice.name := "Budget Spent"; Slice.value := w |};
         {| Slice.name := "Budget Remaining"; Slice.value := Num.sub hundred w |} ]
  /\ (two_decimals v = true ->
      fold_left Num.add (map Slice.value (Result.timeData r)) Num.zero = hundred)
  /\ (two_decimals w = true ->
      fold_left Num.add (map Slice.value (Result.budgetSpentData r)) Num.zero = hundred)
  /\ (has_dates projectMeta = false -> two_decimals v = true)
  /\ (rounds_within percentBilled = true -> two_decimals w = true).
Proof.
  intros Hdone columnMap totalBudget totalBilled percentBilled r v w.
  rewrite processing_completes in Hdone. apply negb_true_iff in Hdone.
  pose proof (processing_done (first :: rest) first projectMeta
                (emptyResult projectMeta) Hdone) as Hp.
  cbv zeta in Hp.
  destruct Hp as (Hpte & _ & _ & Hpb & _ & _ & _ & Htime & Hspent & _).
  assert (Ht : Result.timeData r
               = [ {| Slice.name := "Time Elapsed"; Slice.value := v |};
                   {| Slice.name := "Time Remaining";
                      Slice.value := Num.sub hundred v |} ]).
  { unfold v, r, normalizeBudgetData. rewrite Htime, Hpte. reflexivity. }
  assert (Hs : Result.budgetSpentData r
               = [ {| Slice.name := "Budget Spent"; Slice.value := w |};
                   {| Slice.name := "Budget Remaining";
                      Slice.value := Num.sub hundred w |} ]) by exact Hspent.
  assert (Hsum : forall x, two_decimals x = true ->
            fold_left Num.add [x; Num.sub hundred x] Num.zero = hundred).
  { intros x Hx. cbn [fold_left].
    replace (Num.add Num.zero x) with x; [now apply two_decimals_sum|].
    destruct x as [[]|[]| |[] m e]; try discriminate; reflexivity. }
  split; [exact Ht|]. split; [exact Hs|]. split; [|split; [|split]].
  - intros Hv. rewrite Ht. apply (Hsum v Hv).
  - intros Hw. rewrite Hs. apply (Hsum w Hw).
  - intros Hd. unfold v, r, normalizeBudgetData. rewrite Hpte.
    rewrite (timeMetrics_skipped _ _ Hd). reflexivity.
  - intros Hr. unfold w, r, normalizeBudgetData. rewrite Hpb.
    apply round2_two_decimals. exact Hr.
Qed.

(** C9, witness: half way through the year 2024, 49.86 percent of the time
    has elapsed and 27.78 percent of the budget is billed; both pairs sum
    to 100. *)
Lemma progress_pairs_witness :
  let r := @normalizeBudgetData Sample.runtime (Some Example.rows) Example.year2024 in
  completes (@processing Sample.runtime Example.rows Example.footings
               Example.year2024 (@emptyResult Sample.runtime Example.year2024)) = true
  /\ map Slice.name (Result.timeData r) = ["Time Elapsed"; "Time Remaining"]
  /\ ProjectData.percentTimeElapsed (Result.projectData r) = hundredths 4986
  /\ ProjectData.percentBilled (Result.projectData r) = hundredths 2778
  /\ fold_left Num.add (map Slice.value (Result.timeData r)) Num.zero = hundred
  /\ fold_left Num.add (map Slice.value (Result.budgetSpentData r)) Num.zero = hundred.
Proof.
  intros r.
  assert (Hdone :
    completes (@processing Sample.runtime Example.rows Example.footings
                 Example.year2024 (@emptyResult Sample.runtime Example.year2024)) = true)
    by (vm_compute; reflexivity).
  split; [exact Hdone|].
  destruct (@progress_pairs Sample.runtime Example.footings
              [Example.rebar; Example.paint] Example.year2024 Hdone)
    as (Ht & _ & Hv & Hw & _ & Hr).
  split; [unfold r; change (Some Example.rows)
            with (Some (Example.footings :: [Example.rebar; Example.paint]));
          rewrite Ht; reflexivity|].
  split; [vm_compute; reflexivity|]. split; [vm_compute; reflexivity|].
  split; [apply Hv | apply Hw, Hr]; vm_compute; reflexivity.
Defined.

(** C9, counterexample: with dates that do not parse the block completes,
    the elapsed percentage is NaN, so both values of [timeData] are NaN and
    their sum is not 100. *)
Lemma progress_pair_of_NaN :
  let r := @normalizeBudgetData Sample.runtime (Some Example.rows) Example.undecided in
  completes (@processing Sample.runtime Example.rows Example.footings
               Example.undecided (@emptyResult Sample.runtime Example.undecided)) = true
  /\ map Slice.value (Result.timeData r) = [Num.NaN; Num.NaN]
  /\ SFeqb (fold_left Num.add (map Slice.value (Result.timeData r)) Num.zero) hundred
     = false.
Proof. vm_compute. repeat split. Qed.

(** Below 0 the sum need not be exact either: for a project looked at 91
    days before its start the elapsed percentage is -33.33, the remaining
    one 133.32999999999998 and their sum 99.99999999999999. *)
Lemma progress_pair_before_start :
  let r := @normalizeBudgetData Sample.runtime (Some Example.rows) Example.notStarted in
  completes (@processing Sample.runtime Example.rows Example.footings
               Example.notStarted (@emptyResult Sample.runtime Example.notStarted)) = true
  /\ map (fun s => numberToString (Slice.value s)) (Result.timeData r)
     = ["-33.33"; "133.32999999999998"]
  /\ numberToString (fold_left Num.add (map Slice.value (Result.timeData r)) Num.zero)
     = "99.99999999999999"
  /\ SFeqb (fold_left Num.add (map Slice.value (Result.timeData r)) Num.zero) hundred
     = false.
Proof. vm_compute. repeat split. Qed.
